(** * Feedly MCP server: a shallow embedding of [feedly_mcp] and its properties

    The development follows the layout of the Python package:
    - [PyStr]     the string operations of Python the code relies on;
    - [Py]        dynamically typed values (decoded JSON), exceptions, and the
                  builtins applied to upstream payloads;
    - [JsonCodec] [json.dumps(_, indent=2)] and [json.loads];
    - [Datetime]  [datetime.fromtimestamp] and [strftime];
    - [Constants] constants.py;
    - [Client]    client.py, the transport;
    - [Models]    models.py, the input schemas;
    - [Server]    server.py, formatters and tools;
    - [Spec]      the notions the properties are stated with;
    - [Samples]   hosts and payloads the properties are tried on;
    - [More]      the notions the further properties are stated with.
    The properties follow, claim by claim, then the further ones.

    Conventions.  A Python [str] is a [string]; one character stands for one
    code point (the embedding covers code points below 256).  Python [int] is
    [Z].  A [value] holds no float: a payload is built of [None], booleans,
    integers, strings, lists and dictionaries.  What [json.loads] returns is
    a [document], which also holds the numbers written with a fraction or
    an exponent and strings of any code points.  Code that may raise
    returns a [result]; the exceptions are the instances of [Exception],
    with the messages of CPython 3.11.  The limits of the interpreter (the
    depth of recursion, the 4300 digits of a conversion between an integer
    and its text) are not modelled. *)

From Stdlib Require Import ZArith NArith List String Ascii Bool Lia.
From Stdlib Require Import Permutation Sorted DecimalString DecimalPos DecimalFacts.
Import ListNotations.

Set Warnings "-register-all".

Local Open Scope string_scope.
Local Open Scope Z_scope.

(* ====================================================================== *)
(** ** Python strings *)
(* ====================================================================== *)

Module PyStr.

(** [len(s)] *)
Definition len (s : string) : Z := Z.of_nat (String.length s).

(** [s[:n]] for an index of either sign. *)
Definition slice_to (n : Z) (s : string) : string :=
  if n <? 0 then substring 0 (Z.to_nat (len s + n)) s
  else substring 0 (Z.to_nat n) s.

(** [s[n:]] for a non-negative index. *)
Fixpoint drop (n : nat) (s : string) : string :=
  match n, s with
  | O, _ => s
  | S _, EmptyString => EmptyString
  | S k, String _ s' => drop k s'
  end.

Definition slice_from (n : Z) (s : string) : string := drop (Z.to_nat n) s.

(** [s.startswith(p)] *)
Definition startswith (p s : string) : bool := String.prefix p s.

(** [sub in s] *)
Fixpoint contains (sub s : string) : bool :=
  String.prefix sub s ||
  match s with
  | EmptyString => false
  | String _ s' => contains sub s'
  end.

(** [s.split(sep)] for a non-empty separator: [skip] counts the characters of
    a separator just matched that are still to be passed over, [cur] is the
    piece being collected. *)
Fixpoint split_go (sep : string) (skip : nat) (cur s : string) : list string :=
  match s with
  | EmptyString => [cur]
  | String c s' =>
      match skip with
      | S k => split_go sep k cur s'
      | O =>
          if String.prefix sep s
          then cur :: split_go sep (String.length sep - 1) EmptyString s'
          else split_go sep 0 (cur ++ String c EmptyString) s'
      end
  end.

Definition split (sep s : string) : list string := split_go sep 0 EmptyString s.

(** [sep.join(parts)] *)
Definition join (sep : string) (parts : list string) : string :=
  String.concat sep parts.

(** [c * n] *)
Fixpoint replicate (n : nat) (c : ascii) : string :=
  match n with
  | O => EmptyString
  | S k => String c (replicate k c)
  end.

(** [str(n)] of an integer: decimal digits, a leading minus sign. *)
Definition string_of_uint (u : Decimal.uint) : string := NilEmpty.string_of_uint u.

Definition str_of_int (n : Z) : string :=
  match n with
  | Z0 => "0"
  | Zpos p => string_of_uint (Pos.to_uint p)
  | Zneg p => String "-" (string_of_uint (Pos.to_uint p))
  end.

(** Two-digit, zero-padded decimal of a value in 0..99 ([%m], [%d], [%H],
    [%M]). *)
Definition pad2 (n : Z) : string :=
  if n <? 10 then String "0" (str_of_int n) else str_of_int n.

Definition hex_digit (lower : bool) (n : N) : ascii :=
  if (n <? 10)%N then ascii_of_N (48 + n)
  else ascii_of_N ((if lower then 87 else 55) + n).

(** The two hexadecimal digits of a character code. *)
Definition hex2 (lower : bool) (c : ascii) : string :=
  let n := N_of_ascii c in
  String (hex_digit lower (n / 16)) (String (hex_digit lower (n mod 16)) EmptyString).

Definition nl : string := String (ascii_of_N 10) EmptyString.

Definition dquote : ascii := ascii_of_N 34.
Definition squote : ascii := ascii_of_N 39.
Definition backslash : ascii := ascii_of_N 92.

End PyStr.

(* ====================================================================== *)
(** ** Python values, exceptions and builtins *)
(* ====================================================================== *)

Module Py.
Import PyStr.

(** What [response.json()] yields, and what the formatters receive. *)
Inductive value : Type :=
| VNone
| VBool (b : bool)
| VInt (n : Z)
| VStr (s : string)
| VList (items : list value)
| VDict (kvs : list (string * value)).

(** Induction over values, through the lists they nest in. *)
Section ValueInduction.

Variable P : value -> Prop.
Hypothesis P_none : P VNone.
Hypothesis P_bool : forall b, P (VBool b).
Hypothesis P_int : forall n, P (VInt n).
Hypothesis P_str : forall s, P (VStr s).
Hypothesis P_list : forall l, Forall P l -> P (VList l).
Hypothesis P_dict : forall d, Forall (fun kv => P (snd kv)) d -> P (VDict d).

Fixpoint value_induction (v : value) : P v :=
  match v with
  | VNone => P_none
  | VBool b => P_bool b
  | VInt n => P_int n
  | VStr s => P_str s
  | VList l =>
      P_list l
        ((fix all (l : list value) : Forall P l :=
            match l with
            | [] => Forall_nil P
            | x :: xs => Forall_cons x (value_induction x) (all xs)
            end) l)
  | VDict d =>
      P_dict d
        ((fix all (d : list (string * value)) : Forall (fun kv => P (snd kv)) d :=
            match d with
            | [] => Forall_nil _
            | kv :: rest => Forall_cons kv (value_induction (snd kv)) (all rest)
            end) d)
  end.

End ValueInduction.

(** Exceptions (instances of [Exception]).  [FeedlyError] is the class of
    client.py; [TimeoutException] and [HTTPStatusError] are the two httpx
    classes server.py tests for, the latter with [e.response.status_code] and
    [e.response.text]; [PyExc] is any other class, by [type(e).__name__] and
    [str(e)]. *)
Inductive exception : Type :=
| FeedlyError (message : string) (status_code : option Z)
| TimeoutException
| HTTPStatusError (status_code : Z) (text : string)
| PyExc (type_name : string) (msg : string).

Inductive result (A : Type) : Type :=
| Ok (a : A)
| Raise (e : exception).
Arguments Ok {A} a.
Arguments Raise {A} e.

Definition bind {A B} (c : result A) (k : A -> result B) : result B :=
  match c with
  | Ok a => k a
  | Raise e => Raise e
  end.

Notation "x <- c ;; k" := (bind c (fun x => k))
  (at level 61, c at next level, right associativity).

Fixpoint mapM {A B} (f : A -> result B) (l : list A) : result (list B) :=
  match l with
  | [] => Ok []
  | a :: l' => b <- f a ;; bs <- mapM f l' ;; Ok (b :: bs)
  end.

Definition type_name (v : value) : string :=
  match v with
  | VNone => "NoneType"
  | VBool _ => "bool"
  | VInt _ => "int"
  | VStr _ => "str"
  | VList _ => "list"
  | VDict _ => "dict"
  end.

Definition AttributeError (v : value) (attr : string) : exception :=
  PyExc "AttributeError"
    ("'" ++ type_name v ++ "' object has no attribute '" ++ attr ++ "'").

Definition TypeError (msg : string) : exception := PyExc "TypeError" msg.

(** [bool(v)] *)
Definition truthy (v : value) : bool :=
  match v with
  | VNone => false
  | VBool b => b
  | VInt n => negb (n =? 0)
  | VStr s => negb (String.eqb s EmptyString)
  | VList l => match l with [] => false | _ => true end
  | VDict d => match d with [] => false | _ => true end
  end.

(** Dictionaries keep insertion order. *)
Fixpoint lookup (k : string) (kvs : list (string * value)) : option value :=
  match kvs with
  | [] => None
  | (k', v) :: rest => if String.eqb k k' then Some v else lookup k rest
  end.

(** [d[k] = v] *)
Fixpoint dict_set (kvs : list (string * value)) (k : string) (v : value)
  : list (string * value) :=
  match kvs with
  | [] => [(k, v)]
  | (k', v') :: rest =>
      if String.eqb k k' then (k', v) :: rest else (k', v') :: dict_set rest k v
  end.

(** [d.get(k, default)] *)
Definition get (d : value) (k : string) (default : value) : result value :=
  match d with
  | VDict kvs => Ok (match lookup k kvs with Some v => v | None => default end)
  | _ => Raise (AttributeError d "get")
  end.

(** [len(v)] *)
Definition len (v : value) : result Z :=
  match v with
  | VStr s => Ok (PyStr.len s)
  | VList l => Ok (Z.of_nat (List.length l))
  | VDict d => Ok (Z.of_nat (List.length d))
  | _ => Raise (TypeError ("object of type '" ++ type_name v ++ "' has no len()"))
  end.

(** [iter(v)], fully unrolled. *)
Definition iter (v : value) : result (list value) :=
  match v with
  | VList l => Ok l
  | VDict d => Ok (map (fun kv => VStr (fst kv)) d)
  | VStr s => Ok (map (fun c => VStr (String c EmptyString)) (list_ascii_of_string s))
  | _ => Raise (TypeError ("'" ++ type_name v ++ "' object is not iterable"))
  end.

Definition is_str (k : string) (v : value) : bool :=
  match v with VStr s => String.eqb k s | _ => false end.

(** [k in v] for a string [k]. *)
Definition contains (k : string) (v : value) : result bool :=
  match v with
  | VDict d => Ok (match lookup k d with Some _ => true | None => false end)
  | VList l => Ok (existsb (is_str k) l)
  | VStr s => Ok (PyStr.contains k s)
  | _ => Raise (TypeError ("argument of type '" ++ type_name v ++ "' is not iterable"))
  end.

Definition not_subscriptable (v : value) : exception :=
  TypeError ("'" ++ type_name v ++ "' object is not subscriptable").

(** [v[k]] for a string [k]. *)
Definition getitem (v : value) (k : string) : result value :=
  match v with
  | VDict d =>
      match lookup k d with
      | Some x => Ok x
      | None => Raise (PyExc "KeyError" ("'" ++ k ++ "'"))
      end
  | VList _ => Raise (TypeError "list indices must be integers or slices, not str")
  | VStr _ => Raise (TypeError "string indices must be integers, not 'str'")
  | _ => Raise (not_subscriptable v)
  end.

(** [v[0]] *)
Definition getitem0 (v : value) : result value :=
  match v with
  | VList (x :: _) => Ok x
  | VList [] => Raise (PyExc "IndexError" "list index out of range")
  | VStr (String c _) => Ok (VStr (String c EmptyString))
  | VStr EmptyString => Raise (PyExc "IndexError" "string index out of range")
  | VDict _ => Raise (PyExc "KeyError" "0")
  | _ => Raise (not_subscriptable v)
  end.

(** Numbers: [bool] is a subclass of [int]. *)
Definition as_int (v : value) : option Z :=
  match v with
  | VInt n => Some n
  | VBool b => Some (if b then 1 else 0)
  | _ => None
  end.

(** [a == b] *)
Fixpoint eq (a b : value) {struct a} : bool :=
  match a, b with
  | VNone, VNone => true
  | VBool x, VBool y => Bool.eqb x y
  | VBool x, VInt y => (if x then 1 else 0) =? y
  | VInt x, VBool y => x =? (if y then 1 else 0)
  | VInt x, VInt y => x =? y
  | VStr x, VStr y => String.eqb x y
  | VList xs, VList ys =>
      (fix go (xs ys : list value) {struct xs} : bool :=
         match xs, ys with
         | [], [] => true
         | x :: xs', y :: ys' => eq x y && go xs' ys'
         | _, _ => false
         end) xs ys
  | VDict xs, VDict ys =>
      (List.length xs =? List.length ys)%nat &&
      (fix go (xs : list (string * value)) {struct xs} : bool :=
         match xs with
         | [] => true
         | (k, v) :: xs' =>
             match lookup k ys with
             | Some w => eq v w && go xs'
             | None => false
             end
         end) xs
  | _, _ => false
  end.

(** [a < b] *)
Fixpoint lt (a b : value) {struct a} : result bool :=
  match a, b with
  | VStr x, VStr y => Ok (String.ltb x y)
  | VList xs, VList ys =>
      (fix go (xs ys : list value) {struct xs} : result bool :=
         match xs, ys with
         | [], [] => Ok false
         | [], _ :: _ => Ok true
         | _ :: _, [] => Ok false
         | x :: xs', y :: ys' => if eq x y then go xs' ys' else lt x y
         end) xs ys
  | _, _ =>
      match as_int a, as_int b with
      | Some x, Some y => Ok (x <? y)
      | _, _ =>
          Raise (TypeError ("'<' not supported between instances of '"
                            ++ type_name a ++ "' and '" ++ type_name b ++ "'"))
      end
  end.

(** [sorted(items, key=key, reverse=True)]: the keys are computed first, in
    order; the result is the stable arrangement by decreasing key, reached
    with [<] alone.  Insertion from the right keeps an element in front of
    the later elements it does not compare below. *)
Fixpoint insert_desc (x : value * value) (l : list (value * value))
  : result (list (value * value)) :=
  match l with
  | [] => Ok [x]
  | y :: rest =>
      b <- lt (fst x) (fst y) ;;
      if b then (r <- insert_desc x rest ;; Ok (y :: r)) else Ok (x :: y :: rest)
  end.

Fixpoint sort_desc (l : list (value * value)) : result (list (value * value)) :=
  match l with
  | [] => Ok []
  | x :: rest => s <- sort_desc rest ;; insert_desc x s
  end.

Definition sorted_reverse (key : value -> result value) (items : value)
  : result (list value) :=
  xs <- iter items ;;
  ks <- mapM (fun x => k <- key x ;; Ok (k, x)) xs ;;
  s <- sort_desc ks ;;
  Ok (map snd s).

(** [repr(s)] of a string. *)
Definition printable (c : ascii) : bool :=
  let n := N_of_ascii c in
  ((32 <=? n) && (n <? 127) || (161 <=? n) && negb (n =? 173))%N.

Definition repr_char (quote c : ascii) : string :=
  let n := N_of_ascii c in
  if Ascii.eqb c quote || Ascii.eqb c backslash
  then String backslash (String c EmptyString)
  else if (n =? 9)%N then "\t"
  else if (n =? 10)%N then "\n"
  else if (n =? 13)%N then "\r"
  else if printable c then String c EmptyString
  else "\x" ++ hex2 true c.

Fixpoint repr_chars (quote : ascii) (s : string) : string :=
  match s with
  | EmptyString => EmptyString
  | String c s' => repr_char quote c ++ repr_chars quote s'
  end.

Definition repr_str (s : string) : string :=
  let quote : ascii :=
    if PyStr.contains "'" s && negb (PyStr.contains (String dquote EmptyString) s)
    then dquote else squote in
  String quote (repr_chars quote s ++ String quote EmptyString).

(** [repr(v)] *)
Fixpoint repr (v : value) : string :=
  match v with
  | VNone => "None"
  | VBool true => "True"
  | VBool false => "False"
  | VInt n => str_of_int n
  | VStr s => repr_str s
  | VList l => "[" ++ join ", " (map repr l) ++ "]"
  | VDict d =>
      "{" ++ join ", " (map (fun kv => repr_str (fst kv) ++ ": " ++ repr (snd kv)) d) ++ "}"
  end.

(** [str(v)], what an f-string inserts. *)
Definition str (v : value) : string :=
  match v with
  | VStr s => s
  | _ => repr v
  end.

End Py.

(* ====================================================================== *)
(** ** [json.dumps(_, indent=2)] and [json.loads] *)
(* ====================================================================== *)

Module JsonCodec.
Import PyStr Py.

(** *** Encoder *)

(** [ensure_ascii] escaping of one character. *)
Definition encode_char (c : ascii) : string :=
  let n := N_of_ascii c in
  if (n =? 34)%N then String backslash (String dquote EmptyString)
  else if (n =? 92)%N then String backslash (String backslash EmptyString)
  else if (n =? 10)%N then "\n"
  else if (n =? 13)%N then "\r"
  else if (n =? 9)%N then "\t"
  else if (n =? 8)%N then "\b"
  else if (n =? 12)%N then "\f"
  else if ((32 <=? n) && (n <? 127))%N then String c EmptyString
  else "\u00" ++ hex2 true c.

Fixpoint encode_chars (s : string) : string :=
  match s with
  | EmptyString => EmptyString
  | String c s' => encode_char c ++ encode_chars s'
  end.

Definition encode_str (s : string) : string :=
  String dquote (encode_chars s ++ String dquote EmptyString).

(** A newline and the indentation of nesting level [lvl]. *)
Definition newline_indent (lvl : nat) : string := nl ++ replicate (2 * lvl) " ".

(** The chunks of a non-empty container: the first item bare, every later
    one behind the item separator, then the closing text. *)
Fixpoint chunks (sep close : string) (parts : list string) : string :=
  match parts with
  | [] => close
  | [p] => p ++ close
  | p :: ps => p ++ sep ++ chunks sep close ps
  end.

Fixpoint dumps_at (lvl : nat) (v : value) : string :=
  match v with
  | VNone => "null"
  | VBool true => "true"
  | VBool false => "false"
  | VInt n => str_of_int n
  | VStr s => encode_str s
  | VList [] => "[]"
  | VList l =>
      "[" ++ newline_indent (S lvl)
          ++ chunks ("," ++ newline_indent (S lvl)) (newline_indent lvl ++ "]")
               (map (dumps_at (S lvl)) l)
  | VDict [] => "{}"
  | VDict d =>
      "{" ++ newline_indent (S lvl)
          ++ chunks ("," ++ newline_indent (S lvl)) (newline_indent lvl ++ "}")
               (map (fun kv => encode_str (fst kv) ++ ": " ++ dumps_at (S lvl) (snd kv)) d)
  end.

(** [json.dumps(v, indent=2)] *)
Definition dumps (v : value) : string := dumps_at 0 v.

(** *** Decoder *)

(** What [json.loads] returns.  A document can hold what a [value] cannot:
    a number written with a fraction or an exponent, kept as the literal
    that was read ([float] of the literal is the number; so are [NaN],
    [Infinity] and [-Infinity]), and strings of any code points. *)
Inductive document : Type :=
| DNull
| DBool (b : bool)
| DInt (n : Z)
| DFloat (literal : string)
| DStr (s : list N)
| DList (l : list document)
| DDict (d : list (list N * document)).

(** The code points of a string. *)
Definition codes (s : string) : list N := map N_of_ascii (list_ascii_of_string s).

(** A value as a document. *)
Fixpoint of_value (v : value) : document :=
  match v with
  | VNone => DNull
  | VBool b => DBool b
  | VInt n => DInt n
  | VStr s => DStr (codes s)
  | VList l => DList (map of_value l)
  | VDict d => DDict (map (fun kv => (codes (fst kv), of_value (snd kv))) d)
  end.

Definition is_ws (c : ascii) : bool :=
  let n := N_of_ascii c in ((n =? 32) || (n =? 9) || (n =? 10) || (n =? 13))%N.

Fixpoint skip_ws (s : string) : string :=
  match s with
  | String c rest => if is_ws c then skip_ws rest else s
  | EmptyString => s
  end.

Definition hex_val (c : ascii) : option N :=
  let n := N_of_ascii c in
  if ((48 <=? n) && (n <=? 57))%N then Some (n - 48)%N
  else if ((97 <=? n) && (n <=? 102))%N then Some (n - 87)%N
  else if ((65 <=? n) && (n <=? 70))%N then Some (n - 55)%N
  else None.

(** [\uXXXX] *)
Definition hex4 (a b c d : ascii) : option N :=
  match hex_val a, hex_val b, hex_val c, hex_val d with
  | Some x, Some y, Some z, Some w => Some (((x * 16 + y) * 16 + z) * 16 + w)%N
  | _, _, _, _ => None
  end.

(** The two halves of a surrogate pair, and the code point they stand
    for. *)
Definition high_surrogate (n : N) : bool := ((55296 <=? n) && (n <=? 56319))%N.

Definition low_surrogate (n : N) : bool := ((56320 <=? n) && (n <=? 57343))%N.

Definition join_surrogates (hi lo : N) : N := (65536 + (hi - 55296) * 1024 + (lo - 56320))%N.

Definition unescape (e : ascii) : option N :=
  let n := N_of_ascii e in
  if (n =? 34)%N then Some 34%N
  else if (n =? 92)%N then Some 92%N
  else if (n =? 47)%N then Some 47%N
  else if (n =? 98)%N then Some 8%N
  else if (n =? 102)%N then Some 12%N
  else if (n =? 110)%N then Some 10%N
  else if (n =? 114)%N then Some 13%N
  else if (n =? 116)%N then Some 9%N
  else None.

Definition cons_char (c : N) (r : option (list N * string)) : option (list N * string) :=
  match r with
  | Some (s, rest) => Some (c :: s, rest)
  | None => None
  end.

(** The body of a string literal, from just behind the opening quote.  A
    high surrogate and the low surrogate escaped right behind it make one
    character. *)
Fixpoint parse_string (s : string) : option (list N * string) :=
  match s with
  | EmptyString => None
  | String c rest =>
      if Ascii.eqb c dquote then Some ([], rest)
      else if Ascii.eqb c backslash then
        match rest with
        | EmptyString => None
        | String e rest' =>
            if Ascii.eqb e "u" then
              match rest' with
              | String h1 (String h2 (String h3 (String h4 r))) =>
                  match hex4 h1 h2 h3 h4 with
                  | Some n =>
                      if high_surrogate n then
                        match r with
                        | String b (String u (String l1 (String l2 (String l3 (String l4 r'))))) =>
                            if Ascii.eqb b backslash && Ascii.eqb u "u" then
                              match hex4 l1 l2 l3 l4 with
                              | Some m =>
                                  if low_surrogate m
                                  then cons_char (join_surrogates n m) (parse_string r')
                                  else cons_char n (parse_string r)
                              | None => None
                              end
                            else cons_char n (parse_string r)
                        | _ => cons_char n (parse_string r)
                        end
                      else cons_char n (parse_string r)
                  | None => None
                  end
              | _ => None
              end
            else
              match unescape e with
              | Some ch => cons_char ch (parse_string rest')
              | None => None
              end
        end
      else if (N_of_ascii c <? 32)%N then None
      else cons_char (N_of_ascii c) (parse_string rest)
  end.

Definition digit (c : ascii) : option (Decimal.uint -> Decimal.uint) :=
  match (N_of_ascii c - 48)%N, (48 <=? N_of_ascii c)%N with
  | 0%N, true => Some Decimal.D0
  | 1%N, true => Some Decimal.D1
  | 2%N, true => Some Decimal.D2
  | 3%N, true => Some Decimal.D3
  | 4%N, true => Some Decimal.D4
  | 5%N, true => Some Decimal.D5
  | 6%N, true => Some Decimal.D6
  | 7%N, true => Some Decimal.D7
  | 8%N, true => Some Decimal.D8
  | 9%N, true => Some Decimal.D9
  | _, _ => None
  end.

(** The longest run of digits. *)
Fixpoint parse_digits (s : string) : Decimal.uint * string :=
  match s with
  | EmptyString => (Decimal.Nil, s)
  | String c rest =>
      match digit c with
      | Some d => let (u, r) := parse_digits rest in (d u, r)
      | None => (Decimal.Nil, s)
      end
  end.

(** [0|[1-9][0-9]*] *)
Definition parse_nat (s : string) : option (Decimal.uint * string) :=
  match s with
  | String c rest =>
      if Ascii.eqb c "0" then Some (Decimal.D0 Decimal.Nil, rest)
      else
        match parse_digits s with
        | (Decimal.Nil, _) => None
        | (u, r) => Some (u, r)
        end
  | EmptyString => None
  end.

(** [\.[0-9]+], if the text begins with one. *)
Definition fraction (s : string) : option (string * string) :=
  match s with
  | String c rest =>
      if Ascii.eqb c "." then
        match parse_digits rest with
        | (Decimal.Nil, _) => None
        | (u, r) => Some (String c (string_of_uint u), r)
        end
      else None
  | EmptyString => None
  end.

(** [[eE][-+]?[0-9]+], if the text begins with one. *)
Definition exponent (s : string) : option (string * string) :=
  match s with
  | String c rest =>
      if Ascii.eqb c "e" || Ascii.eqb c "E" then
        let (sign, digits) :=
          match rest with
          | String d rest' =>
              if Ascii.eqb d "+" || Ascii.eqb d "-" then (String d EmptyString, rest')
              else (EmptyString, rest)
          | EmptyString => (EmptyString, rest)
          end in
        match parse_digits digits with
        | (Decimal.Nil, _) => None
        | (u, r) => Some (String c (sign ++ string_of_uint u), r)
        end
      else None
  | EmptyString => None
  end.

(** A number behind its sign: an integer, or with a fraction or an exponent
    a float. *)
Definition parse_unsigned (negative : bool) (s : string) : option (document * string) :=
  match parse_nat s with
  | None => None
  | Some (u, r) =>
      match fraction r with
      | Some (f, r1) =>
          match exponent r1 with
          | Some (e, r2) =>
              Some (DFloat ((if negative then "-" else EmptyString)
                            ++ string_of_uint u ++ f ++ e), r2)
          | None =>
              Some (DFloat ((if negative then "-" else EmptyString)
                            ++ string_of_uint u ++ f), r1)
          end
      | None =>
          match exponent r with
          | Some (e, r2) =>
              Some (DFloat ((if negative then "-" else EmptyString)
                            ++ string_of_uint u ++ e), r2)
          | None =>
              Some (DInt (if negative then - Z.of_N (N.of_uint u) else Z.of_N (N.of_uint u)), r)
          end
      end
  end.

Definition parse_number (s : string) : option (document * string) :=
  match s with
  | String c rest =>
      if Ascii.eqb c "-" then parse_unsigned true rest else parse_unsigned false s
  | EmptyString => None
  end.

(** [s] begins with the literal [w]: what follows it. *)
Fixpoint strip_prefix (w s : string) : option string :=
  match w, s with
  | EmptyString, _ => Some s
  | String a w', String b s' => if Ascii.eqb a b then strip_prefix w' s' else None
  | String _ _, EmptyString => None
  end.

Fixpoint codes_eqb (a b : list N) : bool :=
  match a, b with
  | [], [] => true
  | x :: a', y :: b' => (x =? y)%N && codes_eqb a' b'
  | _, _ => false
  end.

(** [d[k] = v] on the members of an object. *)
Fixpoint member_set (d : list (list N * document)) (k : list N) (v : document)
  : list (list N * document) :=
  match d with
  | [] => [(k, v)]
  | (k', v') :: rest =>
      if codes_eqb k k' then (k', v) :: rest else (k', v') :: member_set rest k v
  end.

(** [dict(pairs)]: a repeated key keeps its first place and its last value. *)
Definition dict_of_pairs (pairs : list (list N * document)) : list (list N * document) :=
  fold_left (fun d kv => member_set d (fst kv) (snd kv)) pairs [].

(** The scanner; [fuel] bounds the nesting of calls. *)
Fixpoint parse_value (fuel : nat) (s : string) {struct fuel} : option (document * string) :=
  match fuel with
  | O => None
  | S fuel' =>
      match s with
      | EmptyString => None
      | String c rest =>
          if Ascii.eqb c dquote then
            match parse_string rest with
            | Some (x, r) => Some (DStr x, r)
            | None => None
            end
          else if Ascii.eqb c "[" then
            match skip_ws rest with
            | String c' r =>
                if Ascii.eqb c' "]" then Some (DList [], r)
                else
                  match parse_elements fuel' (String c' r) with
                  | Some (l, r') => Some (DList l, r')
                  | None => None
                  end
            | EmptyString => None
            end
          else if Ascii.eqb c "{" then
            match skip_ws rest with
            | String c' r =>
                if Ascii.eqb c' "}" then Some (DDict [], r)
                else
                  match parse_members fuel' (String c' r) with
                  | Some (m, r') => Some (DDict (dict_of_pairs m), r')
                  | None => None
                  end
            | EmptyString => None
            end
          else if Ascii.eqb c "n" then
            match strip_prefix "ull" rest with Some r => Some (DNull, r) | None => None end
          else if Ascii.eqb c "t" then
            match strip_prefix "rue" rest with Some r => Some (DBool true, r) | None => None end
          else if Ascii.eqb c "f" then
            match strip_prefix "alse" rest with Some r => Some (DBool false, r) | None => None end
          else if Ascii.eqb c "N" then
            match strip_prefix "aN" rest with Some r => Some (DFloat "NaN", r) | None => None end
          else if Ascii.eqb c "I" then
            match strip_prefix "nfinity" rest with
            | Some r => Some (DFloat "Infinity", r)
            | None => None
            end
          else if Ascii.eqb c "-" then
            match strip_prefix "Infinity" rest with
            | Some r => Some (DFloat "-Infinity", r)
            | None => parse_number s
            end
          else parse_number s
      end
  end
with parse_elements (fuel : nat) (s : string) {struct fuel} : option (list document * string) :=
  match fuel with
  | O => None
  | S fuel' =>
      match parse_value fuel' s with
      | None => None
      | Some (v, r) =>
          match skip_ws r with
          | String c r' =>
              if Ascii.eqb c "]" then Some ([v], r')
              else if Ascii.eqb c "," then
                match parse_elements fuel' (skip_ws r') with
                | Some (l, r'') => Some (v :: l, r'')
                | None => None
                end
              else None
          | EmptyString => None
          end
      end
  end
with parse_members (fuel : nat) (s : string) {struct fuel}
  : option (list (list N * document) * string) :=
  match fuel with
  | O => None
  | S fuel' =>
      match s with
      | EmptyString => None
      | String q rest =>
          if negb (Ascii.eqb q dquote) then None
          else
            match parse_string rest with
            | None => None
            | Some (k, r) =>
                match skip_ws r with
                | EmptyString => None
                | String c r1 =>
                    if negb (Ascii.eqb c ":") then None
                    else
                      match parse_value fuel' (skip_ws r1) with
                      | None => None
                      | Some (v, r2) =>
                          match skip_ws r2 with
                          | EmptyString => None
                          | String c' r3 =>
                              if Ascii.eqb c' "}" then Some ([(k, v)], r3)
                              else if Ascii.eqb c' "," then
                                match parse_members fuel' (skip_ws r3) with
                                | Some (m, r4) => Some ((k, v) :: m, r4)
                                | None => None
                                end
                              else None
                          end
                      end
                end
            end
      end
  end.

(** [json.loads(s)]; [None] stands for [JSONDecodeError].  Twice the
    length of the text bounds the nesting of calls: a call is made behind
    an opening bracket, or on the text behind an element. *)
Definition loads (s : string) : option document :=
  match parse_value (S (2 * String.length s)) (skip_ws s) with
  | Some (v, r) =>
      match skip_ws r with
      | EmptyString => Some v
      | String _ _ => None
      end
  | None => None
  end.

End JsonCodec.

(* ====================================================================== *)
(** ** [datetime.fromtimestamp] and [strftime] *)
(* ====================================================================== *)

Module Datetime.
Import PyStr Py.

Record datetime : Type := {
  year : Z; month : Z; day : Z; hour : Z; minute : Z; second : Z
}.

(** The proleptic Gregorian date of a day number counted from 1970-01-01. *)
Definition civil_from_days (days : Z) : Z * Z * Z :=
  let z := days + 719468 in
  let era := z / 146097 in
  let doe := z - era * 146097 in
  let yoe := (doe - doe / 1460 + doe / 36524 - doe / 146096) / 365 in
  let doy := doe - (365 * yoe + yoe / 4 - yoe / 100) in
  let mp := (5 * doy + 2) / 153 in
  let d := doy - (153 * mp + 2) / 5 + 1 in
  let m := if mp <? 10 then mp + 3 else mp - 9 in
  ((yoe + era * 400) + (if m <=? 2 then 1 else 0), m, d).

(** The largest count of milliseconds whose quotient by 1000, as a double,
    is within the 64-bit [time_t]: the doubles next to [2 ^ 63] are 2048
    apart, and the midpoint rounds to [2 ^ 63]. *)
Definition time_t_limit_ms : Z := (2 ^ 63 + 1024) * 1000.

(** [datetime.fromtimestamp(timestamp_ms / 1000)] for an integer number of
    milliseconds, on a POSIX host with a 64-bit [time_t] whose zone is
    [utcoffset] seconds ahead of UTC at a given epoch second.

    - A count of seconds beyond [time_t] is an [OverflowError].
    - A local year outside 1..9999 is a [ValueError] (where the C library
      gives up first, an [OSError]); so is a local year below 1 one day
      earlier, the instant probed to detect a repeated hour.
    - Otherwise the local wall-clock time.  At millisecond resolution the
      float quotient and its rounding to microseconds do not change the
      minute, so the fields are those of the floor of the quotient. *)
Definition fromtimestamp (utcoffset : Z -> Z) (timestamp_ms : Z) : result datetime :=
  if time_t_limit_ms <? Z.abs timestamp_ms then
    Raise (PyExc "OverflowError" "timestamp out of range for platform time_t")
  else
    let secs := timestamp_ms / 1000 in
    let loc := secs + utcoffset secs in
    let probe := (secs - 86400) + utcoffset (secs - 86400) in
    let '(y, m, d) := civil_from_days (loc / 86400) in
    let '(py, _, _) := civil_from_days (probe / 86400) in
    if (y <? 1) || (9999 <? y) then
      Raise (PyExc "ValueError" ("year " ++ str_of_int y ++ " is out of range"))
    else if py <? 1 then
      Raise (PyExc "ValueError" ("year " ++ str_of_int py ++ " is out of range"))
    else
      Ok {| year := y; month := m; day := d;
            hour := (loc mod 86400) / 3600;
            minute := (loc mod 3600) / 60;
            second := loc mod 60 |}.

(** [dt.strftime("%Y-%m-%d %H:%M")]; the C library of the host prints the
    year without padding. *)
Definition strftime_minute (dt : datetime) : string :=
  str_of_int (year dt) ++ "-" ++ pad2 (month dt) ++ "-" ++ pad2 (day dt)
    ++ " " ++ pad2 (hour dt) ++ ":" ++ pad2 (minute dt).

End Datetime.

(* ====================================================================== *)
(** ** constants.py *)
(* ====================================================================== *)

Module Constants.

Definition API_BASE_URL : string := "https://cloud.feedly.com/v3".
Definition CHARACTER_LIMIT : Z := 25000.
Definition DEFAULT_COUNT : Z := 20.
Definition MAX_COUNT : Z := 100.
Definition MAX_BATCH_SIZE : Z := 1000.
Definition USER_AGENT : string :=
  "Mozilla/5.0 (Windows NT 10.0; Win64; x64) "
  ++ "AppleWebKit/537.36 (KHTML, like Gecko) "
  ++ "Chrome/120.0.0.0 Safari/537.36".

End Constants.

(* ====================================================================== *)
(** ** client.py *)
(* ====================================================================== *)

Module Client.
Import PyStr Py Constants.

(** What [httpx.AsyncClient.request] is given. *)
Record request : Type := {
  method : string;
  url : string;
  params : option (list (string * value));
  json : option value;
  headers : list (string * string)
}.

(** What it gives back: the status, the body, and the body decoded
    ([response.json()]; [None] when the body is not a JSON document). *)
Record response : Type := {
  status_code : Z;
  text : string;
  json_body : option value
}.

(** The far end: it answers a request, or the call raises (a timeout, a
    connection failure). *)
Inductive reply : Type :=
| Responds (r : response)
| Fails (e : exception).

(** Computations that talk to the network: the requests sent so far are
    threaded through, and survive an exception. *)
Definition io (A : Type) : Type := list request -> result A * list request.

Definition ret {A} (a : A) : io A := fun log => (Ok a, log).

Definition raise {A} (e : exception) : io A := fun log => (Raise e, log).

Definition lift {A} (r : result A) : io A := fun log => (r, log).

Definition bind_io {A B} (c : io A) (k : A -> io B) : io B :=
  fun log =>
    match c log with
    | (Ok a, log') => k a log'
    | (Raise e, log') => (Raise e, log')
    end.

Notation "x <~ c ;; k" := (bind_io c (fun x => k))
  (at level 61, c at next level, right associativity).

(** [try: body / except Exception as e: return handler(e)] *)
Definition try_except {A} (body : io A) (handler : exception -> A) : io A :=
  fun log =>
    match body log with
    | (Ok a, log') => (Ok a, log')
    | (Raise e, log') => (Ok (handler e), log')
    end.

Record FeedlyClient : Type := {
  access_token : string;
  base_url : string;
  timeout : Z
}.

(** [FeedlyClient(access_token)] *)
Definition new_client (token : string) : FeedlyClient :=
  {| access_token := token; base_url := API_BASE_URL; timeout := 30 |}.

(** [response.raise_for_status()]: anything but a 2xx status raises. *)
Definition raise_for_status (r : response) : result unit :=
  if (200 <=? status_code r) && (status_code r <=? 299) then Ok tt
  else Raise (HTTPStatusError (status_code r) (text r)).

(** [urllib.parse.quote] with no character exempted ([safe] empty). *)
Definition unreserved (c : ascii) : bool :=
  let n := N_of_ascii c in
  ((48 <=? n) && (n <=? 57) || (65 <=? n) && (n <=? 90) || (97 <=? n) && (n <=? 122)
   || (n =? 95) || (n =? 46) || (n =? 45) || (n =? 126))%N.

Definition percent (n : N) : string := String "%" (hex2 false (ascii_of_N n)).

Definition quote_char (c : ascii) : string :=
  let n := N_of_ascii c in
  if unreserved c then String c EmptyString
  else if (n <? 128)%N then percent n
  else percent (192 + n / 64) ++ percent (128 + n mod 64).

Fixpoint quote (s : string) : string :=
  match s with
  | EmptyString => EmptyString
  | String c s' => quote_char c ++ quote s'
  end.

Section Transport.

Variable network : request -> reply.
Variable self : FeedlyClient.

Definition _request (method_ endpoint : string)
           (params_ : option (list (string * value))) (json_data : option value)
  : io value :=
  fun log =>
    let req := {| method := method_;
                  url := base_url self ++ endpoint;
                  params := params_;
                  json := json_data;
                  headers := [("Authorization", "Bearer " ++ access_token self);
                              ("Accept", "application/json");
                              ("Content-Type", "application/json");
                              ("User-Agent", USER_AGENT)] |} in
    let log' := (log ++ [req])%list in
    match network req with
    | Fails e => (Raise e, log')
    | Responds r =>
        if status_code r =? 401 then
          (Raise (FeedlyError "Authentication failed. Check FEEDLY_ACCESS_TOKEN." (Some 401)), log')
        else if status_code r =? 403 then
          (Raise (FeedlyError "Access forbidden. Check your Feedly plan." (Some 403)), log')
        else if status_code r =? 404 then
          (Raise (FeedlyError "Resource not found. Check the ID." (Some 404)), log')
        else if status_code r =? 429 then
          (Raise (FeedlyError "Rate limit exceeded. Wait before retrying." (Some 429)), log')
        else
          match raise_for_status r with
          | Raise e => (Raise e, log')
          | Ok _ =>
              if status_code r =? 204 then (Ok VNone, log')
              else
                match json_body r with
                | Some v => (Ok v, log')
                | None => (Raise (PyExc "JSONDecodeError" "Expecting value: line 1 column 1 (char 0)"), log')
                end
          end
    end.

Definition get_profile : io value := _request "GET" "/profile" None None.

Definition get_subscriptions : io value := _request "GET" "/subscriptions" None None.

Definition get_categories : io value := _request "GET" "/categories" None None.

Definition get_tags : io value := _request "GET" "/tags" None None.

Definition get_unread_counts : io value := _request "GET" "/markers/counts" None None.

Definition get_stream_contents (stream_id : string) (count : Z) (unread_only : bool)
           (continuation : option string) (ranked : string) : io value :=
  let params0 := [("streamId", VStr stream_id); ("count", VInt count); ("ranked", VStr ranked)] in
  let params1 := if unread_only then dict_set params0 "unreadOnly" (VStr "true") else params0 in
  let params2 :=
    match continuation with
    | Some c => if String.eqb c EmptyString then params1 else dict_set params1 "continuation" (VStr c)
    | None => params1
    end in
  _request "GET" "/streams/contents" (Some params2) None.

Definition get_entry (entry_id : string) : io value :=
  let encoded_entry_id := quote entry_id in
  _request "GET" ("/entries/" ++ encoded_entry_id) None None.

Definition strs (l : list string) : value := VList (map VStr l).

Definition get_entries (entry_ids : list string) : io value :=
  _request "POST" "/entries/.mget" None (Some (strs entry_ids)).

Definition mark_as_read (entry_ids : list string) : io value :=
  _request "POST" "/markers" None
    (Some (VDict [("action", VStr "markAsRead"); ("type", VStr "entries");
                  ("entryIds", strs entry_ids)])).

Definition mark_feed_as_read (feed_id : string) (as_of : option Z) : io value :=
  let data := [("action", VStr "markAsRead"); ("type", VStr "feeds");
               ("feedIds", strs [feed_id])] in
  let data' := match as_of with Some t => dict_set data "asOf" (VInt t) | None => data end in
  _request "POST" "/markers" None (Some (VDict data')).

Definition mark_category_as_read (category_id : string) (as_of : option Z) : io value :=
  let data := [("action", VStr "markAsRead"); ("type", VStr "categories");
               ("categoryIds", strs [category_id])] in
  let data' := match as_of with Some t => dict_set data "asOf" (VInt t) | None => data end in
  _request "POST" "/markers" None (Some (VDict data')).

Definition keep_unread (entry_ids : list string) : io value :=
  _request "POST" "/markers" None
    (Some (VDict [("action", VStr "keepUnread"); ("type", VStr "entries");
                  ("entryIds", strs entry_ids)])).

End Transport.

End Client.

(* ====================================================================== *)
(** ** models.py *)
(* ====================================================================== *)

Module Models.
Import PyStr Py Constants.

Inductive ResponseFormat : Type := MARKDOWN | JSON.

Inductive Ranked : Type := newest | oldest.

Definition ranked_str (r : Ranked) : string :=
  match r with newest => "newest" | oldest => "oldest" end.

Record GetStreamContentsInput : Type := {
  gsc_stream_id : string;
  gsc_count : Z;
  gsc_unread_only : bool;
  gsc_continuation : option string;
  gsc_ranked : Ranked;
  gsc_response_format : ResponseFormat
}.

Record MarkAsReadInput : Type := { mar_entry_ids : list string }.

Record MarkFeedAsReadInput : Type := {
  mfr_feed_id : string;
  mfr_as_of : option Z
}.

Record MarkCategoryAsReadInput : Type := {
  mcr_category_id : string;
  mcr_as_of : option Z
}.

Record GetEntryInput : Type := {
  ge_entry_id : string;
  ge_response_format : ResponseFormat
}.

Record GetEntriesInput : Type := {
  ges_entry_ids : list string;
  ges_response_format : ResponseFormat
}.

Record KeepUnreadInput : Type := { ku_entry_ids : list string }.

Record SimpleResponseFormatInput : Type := { srf_response_format : ResponseFormat }.

(** *** The declared constraints, on the fields of a built model *)

Definition nonempty (s : string) : bool := 1 <=? PyStr.len s.

Definition batch_ok (ids : list string) : bool :=
  (1 <=? Z.of_nat (List.length ids)) && (Z.of_nat (List.length ids) <=? MAX_BATCH_SIZE).

Definition valid_GetStreamContentsInput (p : GetStreamContentsInput) : bool :=
  nonempty (gsc_stream_id p) && (1 <=? gsc_count p) && (gsc_count p <=? MAX_COUNT).

Definition valid_MarkAsReadInput (p : MarkAsReadInput) : bool := batch_ok (mar_entry_ids p).

Definition valid_MarkFeedAsReadInput (p : MarkFeedAsReadInput) : bool := nonempty (mfr_feed_id p).

Definition valid_MarkCategoryAsReadInput (p : MarkCategoryAsReadInput) : bool :=
  nonempty (mcr_category_id p).

Definition valid_GetEntryInput (p : GetEntryInput) : bool := nonempty (ge_entry_id p).

Definition valid_GetEntriesInput (p : GetEntriesInput) : bool := batch_ok (ges_entry_ids p).

Definition valid_KeepUnreadInput (p : KeepUnreadInput) : bool := batch_ok (ku_entry_ids p).

(** *** Validation of raw arguments

    A failure carries one pydantic error, the field it is about and the
    error type; where an input has several, which one is carried is not
    significant.  The models embedded here are those whose fields (strings,
    lists of strings, the format enumeration) pydantic takes from decoded
    JSON without conversion. *)

Inductive error_type : Type :=
| missing | extra_forbidden | model_type | string_type | string_too_short
| list_type | too_short | too_long | enum.

Record ValidationError : Type := { loc : list string; type_ : error_type }.

Inductive validation (A : Type) : Type :=
| Valid (a : A)
| Invalid (e : ValidationError).
Arguments Valid {A} a.
Arguments Invalid {A} e.

Definition vbind {A B} (c : validation A) (k : A -> validation B) : validation B :=
  match c with
  | Valid a => k a
  | Invalid e => Invalid e
  end.

Notation "x <-- c ;; k" := (vbind c (fun x => k))
  (at level 61, c at next level, right associativity).

Definition fail {A} (field : string) (t : error_type) : validation A :=
  Invalid {| loc := [field]; type_ := t |}.

(** [extra="forbid"]: the first key that is no field of the model. *)
Fixpoint first_extra (fields : list string) (kvs : list (string * value)) : option string :=
  match kvs with
  | [] => None
  | (k, _) :: rest =>
      if existsb (String.eqb k) fields then first_extra fields rest else Some k
  end.

(** A required [str] field with [min_length=1]. *)
Definition required_str (field : string) (kvs : list (string * value)) : validation string :=
  match lookup field kvs with
  | None => fail field missing
  | Some (VStr s) => if nonempty s then Valid s else fail field string_too_short
  | Some _ => fail field string_type
  end.

Fixpoint all_str (field : string) (i : Z) (l : list value) : validation (list string) :=
  match l with
  | [] => Valid []
  | VStr s :: rest => ss <-- all_str field (i + 1) rest ;; Valid (s :: ss)
  | _ :: _ => Invalid {| loc := [field; str_of_int i]; type_ := string_type |}
  end.

(** A required [List[str]] field with [min_length=1, max_length=1000]. *)
Definition required_ids (field : string) (kvs : list (string * value))
  : validation (list string) :=
  match lookup field kvs with
  | None => fail field missing
  | Some (VList l) =>
      if Z.of_nat (List.length l) <? 1 then fail field too_short
      else if 1000 <? Z.of_nat (List.length l) then fail field too_long
      else all_str field 0 l
  | Some _ => fail field list_type
  end.

(** The [response_format] field, [markdown] when absent. *)
Definition optional_format (kvs : list (string * value)) : validation ResponseFormat :=
  match lookup "response_format" kvs with
  | None => Valid MARKDOWN
  | Some (VStr s) =>
      if String.eqb s "markdown" then Valid MARKDOWN
      else if String.eqb s "json" then Valid JSON
      else fail "response_format" enum
  | Some _ => fail "response_format" enum
  end.

(** The frame common to the models: a dictionary, its fields checked in
    declaration order, then the keys that are no field. *)
Definition model {A} (fields : list string)
           (build : list (string * value) -> validation A) (raw : value) : validation A :=
  match raw with
  | VDict kvs =>
      a <-- build kvs ;;
      match first_extra fields kvs with
      | Some k => fail k extra_forbidden
      | None => Valid a
      end
  | _ => Invalid {| loc := []; type_ := model_type |}
  end.

Definition validate_MarkAsReadInput : value -> validation MarkAsReadInput :=
  model ["entry_ids"]
    (fun kvs => ids <-- required_ids "entry_ids" kvs ;; Valid {| mar_entry_ids := ids |}).

Definition validate_KeepUnreadInput : value -> validation KeepUnreadInput :=
  model ["entry_ids"]
    (fun kvs => ids <-- required_ids "entry_ids" kvs ;; Valid {| ku_entry_ids := ids |}).

Definition validate_GetEntriesInput : value -> validation GetEntriesInput :=
  model ["entry_ids"; "response_format"]
    (fun kvs =>
       ids <-- required_ids "entry_ids" kvs ;;
       fmt <-- optional_format kvs ;;
       Valid {| ges_entry_ids := ids; ges_response_format := fmt |}).

Definition validate_GetEntryInput : value -> validation GetEntryInput :=
  model ["entry_id"; "response_format"]
    (fun kvs =>
       id <-- required_str "entry_id" kvs ;;
       fmt <-- optional_format kvs ;;
       Valid {| ge_entry_id := id; ge_response_format := fmt |}).

Definition validate_SimpleResponseFormatInput : value -> validation SimpleResponseFormatInput :=
  model ["response_format"]
    (fun kvs => fmt <-- optional_format kvs ;; Valid {| srf_response_format := fmt |}).

End Models.

(* ====================================================================== *)
(** ** server.py *)
(* ====================================================================== *)

Module Server.
Import PyStr Py JsonCodec Datetime Constants Client Models.

Section Host.

(** The host process: its time zone, its environment, the network. *)
Variable utcoffset : Z -> Z.
Variable FEEDLY_ACCESS_TOKEN : option string.
Variable network : request -> reply.

Definition get_client : result FeedlyClient :=
  match FEEDLY_ACCESS_TOKEN with
  | Some token =>
      if String.eqb token EmptyString then
        Raise (FeedlyError "FEEDLY_ACCESS_TOKEN environment variable not set" None)
      else Ok (new_client token)
  | None => Raise (FeedlyError "FEEDLY_ACCESS_TOKEN environment variable not set" None)
  end.

(** [lines.append(line)] *)
Definition append (lines : list string) (line : string) : list string :=
  List.app lines [line].

Definition _handle_error (e : exception) : string :=
  match e with
  | FeedlyError message _ => "Error: " ++ message
  | TimeoutException => "Error: Request timed out. Try again."
  | HTTPStatusError status text => "Error: HTTP " ++ str_of_int status ++ ": " ++ text
  | PyExc name msg => "Error: " ++ name ++ ": " ++ msg
  end.

Definition truncation_notice : string :=
  nl ++ nl ++ "... [Response truncated at 25000 characters]".

Definition _truncate_response (content : string) : string :=
  if PyStr.len content <=? CHARACTER_LIMIT then content
  else slice_to (CHARACTER_LIMIT - 50) content ++ truncation_notice.

(** The least count of milliseconds whose quotient by 1000 rounds beyond
    the largest double. *)
Definition float_limit_ms : Z := (2 ^ 1024 - 2 ^ 970) * 1000.

(** [timestamp_ms / 1000]: defined on numbers, and as long as the quotient
    is a double.  The result stands for that double. *)
Definition milliseconds (timestamp_ms : value) : result Z :=
  match as_int timestamp_ms with
  | Some n =>
      if float_limit_ms <=? Z.abs n then
        Raise (PyExc "OverflowError" "integer division result too large for a float")
      else Ok n
  | None =>
      Raise (TypeError ("unsupported operand type(s) for /: '"
                        ++ type_name timestamp_ms ++ "' and 'int'"))
  end.

(** [except (ValueError, OSError)] *)
Definition value_or_os_error (e : exception) : bool :=
  match e with
  | PyExc name _ => String.eqb name "ValueError" || String.eqb name "OSError"
  | _ => false
  end.

Definition _format_timestamp (timestamp_ms : value) : result string :=
  match timestamp_ms with
  | VNone => Ok "Unknown"
  | _ =>
      match (ms <- milliseconds timestamp_ms ;;
             dt <- fromtimestamp utcoffset ms ;;
             Ok (strftime_minute dt)) with
      | Ok s => Ok s
      | Raise e => if value_or_os_error e then Ok "Unknown" else Raise e
      end
  end.

(** [text[: max_length - 3] + "..."] *)
Definition cut (text : value) (max_length : Z) : result value :=
  match text with
  | VStr s => Ok (VStr (slice_to (max_length - 3) s ++ "..."))
  | VList _ =>
      Raise (TypeError ("can only concatenate list (not "
                        ++ String dquote ("str" ++ String dquote ") to list")))
  | _ => Raise (TypeError "unhashable type: 'slice'")
  end.

Definition _truncate_text (text : value) (max_length : Z) : result value :=
  match text with
  | VNone => Ok (VStr EmptyString)
  | _ =>
      n <- Py.len text ;;
      if n <=? max_length then Ok text else cut text max_length
  end.

(** [key in entry and entry[key].get("content")] *)
Definition has_body (entry : value) (key : string) : result bool :=
  present <- Py.contains key entry ;;
  if present then
    (field <- getitem entry key ;;
     body <- get field "content" VNone ;;
     Ok (truthy body))
  else Ok false.

(** [entry[key]["content"]] *)
Definition body_of (entry : value) (key : string) : result value :=
  field <- getitem entry key ;; getitem field "content".

Definition _get_article_content (entry : value) : result value :=
  full <- Py.contains "fullContent" entry ;;
  if full then getitem entry "fullContent"
  else
    c <- has_body entry "content" ;;
    if c then body_of entry "content"
    else
      s <- has_body entry "summary" ;;
      if s then body_of entry "summary"
      else Ok (VStr EmptyString).

Definition _format_entry_markdown (entry : value) (include_content : bool) : result string :=
  title <- get entry "title" (VStr "Untitled") ;;
  author <- get entry "author" (VStr "Unknown author") ;;
  published_ms <- get entry "published" VNone ;;
  published <- _format_timestamp published_ms ;;
  alternate <- get entry "alternate" (VList [VDict []]) ;;
  first <- getitem0 alternate ;;
  canonical <- get entry "canonicalUrl" (VStr EmptyString) ;;
  url <- get first "href" canonical ;;
  entry_id <- get entry "id" (VStr EmptyString) ;;
  unread <- get entry "unread" (VBool false) ;;
  content <- _get_article_content entry ;;
  summary <- _truncate_text content 300 ;;
  let lines :=
    ["### " ++ str title;
     "**Author:** " ++ str author ++ " | **Published:** " ++ published
       ++ " | **Unread:** " ++ (if truthy unread then "Yes" else "No");
     "**ID:** `" ++ str entry_id ++ "`"] in
  let lines :=
    if truthy url
    then append lines ("**URL:** [" ++ str url ++ "](" ++ str url ++ ")")
    else lines in
  let lines :=
    if include_content && truthy content
    then append lines (nl ++ "**Content:**" ++ nl ++ str content)
    else if truthy summary
    then append lines (nl ++ "**Summary:** " ++ str summary)
    else lines in
  Ok (join nl lines).

Definition entry_separator : string := nl ++ nl ++ "---" ++ nl ++ nl.

Definition _format_entries_markdown (entries : value) (include_content : bool)
  : result string :=
  if negb (truthy entries) then Ok "No articles found."
  else
    es <- iter entries ;;
    blocks <- mapM (fun entry => _format_entry_markdown entry include_content) es ;;
    Ok (join entry_separator blocks).

Definition _format_stream_contents (data : value) (response_format : ResponseFormat)
  : result string :=
  items <- get data "items" (VList []) ;;
  continuation <- get data "continuation" VNone ;;
  match response_format with
  | JSON =>
      n <- Py.len items ;;
      let result := [("items", items); ("count", VInt n)] in
      let result :=
        if truthy continuation then dict_set result "continuation" continuation
        else result in
      Ok (dumps (VDict result))
  | MARKDOWN =>
      n <- Py.len items ;;
      body <- _format_entries_markdown items false ;;
      let lines := ["## Articles (" ++ str_of_int n ++ " found)" ++ nl; body] in
      let lines :=
        if truthy continuation
        then append lines (nl ++ nl ++ "---" ++ nl
                           ++ "**More articles available.** Use continuation token: `"
                           ++ str continuation ++ "`")
        else lines in
      Ok (join nl lines)
  end.

Definition _format_profile_markdown (profile : value) : result string :=
  id <- get profile "id" (VStr "Unknown") ;;
  email <- get profile "email" (VStr "Not available") ;;
  given <- get profile "givenName" (VStr "Not available") ;;
  name <- get profile "fullName" given ;;
  locale <- get profile "locale" (VStr "Not available") ;;
  login <- get profile "login" (VStr "Not available") ;;
  Ok ("## Feedly Profile" ++ nl ++ nl
      ++ "**User ID:** `" ++ str id ++ "`" ++ nl
      ++ "**Email:** " ++ str email ++ nl
      ++ "**Name:** " ++ str name ++ nl
      ++ "**Locale:** " ++ str locale ++ nl
      ++ "**Login:** " ++ str login ++ nl).

(** [sep.join(parts)] on values: every part has to be a string. *)
Fixpoint str_items (i : Z) (parts : list value) : result (list string) :=
  match parts with
  | [] => Ok []
  | VStr s :: rest => ss <- str_items (i + 1) rest ;; Ok (s :: ss)
  | v :: _ =>
      Raise (TypeError ("sequence item " ++ str_of_int i ++ ": expected str instance, "
                        ++ type_name v ++ " found"))
  end.

Definition subscription_block (sub : value) : result (list string) :=
  title <- get sub "title" (VStr "Untitled") ;;
  feed_id <- get sub "id" (VStr EmptyString) ;;
  website <- get sub "website" (VStr EmptyString) ;;
  cats <- get sub "categories" (VList []) ;;
  cs <- iter cats ;;
  categories <- mapM (fun c => get c "label" (VStr EmptyString)) cs ;;
  cat_str <- match categories with
             | [] => Ok "Uncategorized"
             | _ => ss <- str_items 0 categories ;; Ok (join ", " ss)
             end ;;
  let lines := ["### " ++ str title; "**Feed ID:** `" ++ str feed_id ++ "`"] in
  let lines :=
    if truthy website
    then append lines ("**Website:** [" ++ str website ++ "](" ++ str website ++ ")")
    else lines in
  let lines := append lines ("**Categories:** " ++ cat_str) in
  Ok (append lines EmptyString).

Definition _format_subscriptions_markdown (subscriptions : value) : result string :=
  if negb (truthy subscriptions) then Ok "No subscriptions found."
  else
    n <- Py.len subscriptions ;;
    subs <- iter subscriptions ;;
    blocks <- mapM subscription_block subs ;;
    Ok (join nl (("## Subscriptions (" ++ str_of_int n ++ " feeds)" ++ nl) :: List.concat blocks)).

Definition category_block (cat : value) : result (list string) :=
  label <- get cat "label" (VStr "Unlabeled") ;;
  cat_id <- get cat "id" (VStr EmptyString) ;;
  Ok ["- **" ++ str label ++ "**"; "  - ID: `" ++ str cat_id ++ "`"].

Definition _format_categories_markdown (categories : value) : result string :=
  if negb (truthy categories) then Ok "No categories found."
  else
    n <- Py.len categories ;;
    cats <- iter categories ;;
    blocks <- mapM category_block cats ;;
    Ok (join nl (("## Categories (" ++ str_of_int n ++ " found)" ++ nl) :: List.concat blocks)).

(** A method of [str] looked up on a value. *)
Definition str_method (v : value) (attr : string) : result string :=
  match v with
  | VStr s => Ok s
  | _ => Raise (AttributeError v attr)
  end.

(** [s.split(sep)[-1]] *)
Definition last_piece (sep s : string) : string := List.last (split sep s) EmptyString.

Definition tag_block (tag : value) : result (list string) :=
  id0 <- get tag "id" (VStr EmptyString) ;;
  id_str <- str_method id0 "split" ;;
  label <- get tag "label" (VStr (last_piece "/" id_str)) ;;
  tag_id <- get tag "id" (VStr EmptyString) ;;
  Ok ["- **" ++ str label ++ "**"; "  - ID: `" ++ str tag_id ++ "`"].

Definition _format_tags_markdown (tags : value) : result string :=
  if negb (truthy tags) then Ok "No tags found."
  else
    n <- Py.len tags ;;
    ts <- iter tags ;;
    blocks <- mapM tag_block ts ;;
    Ok (join nl (("## Tags (" ++ str_of_int n ++ " found)" ++ nl) :: List.concat blocks)).

(** The readable name and the kind of a stream. *)
Definition classify (stream_id : value) : result (string * string) :=
  is_cat <- Py.contains "/category/" stream_id ;;
  if is_cat then
    (s <- str_method stream_id "split" ;; Ok (last_piece "/category/" s, "Category"))
  else
    is_tag <- Py.contains "/tag/" stream_id ;;
    if is_tag then
      (s <- str_method stream_id "split" ;; Ok (last_piece "/tag/" s, "Tag"))
    else
      s <- str_method stream_id "startswith" ;;
      if startswith "feed/" s then Ok (slice_from 5 s, "Feed")
      else Ok (s, "Stream").

Definition count_key (x : value) : result value := get x "count" (VInt 0).

Definition unread_block (item : value) : result (list string) :=
  stream_id <- get item "id" (VStr EmptyString) ;;
  count <- get item "count" (VInt 0) ;;
  updated_ms <- get item "updated" VNone ;;
  updated <- _format_timestamp updated_ms ;;
  nt <- classify stream_id ;;
  Ok ["- **" ++ fst nt ++ "** (" ++ snd nt ++ "): " ++ str count
        ++ " unread (updated: " ++ updated ++ ")";
      "  - ID: `" ++ str stream_id ++ "`"].

Definition _format_unread_counts_markdown (data : value) : result string :=
  counts <- get data "unreadcounts" (VList []) ;;
  if negb (truthy counts) then Ok "No unread counts available."
  else
    sorted_counts <- sorted_reverse count_key counts ;;
    blocks <- mapM unread_block sorted_counts ;;
    Ok (join nl (("## Unread Counts" ++ nl) :: List.concat blocks)).

(** *** Tools

    Each tool is [try: body / except Exception as e: return _handle_error(e)];
    the statements under [try] are the [_body] of the tool. *)

Definition feedly_get_profile_body (params : SimpleResponseFormatInput) : io string :=
  client <~ lift get_client ;;
  profile <~ get_profile network client ;;
  match srf_response_format params with
  | JSON => ret (_truncate_response (dumps profile))
  | MARKDOWN =>
      s <~ lift (_format_profile_markdown profile) ;; ret (_truncate_response s)
  end.

Definition feedly_get_profile (params : SimpleResponseFormatInput) : io string :=
  try_except (feedly_get_profile_body params) _handle_error.

Definition feedly_get_subscriptions_body (params : SimpleResponseFormatInput) : io string :=
  client <~ lift get_client ;;
  subscriptions <~ get_subscriptions network client ;;
  match srf_response_format params with
  | JSON => ret (_truncate_response (dumps subscriptions))
  | MARKDOWN =>
      s <~ lift (_format_subscriptions_markdown subscriptions) ;;
      ret (_truncate_response s)
  end.

Definition feedly_get_subscriptions (params : SimpleResponseFormatInput) : io string :=
  try_except (feedly_get_subscriptions_body params) _handle_error.

Definition feedly_get_categories_body (params : SimpleResponseFormatInput) : io string :=
  client <~ lift get_client ;;
  categories <~ get_categories network client ;;
  match srf_response_format params with
  | JSON => ret (_truncate_response (dumps categories))
  | MARKDOWN =>
      s <~ lift (_format_categories_markdown categories) ;;
      ret (_truncate_response s)
  end.

Definition feedly_get_categories (params : SimpleResponseFormatInput) : io string :=
  try_except (feedly_get_categories_body params) _handle_error.

Definition feedly_get_tags_body (params : SimpleResponseFormatInput) : io string :=
  client <~ lift get_client ;;
  tags <~ get_tags network client ;;
  match srf_response_format params with
  | JSON => ret (_truncate_response (dumps tags))
  | MARKDOWN =>
      s <~ lift (_format_tags_markdown tags) ;; ret (_truncate_response s)
  end.

Definition feedly_get_tags (params : SimpleResponseFormatInput) : io string :=
  try_except (feedly_get_tags_body params) _handle_error.

Definition feedly_get_unread_counts_body (params : SimpleResponseFormatInput) : io string :=
  client <~ lift get_client ;;
  counts <~ get_unread_counts network client ;;
  match srf_response_format params with
  | JSON => ret (_truncate_response (dumps counts))
  | MARKDOWN =>
      s <~ lift (_format_unread_counts_markdown counts) ;;
      ret (_truncate_response s)
  end.

Definition feedly_get_unread_counts (params : SimpleResponseFormatInput) : io string :=
  try_except (feedly_get_unread_counts_body params) _handle_error.

Definition feedly_get_stream_contents_body (params : GetStreamContentsInput) : io string :=
  client <~ lift get_client ;;
  data <~ get_stream_contents network client
            (gsc_stream_id params) (gsc_count params) (gsc_unread_only params)
            (gsc_continuation params) (ranked_str (gsc_ranked params)) ;;
  s <~ lift (_format_stream_contents data (gsc_response_format params)) ;;
  ret (_truncate_response s).

Definition feedly_get_stream_contents (params : GetStreamContentsInput) : io string :=
  try_except (feedly_get_stream_contents_body params) _handle_error.

Definition feedly_get_entry_body (params : GetEntryInput) : io string :=
  client <~ lift get_client ;;
  entries <~ get_entry network client (ge_entry_id params) ;;
  if negb (truthy entries) then ret "Error: Article not found."
  else
    entry <~ lift (match entries with
                   | VList _ => getitem0 entries
                   | _ => Ok entries
                   end) ;;
    match ge_response_format params with
    | JSON => ret (_truncate_response (dumps entry))
    | MARKDOWN =>
        s <~ lift (_format_entry_markdown entry true) ;; ret (_truncate_response s)
    end.

Definition feedly_get_entry (params : GetEntryInput) : io string :=
  try_except (feedly_get_entry_body params) _handle_error.

Definition feedly_get_entries_body (params : GetEntriesInput) : io string :=
  client <~ lift get_client ;;
  entries <~ get_entries network client (ges_entry_ids params) ;;
  match ges_response_format params with
  | JSON => ret (_truncate_response (dumps entries))
  | MARKDOWN =>
      s <~ lift (_format_entries_markdown entries true) ;; ret (_truncate_response s)
  end.

Definition feedly_get_entries (params : GetEntriesInput) : io string :=
  try_except (feedly_get_entries_body params) _handle_error.

Definition feedly_mark_as_read_body (params : MarkAsReadInput) : io string :=
  client <~ lift get_client ;;
  _ <~ mark_as_read network client (mar_entry_ids params) ;;
  ret ("Successfully marked "
       ++ str_of_int (Z.of_nat (List.length (mar_entry_ids params)))
       ++ " article(s) as read.").

Definition feedly_mark_as_read (params : MarkAsReadInput) : io string :=
  try_except (feedly_mark_as_read_body params) _handle_error.

(** [msg += f" (entries before {_format_timestamp(as_of)})"] under [if as_of:] *)
Definition with_cutoff (msg : string) (as_of : option Z) : result string :=
  match as_of with
  | Some t =>
      if t =? 0 then Ok msg
      else (ts <- _format_timestamp (VInt t) ;; Ok (msg ++ " (entries before " ++ ts ++ ")"))
  | None => Ok msg
  end.

Definition feedly_mark_feed_as_read_body (params : MarkFeedAsReadInput) : io string :=
  client <~ lift get_client ;;
  _ <~ mark_feed_as_read network client (mfr_feed_id params) (mfr_as_of params) ;;
  lift (with_cutoff ("Successfully marked feed as read: " ++ mfr_feed_id params)
                    (mfr_as_of params)).

Definition feedly_mark_feed_as_read (params : MarkFeedAsReadInput) : io string :=
  try_except (feedly_mark_feed_as_read_body params) _handle_error.

Definition feedly_mark_category_as_read_body (params : MarkCategoryAsReadInput) : io string :=
  client <~ lift get_client ;;
  _ <~ mark_category_as_read network client (mcr_category_id params) (mcr_as_of params) ;;
  lift (with_cutoff ("Successfully marked category as read: " ++ mcr_category_id params)
                    (mcr_as_of params)).

Definition feedly_mark_category_as_read (params : MarkCategoryAsReadInput) : io string :=
  try_except (feedly_mark_category_as_read_body params) _handle_error.

Definition feedly_keep_unread_body (params : KeepUnreadInput) : io string :=
  client <~ lift get_client ;;
  _ <~ keep_unread network client (ku_entry_ids params) ;;
  ret ("Successfully kept "
       ++ str_of_int (Z.of_nat (List.length (ku_entry_ids params)))
       ++ " article(s) as unread.").

Definition feedly_keep_unread (params : KeepUnreadInput) : io string :=
  try_except (feedly_keep_unread_body params) _handle_error.

(** *** The registry: a tool and its validated input *)

Inductive tool_call : Type :=
| GetProfile (p : SimpleResponseFormatInput)
| GetSubscriptions (p : SimpleResponseFormatInput)
| GetCategories (p : SimpleResponseFormatInput)
| GetTags (p : SimpleResponseFormatInput)
| GetUnreadCounts (p : SimpleResponseFormatInput)
| GetStreamContents (p : GetStreamContentsInput)
| GetEntry (p : GetEntryInput)
| GetEntries (p : GetEntriesInput)
| MarkAsRead (p : MarkAsReadInput)
| MarkFeedAsRead (p : MarkFeedAsReadInput)
| MarkCategoryAsRead (p : MarkCategoryAsReadInput)
| KeepUnread (p : KeepUnreadInput).

Definition run (c : tool_call) : io string :=
  match c with
  | GetProfile p => feedly_get_profile p
  | GetSubscriptions p => feedly_get_subscriptions p
  | GetCategories p => feedly_get_categories p
  | GetTags p => feedly_get_tags p
  | GetUnreadCounts p => feedly_get_unread_counts p
  | GetStreamContents p => feedly_get_stream_contents p
  | GetEntry p => feedly_get_entry p
  | GetEntries p => feedly_get_entries p
  | MarkAsRead p => feedly_mark_as_read p
  | MarkFeedAsRead p => feedly_mark_feed_as_read p
  | MarkCategoryAsRead p => feedly_mark_category_as_read p
  | KeepUnread p => feedly_keep_unread p
  end.

(** The statements under [try] of the tool called. *)
Definition body (c : tool_call) : io string :=
  match c with
  | GetProfile p => feedly_get_profile_body p
  | GetSubscriptions p => feedly_get_subscriptions_body p
  | GetCategories p => feedly_get_categories_body p
  | GetTags p => feedly_get_tags_body p
  | GetUnreadCounts p => feedly_get_unread_counts_body p
  | GetStreamContents p => feedly_get_stream_contents_body p
  | GetEntry p => feedly_get_entry_body p
  | GetEntries p => feedly_get_entries_body p
  | MarkAsRead p => feedly_mark_as_read_body p
  | MarkFeedAsRead p => feedly_mark_feed_as_read_body p
  | MarkCategoryAsRead p => feedly_mark_category_as_read_body p
  | KeepUnread p => feedly_keep_unread_body p
  end.

(** The declared constraints of the input of a call. *)
Definition valid_call (c : tool_call) : bool :=
  match c with
  | GetStreamContents p => valid_GetStreamContentsInput p
  | GetEntry p => valid_GetEntryInput p
  | GetEntries p => valid_GetEntriesInput p
  | MarkAsRead p => valid_MarkAsReadInput p
  | MarkFeedAsRead p => valid_MarkFeedAsReadInput p
  | MarkCategoryAsRead p => valid_MarkCategoryAsReadInput p
  | KeepUnread p => valid_KeepUnreadInput p
  | _ => true
  end.

(** The tools that render upstream content, as opposed to the four that
    write and confirm. *)
Definition renders_content (c : tool_call) : bool :=
  match c with
  | MarkAsRead _ | MarkFeedAsRead _ | MarkCategoryAsRead _ | KeepUnread _ => false
  | _ => true
  end.

(** *** Invocation from raw arguments

    A tool is registered with its parameter annotated by the input model:
    the runtime builds the model from the raw arguments and calls the
    coroutine only with a model it could build.  A failure to build it is
    raised by the runtime, outside the coroutine and its [try]. *)

Inductive outcome : Type :=
| Returned (s : string)
| Raised (e : exception)
| Rejected (e : ValidationError).

Definition invoke {P} (validate : value -> validation P) (tool : P -> io string)
           (raw : value) (log : list request) : outcome * list request :=
  match validate raw with
  | Invalid e => (Rejected e, log)
  | Valid p =>
      match tool p log with
      | (Ok s, log') => (Returned s, log')
      | (Raise e, log') => (Raised e, log')
      end
  end.

Definition call_mark_as_read := invoke validate_MarkAsReadInput feedly_mark_as_read.

Definition call_keep_unread := invoke validate_KeepUnreadInput feedly_keep_unread.

Definition call_get_entries := invoke validate_GetEntriesInput feedly_get_entries.

Definition call_get_entry := invoke validate_GetEntryInput feedly_get_entry.

Definition call_get_profile := invoke validate_SimpleResponseFormatInput feedly_get_profile.

Definition call_get_subscriptions :=
  invoke validate_SimpleResponseFormatInput feedly_get_subscriptions.

Definition call_get_categories :=
  invoke validate_SimpleResponseFormatInput feedly_get_categories.

Definition call_get_tags := invoke validate_SimpleResponseFormatInput feedly_get_tags.

Definition call_get_unread_counts :=
  invoke validate_SimpleResponseFormatInput feedly_get_unread_counts.

End Host.

End Server.

(* ====================================================================== *)
(** ** Notions the properties are stated with *)
(* ====================================================================== *)

Module Spec.
Import PyStr Py JsonCodec Datetime Constants Client Models Server.

(** The field [k] of a value that is a dictionary. *)
Definition field (k : string) (doc : value) : option value :=
  match doc with
  | VDict d => lookup k d
  | _ => None
  end.

(** The member [k] of a decoded document that is an object. *)
Definition member (k : string) (doc : document) : option document :=
  match doc with
  | DDict d =>
      match find (fun kv => codes_eqb (codes k) (fst kv)) d with
      | Some kv => Some (snd kv)
      | None => None
      end
  | _ => None
  end.


(** The keys of every dictionary in a value are distinct, as in any value
    Python holds. *)
Inductive unique_keys : value -> Prop :=
| uk_none : unique_keys VNone
| uk_bool b : unique_keys (VBool b)
| uk_int n : unique_keys (VInt n)
| uk_str s : unique_keys (VStr s)
| uk_list l : Forall unique_keys l -> unique_keys (VList l)
| uk_dict d : NoDup (map fst d) -> Forall (fun kv => unique_keys (snd kv)) d ->
              unique_keys (VDict d).

(** How deep the decoder nests its calls on the encoding of a value. *)
Fixpoint size (v : value) : nat :=
  match v with
  | VList l => S (fold_right (fun x acc => S (size x + acc)) O l)
  | VDict d => S (fold_right (fun kv acc => S (size (snd kv) + acc)) O d)
  | _ => 1
  end.

(** A text that cannot continue a number: it is empty, or begins with
    something other than a digit, a point or an exponent mark. *)
Definition delimited (rest : string) : bool :=
  match rest with
  | EmptyString => true
  | String c _ =>
      match digit c with
      | Some _ => false
      | None => negb (Ascii.eqb c "." || Ascii.eqb c "e" || Ascii.eqb c "E")
      end
  end.

(** The same, summed over the elements of a list and the members of a
    dictionary. *)
Definition elems_size (l : list value) : nat :=
  fold_right (fun x acc => S (size x + acc)) O l.

Definition members_size (d : list (string * value)) : nat :=
  fold_right (fun kv acc => S (size (snd kv) + acc)) O d.

(** What the round trip shows of a value: its encoding, at any level and
    before any delimited text, decodes to it. *)
Definition decodes (v : value) : Prop :=
  forall (lvl fuel : nat) (rest : string),
    (size v <= fuel)%nat -> delimited rest = true ->
    parse_value fuel (dumps_at lvl v ++ rest) = Some (of_value v, rest).

(** A text that begins with something other than white space. *)
Definition solid (s : string) : Prop :=
  exists c r, s = String c r /\ is_ws c = false.

(** A text that opens a value: it begins with something that is neither
    white space nor a closing bracket. *)
Definition opening (s : string) : Prop :=
  exists c r, s = String c r
              /\ is_ws c = false /\ Ascii.eqb c "]" = false /\ Ascii.eqb c "}" = false.




(** Two readings of "available": the body is there; the body is there and
    is not empty. *)
Definition present (_ : value) : bool := true.








(** An unread-count record with an integer count (or none). *)
Definition count_of (item : value) : option Z :=
  match item with
  | VDict d =>
      match lookup "count" d with
      | Some c => as_int c
      | None => Some 0
      end
  | _ => None
  end.

Definition count_record (item : value) : bool :=
  match count_of item with Some _ => true | None => false end.

Definition cnt (item : value) : Z :=
  match count_of item with Some n => n | None => 0 end.

(** The records that hold the count [n]. *)
Definition has_count (n : Z) (x : value) : bool := cnt x =? n.

(** [a] does not come below [b]: its count is at least that of [b]. *)
Definition not_below (a b : value) : Prop := cnt b <= cnt a.

(** The sort key of a count record, and the same notions on pairs of a key
    and its record. *)
Definition key_of (x : value) : value :=
  match x with
  | VDict d => match lookup "count" d with Some c => c | None => VInt 0 end
  | _ => VNone
  end.

Definition keyed (p : value * value) : Prop := as_int (fst p) = Some (cnt (snd p)).

Definition key_has (n : Z) (p : value * value) : bool := has_count n (snd p).

Definition key_not_below (p q : value * value) : Prop := not_below (snd p) (snd q).

(** The identifier and the update time of an unread-count record, as the
    listing reads them. *)
Definition id_of (item : value) : string :=
  match item with
  | VDict d => match lookup "id" d with Some (VStr s) => s | _ => EmptyString end
  | _ => EmptyString
  end.

Definition updated_of (item : value) : value :=
  match item with
  | VDict d => match lookup "updated" d with Some v => v | None => VNone end
  | _ => VNone
  end.

(** A record whose identifier is a string, or is missing. *)
Definition named_record (item : value) : bool :=
  match item with
  | VDict d => match lookup "id" d with Some (VStr _) | None => true | Some _ => false end
  | _ => false
  end.

(** The two lines the listing shows for a record: its readable name and
    kind, its count and the time of its last update, then its identifier. *)
Definition block_of (utcoffset : Z -> Z) (item : value) (lines : list string) : Prop :=
  exists name kind updated,
    classify (VStr (id_of item)) = Ok (name, kind)
    /\ _format_timestamp utcoffset (updated_of item) = Ok updated
    /\ lines = ["- **" ++ name ++ "** (" ++ kind ++ "): " ++ str (key_of item)
                  ++ " unread (updated: " ++ updated ++ ")";
                "  - ID: `" ++ id_of item ++ "`"].

(** [s] is what the tool returned. *)
Definition returned {L} (r : result string * L) (s : string) : Prop := fst r = Ok s.

(** The environment holds a token the client can be built from. *)
Definition usable (tok : option string) : Prop := exists t, tok = Some t /\ t <> EmptyString.

(** Every request is answered, by a response of a given kind. *)
Definition answered (network : Client.request -> Client.reply)
           (P : Client.response -> Prop) : Prop :=
  forall req, exists r, network req = Client.Responds r /\ P r.

(** A successful response that carries the decoded document [v]. *)
Definition carries (v : value) (r : Client.response) : Prop :=
  200 <= Client.status_code r <= 299 /\ Client.status_code r <> 204
  /\ Client.json_body r = Some v.

(** What a tool formats from the payload the transport returned: the
    argument of [_truncate_response] in its body.  Nothing is formatted by
    the four tools that write, nor by the single-entry tool on a payload
    Python takes for false. *)
Definition formatted (utcoffset : Z -> Z) (c : tool_call) (data : value)
  : option (result string) :=
  match c with
  | GetProfile p =>
      Some match srf_response_format p with
           | JSON => Ok (dumps data)
           | MARKDOWN => _format_profile_markdown data
           end
  | GetSubscriptions p =>
      Some match srf_response_format p with
           | JSON => Ok (dumps data)
           | MARKDOWN => _format_subscriptions_markdown data
           end
  | GetCategories p =>
      Some match srf_response_format p with
           | JSON => Ok (dumps data)
           | MARKDOWN => _format_categories_markdown data
           end
  | GetTags p =>
      Some match srf_response_format p with
           | JSON => Ok (dumps data)
           | MARKDOWN => _format_tags_markdown data
           end
  | GetUnreadCounts p =>
      Some match srf_response_format p with
           | JSON => Ok (dumps data)
           | MARKDOWN => _format_unread_counts_markdown utcoffset data
           end
  | GetStreamContents p =>
      Some (_format_stream_contents utcoffset data (gsc_response_format p))
  | GetEntry p =>
      if truthy data then
        Some (entry <- match data with
                       | VList _ => getitem0 data
                       | _ => Ok data
                       end ;;
              match ge_response_format p with
              | JSON => Ok (dumps entry)
              | MARKDOWN => _format_entry_markdown utcoffset entry true
              end)
      else None
  | GetEntries p =>
      Some match ges_response_format p with
           | JSON => Ok (dumps data)
           | MARKDOWN => _format_entries_markdown utcoffset data true
           end
  | MarkAsRead _ | MarkFeedAsRead _ | MarkCategoryAsRead _ | KeepUnread _ => None
  end.

(** The transport takes the response [r] for a success and returns [v]:
    [None] for a 204, the decoded body otherwise. *)
Definition delivers (v : value) (r : response) : Prop :=
  200 <= status_code r <= 299
  /\ (status_code r = 204 /\ v = VNone \/ status_code r <> 204 /\ json_body r = Some v).

End Spec.

(* ====================================================================== *)
(** ** Sample hosts and payloads *)
(* ====================================================================== *)

Module Samples.
Import PyStr Py Client Models.

(** A host on UTC, and one an hour ahead. *)
Definition utc (_ : Z) : Z := 0.
Definition utc_plus_1 (_ : Z) : Z := 3600.

Definition token : option string := Some "token".

(** An upstream that answers every request alike. *)
Definition answers (status : Z) (body : string) (decoded : option value) (_ : request) : reply :=
  Responds {| status_code := status; text := body; json_body := decoded |}.

Definition ok_json (v : value) : request -> reply := answers 200 EmptyString (Some v).

Definition no_content : request -> reply := answers 204 EmptyString None.

Definition long_text : string := replicate (Z.to_nat 25000) "a".

Definition markdown : SimpleResponseFormatInput := {| srf_response_format := MARKDOWN |}.
Definition as_json : SimpleResponseFormatInput := {| srf_response_format := JSON |}.

Definition sample_entry : value :=
  VDict [("id", VStr "e1"); ("title", VStr "Title");
         ("published", VInt 1704067200000);
         ("summary", VDict [("content", VStr "short summary")]);
         ("fullContent", VStr "the full text")].

Definition wordy_entry : value :=
  VDict [("id", VStr "e2"); ("fullContent", VStr (replicate (Z.to_nat 400) "x"))].

Definition unread_sample : list value :=
  [VDict [("id", VStr "feed/a"); ("count", VInt 3)];
   VDict [("id", VStr "user/u/category/b"); ("count", VInt 10)];
   VDict [("id", VStr "user/u/tag/c"); ("count", VInt 1)]].

End Samples.

(* ====================================================================== *)
(** ** Notions the further properties are stated with *)
(* ====================================================================== *)

Module More.
Import PyStr Py JsonCodec Datetime Constants Client Models Server Spec.

(** The request [_request] builds from its arguments. *)
Definition sent (cl : FeedlyClient) (m ep : string)
           (p : option (list (string * value))) (j : option value) : request :=
  {| method := m;
     url := base_url cl ++ ep;
     params := p;
     json := j;
     headers := [("Authorization", "Bearer " ++ access_token cl);
                 ("Accept", "application/json");
                 ("Content-Type", "application/json");
                 ("User-Agent", USER_AGENT)] |}.

(** A status that is no success and none of the four with a message of
    their own. *)
Definition other_failure (code : Z) : bool :=
  negb (code =? 401) && negb (code =? 403) && negb (code =? 404) && negb (code =? 429)
  && negb ((200 <=? code) && (code <=? 299)).

(** A response the transport takes for a success: a 2xx status, with no
    content (204) or with a body that decodes. *)
Definition succeeds (r : response) : Prop :=
  200 <= status_code r <= 299
  /\ (status_code r = 204 \/ exists v, json_body r = Some v).

(** The body of a request to the markers endpoint. *)
Definition marker (action kind ids_key : string) (ids : list string)
           (as_of : option Z) : value :=
  VDict ([("action", VStr action); ("type", VStr kind); (ids_key, strs ids)]
         ++ match as_of with Some t => [("asOf", VInt t)] | None => [] end).

(** The calls that ask for JSON and get the upstream payload encoded as it
    is. *)
Definition passes_payload (c : tool_call) : bool :=
  match c with
  | GetProfile p | GetSubscriptions p | GetCategories p | GetTags p | GetUnreadCounts p =>
      match srf_response_format p with JSON => true | MARKDOWN => false end
  | GetEntries p =>
      match ges_response_format p with JSON => true | MARKDOWN => false end
  | _ => false
  end.

(** Every character of a string passes a test. *)
Fixpoint all_chars (P : ascii -> bool) (s : string) : bool :=
  match s with
  | EmptyString => true
  | String c s' => P c && all_chars P s'
  end.

(** The characters a quoted path segment is made of. *)
Definition path_safe (c : ascii) : bool := unreserved c || Ascii.eqb c "%".

(** The query of a stream-contents request. *)
Definition stream_query (p : GetStreamContentsInput) : list (string * value) :=
  [("streamId", VStr (gsc_stream_id p)); ("count", VInt (gsc_count p));
   ("ranked", VStr (ranked_str (gsc_ranked p)))]
  ++ (if gsc_unread_only p then [("unreadOnly", VStr "true")] else [])
  ++ match gsc_continuation p with
     | Some c => if String.eqb c EmptyString then [] else [("continuation", VStr c)]
     | None => []
     end.

End More.

(* ====================================================================== *)
(** ** Properties *)
(* ====================================================================== *)

Import PyStr Py JsonCodec Datetime Constants Client Models Server Spec Samples.

(** *** Strings *)

Lemma length_append (a b : string) :
  String.length (a ++ b) = (String.length a + String.length b)%nat.
Proof. induction a as [|c a IH]; simpl; [reflexivity | now rewrite IH]. Qed.

Lemma len_append (a b : string) : PyStr.len (a ++ b) = PyStr.len a + PyStr.len b.
Proof. unfold PyStr.len. rewrite length_append. lia. Qed.

Lemma len_nonneg (s : string) : 0 <= PyStr.len s.
Proof. unfold PyStr.len. lia. Qed.

Lemma append_assoc (a b c : string) : (a ++ b) ++ c = a ++ (b ++ c).
Proof. induction a as [|x a IH]; simpl; [reflexivity | now rewrite IH]. Qed.

Lemma append_nil_r (a : string) : a ++ EmptyString = a.
Proof. induction a as [|x a IH]; simpl; [reflexivity | now rewrite IH]. Qed.

Lemma length_substring0 (n : nat) (s : string) :
  String.length (substring 0 n s) = Nat.min n (String.length s).
Proof.
  revert s. induction n as [|n IH]; intros [|c s]; simpl; try reflexivity.
  now rewrite IH.
Qed.

Lemma substring0_all (n : nat) (s : string) :
  (String.length s <= n)%nat -> substring 0 n s = s.
Proof.
  revert s. induction n as [|n IH]; intros [|c s] H; simpl in *; try reflexivity; try lia.
  rewrite IH; [reflexivity | lia].
Qed.

Lemma len_slice_to (n : Z) (s : string) :
  0 <= n -> PyStr.len (slice_to n s) = Z.min n (PyStr.len s).
Proof.
  intros Hn. unfold slice_to.
  destruct (n <? 0) eqn:E; [apply Z.ltb_lt in E; lia|].
  unfold PyStr.len. rewrite length_substring0. lia.
Qed.

Lemma prefix_append (p s : string) : String.prefix p (p ++ s) = true.
Proof.
  induction p as [|c p IH]; simpl; [now destruct s|].
  destruct (ascii_dec c c); [assumption | contradiction].
Qed.

Lemma startswith_append (p s : string) : startswith p (p ++ s) = true.
Proof. apply prefix_append. Qed.

(** *** The response cap *)

Lemma len_truncation_notice : PyStr.len truncation_notice = 46.
Proof. reflexivity. Qed.

Lemma truncate_response_short (content : string) :
  PyStr.len content <= CHARACTER_LIMIT -> _truncate_response content = content.
Proof.
  intros H. unfold _truncate_response.
  destruct (PyStr.len content <=? CHARACTER_LIMIT) eqn:E; [reflexivity|].
  apply Z.leb_gt in E. lia.
Qed.

Lemma truncate_response_long (content : string) :
  CHARACTER_LIMIT < PyStr.len content ->
  _truncate_response content = slice_to (CHARACTER_LIMIT - 50) content ++ truncation_notice
  /\ PyStr.len (_truncate_response content) = CHARACTER_LIMIT - 50 + PyStr.len truncation_notice.
Proof.
  intros H. unfold _truncate_response.
  destruct (PyStr.len content <=? CHARACTER_LIMIT) eqn:E; [apply Z.leb_le in E; lia|].
  split; [reflexivity|].
  rewrite len_append, len_slice_to by (unfold CHARACTER_LIMIT; lia).
  unfold CHARACTER_LIMIT in *. lia.
Qed.

Lemma truncate_response_bound (content : string) :
  PyStr.len (_truncate_response content) <= CHARACTER_LIMIT.
Proof.
  destruct (Z_le_gt_dec (PyStr.len content) CHARACTER_LIMIT) as [H|H].
  - now rewrite truncate_response_short.
  - destruct (truncate_response_long content) as [_ ->]; [lia|].
    rewrite len_truncation_notice. unfold CHARACTER_LIMIT. lia.
Qed.

(** *** Tools: the shape of a result *)

Lemma try_except_returns {A} (body : io A) (h : exception -> A) (log : list request) :
  match body log with
  | (Ok a, l) => try_except body h log = (Ok a, l)
  | (Raise e, l) => try_except body h log = (Ok (h e), l)
  end.
Proof. unfold try_except. destruct (body log) as [[a|e] l]; reflexivity. Qed.

Lemma handle_error_prefix (e : exception) : startswith "Error: " (_handle_error e) = true.
Proof. destruct e; first [apply startswith_append | reflexivity]. Qed.

(** A tool is its body under [try]. *)
Lemma run_is_guarded utcoffset tok network (c : tool_call) :
  run utcoffset tok network c = try_except (body utcoffset tok network c) _handle_error.
Proof. destruct c; reflexivity. Qed.

(** One step through a body: the client, the request, a formatter. *)
Ltac body_step :=
  match goal with
  | |- context [get_client ?t] => destruct (get_client t) as [?client|?e]
  | |- context [_request ?n ?c ?m ?ep ?p ?j ?lg] =>
      destruct (_request n c m ep p j lg) as [[?v|?e] ?l]
  | |- context [match ?r with Ok _ => _ | Raise _ => _ end] => destruct r as [?s|?e]
  | |- context [match ?f with MARKDOWN => _ | JSON => _ end] => destruct f
  | |- context [if ?b then _ else _] => destruct b
  end; cbv beta iota delta [bind_io lift ret].

Ltac unfold_body :=
  cbn [body];
  unfold feedly_get_profile_body, feedly_get_subscriptions_body,
    feedly_get_categories_body, feedly_get_tags_body, feedly_get_unread_counts_body,
    feedly_get_stream_contents_body, feedly_get_entry_body, feedly_get_entries_body,
    feedly_mark_as_read_body, feedly_mark_feed_as_read_body,
    feedly_mark_category_as_read_body, feedly_keep_unread_body;
  unfold get_profile, get_subscriptions, get_categories, get_tags, get_unread_counts,
    get_stream_contents, get_entry, get_entries, Client.mark_as_read,
    Client.mark_feed_as_read, Client.mark_category_as_read, Client.keep_unread;
  cbv beta iota delta [bind_io lift ret].

(** The body of a rendering tool: one request, then the formatted content
    under the cap. *)
Lemma body_formats utcoffset tok network (c : tool_call) (log : list request)
      (cl : FeedlyClient) :
  renders_content c = true -> get_client tok = Ok cl ->
  exists m ep p j,
    body utcoffset tok network c log
    = match _request network cl m ep p j log with
      | (Raise e, l) => (Raise e, l)
      | (Ok data, l) =>
          match formatted utcoffset c data with
          | None => (Ok "Error: Article not found.", l)
          | Some (Ok content) => (Ok (_truncate_response content), l)
          | Some (Raise e) => (Raise e, l)
          end
      end.
Proof.
  intros Hc Hcl. destruct c; try discriminate Hc; clear Hc; unfold_body; rewrite Hcl;
    cbv beta iota delta [bind_io lift ret formatted bind];
    match goal with
    | |- context [_request ?n ?cc ?m ?ep ?p ?j ?lg] =>
        exists m, ep, p, j; destruct (_request n cc m ep p j lg) as [[v|e] l]
    end; try reflexivity.
  all: repeat match goal with
         | |- context [match ?f with MARKDOWN => _ | JSON => _ end] => destruct f
         | |- context [negb (truthy ?v)] => destruct (truthy v); cbn [negb]
         | |- context [match ?r with Ok _ => _ | Raise _ => _ end] => destruct r
         end; try reflexivity.
Qed.

(** *** The transport *)

Lemma get_client_usable (tok : option string) :
  usable tok -> exists cl, get_client tok = Ok cl.
Proof.
  intros (t & -> & Ht). unfold get_client.
  destruct (String.eqb_spec t EmptyString); [contradiction | eauto].
Qed.

Lemma request_status_error network cl m ep p j log (code : Z) :
  answered network (fun r => status_code r = code) ->
  fst (_request network cl m ep p j log) =
    if code =? 401 then Raise (FeedlyError "Authentication failed. Check FEEDLY_ACCESS_TOKEN." (Some 401))
    else if code =? 403 then Raise (FeedlyError "Access forbidden. Check your Feedly plan." (Some 403))
    else if code =? 404 then Raise (FeedlyError "Resource not found. Check the ID." (Some 404))
    else if code =? 429 then Raise (FeedlyError "Rate limit exceeded. Wait before retrying." (Some 429))
    else fst (_request network cl m ep p j log).
Proof.
  intros H. unfold _request.
  match goal with |- context [network ?req] => destruct (H req) as (r & -> & <-) end.
  repeat match goal with
         | |- context [status_code r =? ?k] => destruct (status_code r =? k); [reflexivity|]
         end.
  reflexivity.
Qed.

Lemma request_carries network cl m ep p j log (v : value) :
  answered network (carries v) ->
  exists req, _request network cl m ep p j log = (Ok v, (log ++ [req])%list).
Proof.
  intros H. unfold _request.
  match goal with |- context [network ?req] => destruct (H req) as (r & -> & Hs & H204 & Hj); exists req end.
  unfold raise_for_status.
  repeat match goal with
         | |- context [status_code r =? ?k] =>
             destruct (Z.eqb_spec (status_code r) k); [lia|]
         end.
  destruct (200 <=? status_code r) eqn:E1; [|apply Z.leb_gt in E1; lia].
  destruct (status_code r <=? 299) eqn:E2; [|apply Z.leb_gt in E2; lia].
  cbn [andb]. now rewrite Hj.
Qed.

(** What a request returns, it was delivered by a response. *)
Lemma request_delivers network cl m ep p j log (v : value) (l : list request) :
  _request network cl m ep p j log = (Ok v, l) ->
  exists req r, network req = Responds r /\ delivers v r.
Proof.
  unfold _request, raise_for_status. intros Hr.
  match type of Hr with
  | context [network ?q] => destruct (network q) as [r|e] eqn:E; [exists q, r|discriminate]
  end.
  split; [exact E|].
  destruct (status_code r =? 401); [discriminate|].
  destruct (status_code r =? 403); [discriminate|].
  destruct (status_code r =? 404); [discriminate|].
  destruct (status_code r =? 429); [discriminate|].
  destruct ((200 <=? status_code r) && (status_code r <=? 299)) eqn:E2; [|discriminate].
  apply andb_prop in E2 as [H1 H2]. apply Z.leb_le in H1, H2.
  split; [lia|].
  destruct (Z.eqb_spec (status_code r) 204) as [H204|H204].
  - injection Hr as <- _. left. split; [assumption | reflexivity].
  - destruct (json_body r) as [w|] eqn:Ej; [|discriminate].
    injection Hr as <- _. right. split; [assumption | reflexivity].
Qed.

(** When a request raises, the body of every tool raises the same. *)
Lemma body_transport_raise utcoffset tok network (c : tool_call) (log : list request)
      (cl : FeedlyClient) (e : exception) :
  get_client tok = Ok cl ->
  (forall m ep p j lg, fst (_request network cl m ep p j lg) = Raise e) ->
  fst (body utcoffset tok network c log) = Raise e.
Proof.
  intros Hcl H. destruct c; unfold_body; rewrite Hcl; cbv beta iota delta [bind_io lift ret];
    match goal with
    | |- context [_request ?n ?c ?m ?ep ?p ?j ?lg] =>
        specialize (H m ep p j lg); destruct (_request n c m ep p j lg) as [[v|e'] l]
    end; cbn [fst] in *; congruence.
Qed.

Lemma run_of_raising_body utcoffset tok network (c : tool_call) (log : list request)
      (e : exception) :
  fst (body utcoffset tok network c log) = Raise e ->
  returned (run utcoffset tok network c log) (_handle_error e).
Proof.
  intros H. unfold returned. rewrite run_is_guarded.
  pose proof (try_except_returns (body utcoffset tok network c) _handle_error log) as T.
  destruct (body utcoffset tok network c log) as [[s|e'] l]; cbn [fst] in H; [discriminate|].
  rewrite T. cbn [fst]. congruence.
Qed.

(** The sample token is usable, and a sample upstream answers as it is
    built. *)
Lemma usable_token : usable token.
Proof. exists "token". split; [reflexivity | discriminate]. Defined.

Lemma answers_answered (status : Z) (text : string) (decoded : option value)
      (P : response -> Prop) :
  P {| status_code := status; text := text; json_body := decoded |} ->
  answered (answers status text decoded) P.
Proof. intros H req. eexists. split; [reflexivity | exact H]. Defined.

(** *** C1: the response cap *)

(** C1, as amended.  A tool that renders upstream content (profile,
    subscriptions, categories, tags, unread counts, stream contents, one
    entry, several entries) returns one of three things: the error string of
    an exception raised under its [try]; the sentence
    ["Error: Article not found."]; or [_truncate_response] of the content it
    formatted from the payload that a response delivered.  The last is at
    most 25,000 characters long, and when the content is longer than 25,000
    characters it is the first 24,950 characters of the content followed by
    the truncation notice, 24,950 plus the length of the notice in all.
    Which of the three it is, on a payload the upstream delivers: the capped
    content when formatting the payload gives one, the error string of the
    exception when formatting raises, the not-found sentence when the
    single-entry tool is given an empty payload.  (Error strings, the
    not-found sentence and the confirmations of the four writing tools are
    returned as they are.) *)
Theorem C1_rendered_content_is_capped utcoffset tok network (c : tool_call)
        (log : list request) :
  renders_content c = true ->
  ((exists e, fst (body utcoffset tok network c log) = Raise e
              /\ returned (run utcoffset tok network c log) (_handle_error e))
   \/ returned (run utcoffset tok network c log) "Error: Article not found."
   \/ (exists payload content,
         (exists req r, network req = Responds r /\ delivers payload r)
         /\ formatted utcoffset c payload = Some (Ok content)
         /\ returned (run utcoffset tok network c log) (_truncate_response content)
         /\ PyStr.len (_truncate_response content) <= 25000
         /\ (25000 < PyStr.len content ->
             _truncate_response content = slice_to (25000 - 50) content ++ truncation_notice
             /\ PyStr.len (_truncate_response content)
                = 24950 + PyStr.len truncation_notice)))
  /\ (forall payload : value,
        usable tok ->
        answered network (carries payload) ->
        (forall content,
            formatted utcoffset c payload = Some (Ok content) ->
            returned (run utcoffset tok network c log) (_truncate_response content)
            /\ PyStr.len (_truncate_response content) <= 25000
            /\ (25000 < PyStr.len content ->
                _truncate_response content
                = slice_to (25000 - 50) content ++ truncation_notice
                /\ PyStr.len (_truncate_response content)
                   = 24950 + PyStr.len truncation_notice))
        /\ (forall e,
               formatted utcoffset c payload = Some (Raise e) ->
               returned (run utcoffset tok network c log) (_handle_error e))
        /\ (formatted utcoffset c payload = None ->
            returned (run utcoffset tok network c log) "Error: Article not found.")).
Proof.
  intros Hc.
  pose proof (try_except_returns (body utcoffset tok network c) _handle_error log) as T.
  unfold returned. rewrite run_is_guarded.
  assert (Hcap : forall content,
             PyStr.len (_truncate_response content) <= 25000
             /\ (25000 < PyStr.len content ->
                 _truncate_response content
                 = slice_to (25000 - 50) content ++ truncation_notice
                 /\ PyStr.len (_truncate_response content)
                    = 24950 + PyStr.len truncation_notice)).
  { intros content. split; [apply truncate_response_bound|].
    intros Hlong. apply (truncate_response_long content Hlong). }
  split.
  - destruct (get_client tok) as [cl|e0] eqn:Hcl.
    + destruct (body_formats utcoffset tok network c log cl Hc Hcl) as (m & ep & p & j & B).
      rewrite B in T. rewrite B. clear B.
      destruct (_request network cl m ep p j log) as [[data|e] l] eqn:R.
      * destruct (formatted utcoffset c data) as [[content|e]|] eqn:F; rewrite T; cbn [fst].
        -- right; right. exists data, content.
           split; [apply (request_delivers _ _ _ _ _ _ _ _ _ R)|].
           split; [exact F|]. split; [reflexivity|]. apply Hcap.
        -- left. exists e. split; reflexivity.
        -- right; left. reflexivity.
      * rewrite T. cbn [fst]. left. exists e. split; reflexivity.
    + left. exists e0.
      assert (B : fst (body utcoffset tok network c log) = Raise e0).
      { destruct c; unfold_body; rewrite Hcl; reflexivity. }
      destruct (body utcoffset tok network c log) as [[s|e] l]; cbn [fst] in B;
        [discriminate|]. injection B as ->. rewrite T. split; reflexivity.
  - intros payload Htok Hnet.
    destruct (get_client_usable tok Htok) as [cl Hcl].
    destruct (body_formats utcoffset tok network c log cl Hc Hcl) as (m & ep & p & j & B).
    rewrite B in T. clear B.
    destruct (request_carries network cl m ep p j log payload Hnet) as [req R].
    rewrite R in T.
    destruct (formatted utcoffset c payload) as [[content|e]|]; rewrite T; cbn [fst].
    + split; [|split; [intros e E; discriminate E | intros E; discriminate E]].
      intros content' E. injection E as <-. split; [reflexivity | apply Hcap].
    + split; [intros content' E; discriminate E|].
      split; [|intros E; discriminate E]. intros e' E. injection E as <-. reflexivity.
    + split; [intros content' E; discriminate E|].
      split; [intros e E; discriminate E | reflexivity].
Qed.

Lemma C1_rendered_content_is_capped_witness :
  25000 < PyStr.len (dumps (VStr long_text))
  /\ returned (run utc token (ok_json (VStr long_text)) (GetProfile as_json) [])
              (_truncate_response (dumps (VStr long_text)))
  /\ _truncate_response (dumps (VStr long_text))
     = slice_to (25000 - 50) (dumps (VStr long_text)) ++ truncation_notice
  /\ PyStr.len (_truncate_response (dumps (VStr long_text)))
     = 24950 + PyStr.len truncation_notice.
Proof.
  assert (Hlong : 25000 < PyStr.len (dumps (VStr long_text))) by (vm_compute; reflexivity).
  assert (Hnet : answered (ok_json (VStr long_text)) (carries (VStr long_text))).
  { apply answers_answered. repeat split; try discriminate; vm_compute; discriminate. }
  destruct (proj1 (proj2 (C1_rendered_content_is_capped utc token (ok_json (VStr long_text))
                            (GetProfile as_json) [] eq_refl)
                     (VStr long_text) usable_token Hnet)
              (dumps (VStr long_text)) eq_refl) as (Hret & _ & Hcut).
  split; [exact Hlong|]. split; [exact Hret|]. exact (Hcut Hlong).
Defined.

(** C1, as stated, fails: with a valid input whose feed identifier is 25,000
    characters long, marking the feed as read returns a confirmation of
    25,034 characters; and an upstream failure with a body of 25,000
    characters is reported by an error string of 25,017 characters. *)
Lemma C1_counterexample_uncapped_outputs :
  valid_call (MarkFeedAsRead {| mfr_feed_id := long_text; mfr_as_of := None |}) = true
  /\ returned (run utc token no_content
                   (MarkFeedAsRead {| mfr_feed_id := long_text; mfr_as_of := None |}) [])
              ("Successfully marked feed as read: " ++ long_text)
  /\ CHARACTER_LIMIT < PyStr.len ("Successfully marked feed as read: " ++ long_text)
  /\ returned (run utc token (answers 500 long_text None) (GetProfile markdown) [])
              ("Error: HTTP 500: " ++ long_text)
  /\ CHARACTER_LIMIT < PyStr.len ("Error: HTTP 500: " ++ long_text).
Proof. repeat split; vm_compute; reflexivity. Qed.

(** *** C4: exceptions and the tool boundary *)

(** C4, as amended.  Called with a built input model, a tool never raises:
    it returns what the statements under its [try] return, and when they
    raise an exception (from building the client, from the transport, from
    formatting) it returns [_handle_error] of that exception, a string that
    begins with ["Error: "].  (Building the input model from the raw
    arguments is not among these statements.) *)
Theorem C4_exceptions_under_try_become_error_strings utcoffset tok network
        (c : tool_call) (log : list request) :
  (exists s l, run utcoffset tok network c log = (Ok s, l))
  /\ match body utcoffset tok network c log with
     | (Ok s, l) => run utcoffset tok network c log = (Ok s, l)
     | (Raise e, l) =>
         run utcoffset tok network c log = (Ok (_handle_error e), l)
         /\ startswith "Error: " (_handle_error e) = true
     end.
Proof.
  rewrite run_is_guarded.
  pose proof (try_except_returns (body utcoffset tok network c) _handle_error log) as T.
  destruct (body utcoffset tok network c log) as [[s|e] l]; rewrite T.
  - split; [eauto | reflexivity].
  - split; [eauto | split; [reflexivity | apply handle_error_prefix]].
Qed.

(** The three places an exception comes from, each reported as a string. *)
Example missing_token_is_reported :
  run utc None no_content (GetTags markdown) []
  = (Ok "Error: FEEDLY_ACCESS_TOKEN environment variable not set", []).
Proof. reflexivity. Qed.

Example timeout_is_reported :
  returned (run utc token (fun _ => Fails TimeoutException) (GetTags markdown) [])
           "Error: Request timed out. Try again.".
Proof. reflexivity. Qed.

Example formatting_failure_is_reported :
  returned (run utc token (ok_json (VList [VInt 7])) (GetTags markdown) [])
           "Error: AttributeError: 'int' object has no attribute 'get'".
Proof. reflexivity. Qed.

(** C4, as stated, fails for validation: an empty list of entry identifiers
    is refused when the input model is built, before the tool and its [try]
    are entered; the invocation ends in that refusal, not in a returned
    ["Error: ..."] string. *)
Lemma C4_counterexample_validation_is_not_converted :
  call_mark_as_read token no_content (VDict [("entry_ids", VList [])]) []
  = (Rejected {| loc := ["entry_ids"]; type_ := too_short |}, []).
Proof. reflexivity. Qed.

(** *** C8: authentication and rate-limit failures *)

Lemma run_status_error utcoffset tok network (c : tool_call) (log : list request)
      (code : Z) (msg : string) :
  usable tok ->
  answered network (fun r => status_code r = code) ->
  (forall cl m ep p j lg,
      fst (_request network cl m ep p j lg) = Raise (FeedlyError msg (Some code))) ->
  returned (run utcoffset tok network c log) ("Error: " ++ msg).
Proof.
  intros Htok Hnet Hreq. destruct (get_client_usable tok Htok) as [cl Hcl].
  apply (run_of_raising_body utcoffset tok network c log (FeedlyError msg (Some code))).
  apply (body_transport_raise utcoffset tok network c log cl); [assumption|].
  intros. apply Hreq.
Qed.

(** C8.  With a token in the environment, whenever the upstream answers with
    status 401 the tool returns exactly
    ["Error: Authentication failed. Check FEEDLY_ACCESS_TOKEN."], and
    whenever it answers with status 429 the tool returns exactly
    ["Error: Rate limit exceeded. Wait before retrying."]; this for every
    tool and input. *)
Theorem C8_auth_and_rate_limit_strings utcoffset tok network (c : tool_call)
        (log : list request) :
  usable tok ->
  (answered network (fun r => status_code r = 401) ->
   returned (run utcoffset tok network c log)
            "Error: Authentication failed. Check FEEDLY_ACCESS_TOKEN.")
  /\ (answered network (fun r => status_code r = 429) ->
      returned (run utcoffset tok network c log)
               "Error: Rate limit exceeded. Wait before retrying.").
Proof.
  intros Htok. split; intros Hnet.
  - apply (run_status_error utcoffset tok network c log 401
             "Authentication failed. Check FEEDLY_ACCESS_TOKEN." Htok Hnet).
    intros. now rewrite (request_status_error network cl m ep p j lg 401 Hnet).
  - apply (run_status_error utcoffset tok network c log 429
             "Rate limit exceeded. Wait before retrying." Htok Hnet).
    intros. now rewrite (request_status_error network cl m ep p j lg 429 Hnet).
Qed.

Lemma C8_auth_and_rate_limit_strings_witness :
  returned (run utc token (answers 401 EmptyString None) (GetProfile markdown) [])
           "Error: Authentication failed. Check FEEDLY_ACCESS_TOKEN."
  /\ returned (run utc token (answers 429 EmptyString None)
                   (MarkAsRead {| mar_entry_ids := ["a"] |}) [])
              "Error: Rate limit exceeded. Wait before retrying.".
Proof.
  split.
  - apply (C8_auth_and_rate_limit_strings utc token (answers 401 EmptyString None)
             (GetProfile markdown) [] usable_token).
    apply answers_answered. reflexivity.
  - apply (C8_auth_and_rate_limit_strings utc token (answers 429 EmptyString None)
             (MarkAsRead {| mar_entry_ids := ["a"] |}) [] usable_token).
    apply answers_answered. reflexivity.
Defined.

(** *** C10: the single-entry tool *)

(** C10.  For the single-entry tool with a token in the environment: when
    the upstream call succeeds and returns the empty list, the statements
    under [try] return ["Error: Article not found."] themselves, no
    exception raised and no 404 involved, after the one request; when it
    returns a non-empty list, the tool formats the first element, as JSON or
    as a markdown block with its content. *)
Theorem C10_entry_not_found_and_first_element utcoffset tok network
        (p : GetEntryInput) (log : list request) :
  usable tok ->
  (answered network (carries (VList [])) ->
   (exists req, feedly_get_entry_body utcoffset tok network p log
                = (Ok "Error: Article not found.", (log ++ [req])%list))
   /\ returned (feedly_get_entry utcoffset tok network p log) "Error: Article not found.")
  /\ (forall first rest,
        answered network (carries (VList (first :: rest))) ->
        returned (feedly_get_entry utcoffset tok network p log)
                 (match ge_response_format p with
                  | JSON => _truncate_response (dumps first)
                  | MARKDOWN =>
                      match _format_entry_markdown utcoffset first true with
                      | Ok s => _truncate_response s
                      | Raise e => _handle_error e
                      end
                  end)).
Proof.
  intros Htok. destruct (get_client_usable tok Htok) as [cl Hcl].
  split; [intros Hnet | intros first rest Hnet];
    unfold returned, feedly_get_entry, try_except, feedly_get_entry_body, get_entry;
    rewrite Hcl; cbv beta iota delta [bind_io lift ret];
    match goal with
    | |- context [_request ?n ?c ?m ?ep ?pp ?j ?lg] =>
        destruct (request_carries n c m ep pp j lg _ Hnet) as [req ->]
    end; cbn [truthy negb getitem0 fst].
  - split; [exists req|]; reflexivity.
  - destruct (ge_response_format p); [|reflexivity].
    destruct (_format_entry_markdown utcoffset first true); reflexivity.
Qed.

Lemma C10_entry_not_found_and_first_element_witness :
  returned (feedly_get_entry utc token (ok_json (VList []))
              {| ge_entry_id := "e1"; ge_response_format := MARKDOWN |} [])
           "Error: Article not found."
  /\ returned (feedly_get_entry utc token (ok_json (VList [sample_entry; VNone]))
                 {| ge_entry_id := "e1"; ge_response_format := JSON |} [])
              (_truncate_response (dumps sample_entry)).
Proof.
  split.
  - apply (C10_entry_not_found_and_first_element utc token (ok_json (VList []))
             {| ge_entry_id := "e1"; ge_response_format := MARKDOWN |} [] usable_token).
    apply answers_answered. repeat split; try discriminate; vm_compute; discriminate.
  - apply (proj2 (C10_entry_not_found_and_first_element utc token
                    (ok_json (VList [sample_entry; VNone]))
                    {| ge_entry_id := "e1"; ge_response_format := JSON |} [] usable_token)
                 sample_entry [VNone]).
    apply answers_answered. repeat split; try discriminate; vm_compute; discriminate.
Defined.

(** *** C9: bounds on lists of entry identifiers *)

Lemma required_ids_out_of_bounds (kvs : list (string * value)) (l : list value) :
  lookup "entry_ids" kvs = Some (VList l) ->
  (List.length l = 0 \/ 1001 <= List.length l)%nat ->
  exists e, required_ids "entry_ids" kvs = Invalid e.
Proof.
  intros Hl Hlen. unfold required_ids. rewrite Hl.
  destruct (Z.of_nat (List.length l) <? 1) eqn:E1; [unfold fail; eauto|].
  destruct (1000 <? Z.of_nat (List.length l)) eqn:E2; [unfold fail; eauto|].
  apply Z.ltb_ge in E1, E2. lia.
Qed.

Lemma all_str_strs (field : string) (i : Z) (ids : list string) :
  all_str field i (map VStr ids) = Valid ids.
Proof.
  revert i. induction ids as [|s ids IH]; intros i; cbn [map all_str]; [reflexivity|].
  rewrite IH. reflexivity.
Qed.

Lemma required_ids_in_bounds (ids : list string) (more : list (string * value)) :
  (1 <= List.length ids <= 1000)%nat ->
  required_ids "entry_ids" (("entry_ids", strs ids) :: more) = Valid ids.
Proof.
  intros Hlen. unfold required_ids, strs. cbn [lookup String.eqb Ascii.eqb Bool.eqb].
  rewrite length_map.
  destruct (Z.of_nat (List.length ids) <? 1) eqn:E1; [apply Z.ltb_lt in E1; lia|].
  destruct (1000 <? Z.of_nat (List.length ids)) eqn:E2; [apply Z.ltb_lt in E2; lia|].
  apply all_str_strs.
Qed.

(** C9.  For the three tools that take a list of entry identifiers
    (mark-as-read, keep-unread, multi-entry fetch): raw arguments whose
    [entry_ids] list is empty, or has 1001 or more elements, are refused by
    validation, and the log of requests is as it was, no request sent; a
    list of 1 to 1000 identifiers builds the input model. *)
Theorem C9_entry_id_lists_are_bounded utcoffset tok network :
  (forall (kvs : list (string * value)) (l : list value) (log : list request),
      lookup "entry_ids" kvs = Some (VList l) ->
      (List.length l = 0 \/ 1001 <= List.length l)%nat ->
      (exists e, call_mark_as_read tok network (VDict kvs) log = (Rejected e, log))
      /\ (exists e, call_keep_unread tok network (VDict kvs) log = (Rejected e, log))
      /\ (exists e, call_get_entries utcoffset tok network (VDict kvs) log
                    = (Rejected e, log)))
  /\ (forall ids : list string,
        (1 <= List.length ids <= 1000)%nat ->
        validate_MarkAsReadInput (VDict [("entry_ids", strs ids)])
        = Valid {| mar_entry_ids := ids |}
        /\ validate_KeepUnreadInput (VDict [("entry_ids", strs ids)])
           = Valid {| ku_entry_ids := ids |}
        /\ validate_GetEntriesInput (VDict [("entry_ids", strs ids)])
           = Valid {| ges_entry_ids := ids; ges_response_format := MARKDOWN |}).
Proof.
  split.
  - intros kvs l log Hl Hlen.
    destruct (required_ids_out_of_bounds kvs l Hl Hlen) as [e He].
    unfold call_mark_as_read, call_keep_unread, call_get_entries, invoke,
      validate_MarkAsReadInput, validate_KeepUnreadInput, validate_GetEntriesInput, model.
    rewrite He. cbn [vbind]. repeat split; exists e; reflexivity.
  - intros ids Hlen.
    unfold validate_MarkAsReadInput, validate_KeepUnreadInput, validate_GetEntriesInput, model.
    rewrite (required_ids_in_bounds ids [] Hlen). repeat split.
Qed.

Lemma C9_entry_id_lists_are_bounded_witness :
  (exists e, call_mark_as_read token no_content (VDict [("entry_ids", VList [])]) []
             = (Rejected e, []))
  /\ validate_KeepUnreadInput (VDict [("entry_ids", strs ["a"; "b"])])
     = Valid {| ku_entry_ids := ["a"; "b"] |}.
Proof.
  split.
  - apply (proj1 (C9_entry_id_lists_are_bounded utc token no_content)
                 [("entry_ids", VList [])] [] []); [reflexivity | left; reflexivity].
  - apply (proj2 (C9_entry_id_lists_are_bounded utc token no_content) ["a"; "b"]).
    cbn [List.length]. lia.
Defined.

(** A list of 1001 identifiers is refused without a request. *)
Example batch_of_1001_refused :
  call_keep_unread token no_content
    (VDict [("entry_ids", strs (List.repeat "id" (Z.to_nat 1001)))]) []
  = (Rejected {| loc := ["entry_ids"]; type_ := too_long |}, []).
Proof. vm_compute. reflexivity. Qed.

(** *** C5: timestamps *)

(** C5: the code at a failing input.  An integer count of milliseconds too
    large for the platform counter of seconds makes
    [datetime.fromtimestamp] raise [OverflowError], which
    [except (ValueError, OSError)] does not catch: [_format_timestamp]
    raises, whatever the zone of the host. *)
Theorem C5_format_timestamp_raises_on_overflow (utcoffset : Z -> Z) :
  _format_timestamp utcoffset (VInt (10 ^ 22))
  = Raise (PyExc "OverflowError" "timestamp out of range for platform time_t").
Proof. reflexivity. Qed.

(** On integers the formatter raises exactly when the count of seconds does
    not fit the platform counter. *)
Lemma format_timestamp_int (utcoffset : Z -> Z) (n : Z) :
  (Z.abs n <= time_t_limit_ms ->
   exists s, _format_timestamp utcoffset (VInt n) = Ok s)
  /\ (time_t_limit_ms < Z.abs n ->
      exists msg, _format_timestamp utcoffset (VInt n) = Raise (PyExc "OverflowError" msg)).
Proof.
  unfold _format_timestamp, milliseconds, fromtimestamp. cbn [as_int].
  assert (Hlim : time_t_limit_ms < float_limit_ms) by reflexivity.
  split.
  - intros Hin.
    destruct (float_limit_ms <=? Z.abs n) eqn:E1; [apply Z.leb_le in E1; lia|].
    cbn [bind].
    destruct (time_t_limit_ms <? Z.abs n) eqn:E2; [apply Z.ltb_lt in E2; lia|].
    destruct (civil_from_days ((n / 1000 + utcoffset (n / 1000)) / 86400)) as [[y m] d].
    destruct (civil_from_days _) as [[py pm] pd].
    destruct ((y <? 1) || (9999 <? y)); [eexists; reflexivity|].
    destruct (py <? 1); eexists; reflexivity.
  - intros Hout.
    destruct (float_limit_ms <=? Z.abs n); [eexists; reflexivity|].
    cbn [bind].
    destruct (time_t_limit_ms <? Z.abs n) eqn:E2; [eexists; reflexivity|].
    apply Z.ltb_ge in E2. lia.
Qed.

(** What the claim says that the code does: nothing renders as "Unknown",
    so does a year beyond 9999, and the instant 1704067200000 renders on a
    UTC host as the claim has it, an hour later on a host an hour ahead. *)
Example format_timestamp_none (utcoffset : Z -> Z) :
  _format_timestamp utcoffset VNone = Ok "Unknown".
Proof. reflexivity. Qed.

Example format_timestamp_year_out_of_range :
  _format_timestamp utc (VInt 253402300800000) = Ok "Unknown".
Proof. reflexivity. Qed.

Example format_timestamp_2024 :
  _format_timestamp utc (VInt 1704067200000) = Ok "2024-01-01 00:00"
  /\ _format_timestamp utc_plus_1 (VInt 1704067200000) = Ok "2024-01-01 01:00".
Proof. split; reflexivity. Qed.

(** A value that is no number raises as well. *)
Example format_timestamp_of_text (utcoffset : Z -> Z) :
  _format_timestamp utcoffset (VStr "2024-01-01")
  = Raise (PyExc "TypeError" "unsupported operand type(s) for /: 'str' and 'int'").
Proof. reflexivity. Qed.

(** At tool level: the feed is marked as read upstream, and the tool
    reports an error. *)
Example mark_feed_with_large_cutoff :
  returned (run utc token no_content
              (MarkFeedAsRead {| mfr_feed_id := "feed/x"; mfr_as_of := Some (10 ^ 22) |}) [])
           "Error: OverflowError: timestamp out of range for platform time_t".
Proof. reflexivity. Qed.

(** *** C3: the content of an entry *)




(** *** C6: truncation of the summary *)

Lemma substring0_drop (n : nat) (s : string) : substring 0 n s ++ drop n s = s.
Proof.
  revert s. induction n as [|n IH]; intros [|c s]; cbn [substring drop String.append];
    try reflexivity.
  now rewrite IH.
Qed.

Lemma join_snoc (sep : string) (lines : list string) (line : string) :
  lines <> [] -> join sep (append lines line) = join sep lines ++ sep ++ line.
Proof.
  unfold join, Server.append. induction lines as [|a [|b rest] IH]; intros Hne.
  - contradiction.
  - reflexivity.
  - change (a ++ sep ++ String.concat sep ((b :: rest) ++ [line])
            = (a ++ sep ++ String.concat sep (b :: rest)) ++ sep ++ line).
    rewrite IH by discriminate. now rewrite !append_assoc.
Qed.

(** The text a summary line shows. *)
Lemma truncate_text_str (text : string) :
  _truncate_text (VStr text) 300
  = Ok (VStr (if PyStr.len text <=? 300 then text else slice_to 297 text ++ "...")).
Proof.
  unfold _truncate_text, Py.len, cut. cbn [bind].
  destruct (PyStr.len text <=? 300); reflexivity.
Qed.

Lemma truthy_str (c : string) : c <> EmptyString -> truthy (VStr c) = true.
Proof. intros H. cbn [truthy]. destruct (String.eqb_spec c EmptyString); [contradiction | reflexivity]. Qed.

Lemma truncated_nonempty (c : string) :
  c <> EmptyString -> (if PyStr.len c <=? 300 then c else slice_to 297 c ++ "...") <> EmptyString.
Proof.
  intros H. destruct (PyStr.len c <=? 300); [assumption|].
  intros E. apply (f_equal PyStr.len) in E. rewrite len_append in E.
  pose proof (len_nonneg (slice_to 297 c)). cbn in E. unfold PyStr.len in *. lia.
Qed.

Ltac nonempty_lines :=
  match goal with
  | |- (if ?b then _ else _) <> [] => destruct b; unfold Server.append; discriminate
  end.

(** C6.  A body text longer than 300 characters is cut, for the summary, to
    its first 297 characters followed by ["..."], 300 characters in all; a
    text of 300 characters or fewer is left as it is.  And for an entry with
    a non-empty content [c] whose block renders: the short form ends with
    the summary line holding the truncated text, while the form with
    content, over the same head, ends with [c] itself, untruncated. *)
Theorem C6_summary_is_truncated_content_is_not utcoffset (entry : value) (c : string)
        (short : string) :
  (forall text : string,
      _truncate_text (VStr text) 300
      = Ok (VStr (if PyStr.len text <=? 300 then text else slice_to 297 text ++ "..."))
      /\ (300 < PyStr.len text ->
          PyStr.len (slice_to 297 text) = 297
          /\ (exists rest, text = slice_to 297 text ++ rest)
          /\ PyStr.len (slice_to 297 text ++ "...") = 300))
  /\ (_get_article_content entry = Ok (VStr c) ->
      c <> EmptyString ->
      _format_entry_markdown utcoffset entry false = Ok short ->
      exists head,
        short = head ++ nl ++ nl ++ "**Summary:** "
                     ++ (if PyStr.len c <=? 300 then c else slice_to 297 c ++ "...")
        /\ _format_entry_markdown utcoffset entry true
           = Ok (head ++ nl ++ nl ++ "**Content:**" ++ nl ++ c)).
Proof.
  split.
  - intros text. split; [apply truncate_text_str|].
    intros Hlong. split; [|split].
    + rewrite len_slice_to by lia. lia.
    + exists (drop (Z.to_nat 297) text). unfold slice_to. cbn [Z.ltb Z.compare].
      symmetry. apply substring0_drop.
    + rewrite len_append, len_slice_to by lia. change (PyStr.len "...") with 3. lia.
  - intros Hc Hne Hshort. unfold _format_entry_markdown in *. rewrite Hc in *.
    repeat match goal with
           | H : context [bind (Ok ?x) _] |- _ => cbn [bind] in H |- *
           | H : context [_truncate_text (VStr ?x) 300] |- _ =>
               rewrite (truncate_text_str x) in H |- *
           | H : context [bind ?r _] |- _ =>
               destruct r; cbn [bind] in H |- *; try discriminate H
           end.
    rewrite (truthy_str c Hne), (truthy_str _ (truncated_nonempty c Hne)) in *.
    cbn [andb str] in *.
    match type of Hshort with
    | Ok (join nl (Server.append ?lines _)) = _ => exists (join nl lines)
    end.
    injection Hshort as <-.
    split.
    + rewrite join_snoc; [now rewrite ?append_assoc | nonempty_lines].
    + rewrite join_snoc; [now rewrite ?append_assoc | nonempty_lines].
Qed.

Lemma C6_summary_is_truncated_content_is_not_witness :
  exists head,
    match _format_entry_markdown utc wordy_entry false with Ok s => s | Raise _ => EmptyString end
    = head ++ nl ++ nl ++ "**Summary:** "
           ++ (if PyStr.len (replicate (Z.to_nat 400) "x") <=? 300
               then replicate (Z.to_nat 400) "x"
               else slice_to 297 (replicate (Z.to_nat 400) "x") ++ "...")
    /\ _format_entry_markdown utc wordy_entry true
       = Ok (head ++ nl ++ nl ++ "**Content:**" ++ nl ++ replicate (Z.to_nat 400) "x").
Proof.
  apply (proj2 (C6_summary_is_truncated_content_is_not utc wordy_entry
                  (replicate (Z.to_nat 400) "x")
                  match _format_entry_markdown utc wordy_entry false with
                  | Ok s => s
                  | Raise _ => EmptyString
                  end)).
  - reflexivity.
  - vm_compute. discriminate.
  - vm_compute. reflexivity.
Defined.

(** *** C7: the order of unread counts *)

Lemma lt_numbers (a b : value) (x y : Z) :
  as_int a = Some x -> as_int b = Some y -> lt a b = Ok (x <? y).
Proof.
  destruct a, b; cbn [as_int lt]; intros Ha Hb; try discriminate;
    injection Ha as <-; injection Hb as <-; reflexivity.
Qed.

Lemma insert_desc_spec (x : value * value) (l : list (value * value)) :
  keyed x -> Forall keyed l ->
  exists r,
    insert_desc x l = Ok r
    /\ Forall keyed r
    /\ Permutation (x :: l) r
    /\ (forall n, filter (key_has n) r = filter (key_has n) (x :: l))
    /\ (forall a, key_not_below a x -> HdRel key_not_below a l -> HdRel key_not_below a r)
    /\ (Sorted key_not_below l -> Sorted key_not_below r).
Proof.
  intros Hx Hl. induction l as [|y rest IH].
  - exists [x]. cbn [insert_desc]. repeat split; auto.
  - inversion Hl as [|? ? Hy Hrest]; subst.
    cbn [insert_desc]. rewrite (lt_numbers _ _ _ _ Hx Hy). cbn [bind].
    destruct (cnt (snd x) <? cnt (snd y)) eqn:E.
    + apply Z.ltb_lt in E.
      destruct (IH Hrest) as (r & -> & Hk & Hp & Hf & Hh & Hs). cbn [bind].
      exists (y :: r). split; [reflexivity|]. split; [constructor; assumption|].
      split; [rewrite perm_swap; now constructor|]. split; [|split].
      * intros n. cbn [filter]. rewrite Hf. cbn [filter].
        unfold key_has, has_count.
        destruct (Z.eqb_spec (cnt (snd y)) n), (Z.eqb_spec (cnt (snd x)) n);
          try reflexivity. lia.
      * intros a _ Ha. inversion Ha; subst. now constructor.
      * intros Hsorted. inversion Hsorted as [|? ? Hsr Hhd]; subst.
        constructor; [now apply Hs|].
        apply Hh; [unfold key_not_below, not_below; lia | assumption].
    + apply Z.ltb_ge in E.
      exists (x :: y :: rest). split; [reflexivity|]. split; [now constructor|].
      split; [reflexivity|]. split; [reflexivity|]. split.
      * intros a Hax _. now constructor.
      * intros Hsorted. constructor; [assumption|].
        constructor. unfold key_not_below, not_below. lia.
Qed.

Lemma sort_desc_spec (l : list (value * value)) :
  Forall keyed l ->
  exists r,
    sort_desc l = Ok r
    /\ Forall keyed r
    /\ Permutation l r
    /\ (forall n, filter (key_has n) r = filter (key_has n) l)
    /\ Sorted key_not_below r.
Proof.
  induction l as [|x rest IH]; intros Hl.
  - exists []. repeat split; auto.
  - inversion Hl as [|? ? Hx Hrest]; subst.
    destruct (IH Hrest) as (s & Hs & Hk & Hp & Hf & Hsorted).
    destruct (insert_desc_spec x s Hx Hk) as (r & Hr & Hk' & Hp' & Hf' & _ & Hs').
    exists r. cbn [sort_desc]. rewrite Hs. cbn [bind]. split; [assumption|].
    split; [assumption|]. split; [|split].
    + rewrite <- Hp'. now constructor.
    + intros n. rewrite Hf'. cbn [filter]. now rewrite Hf.
    + now apply Hs'.
Qed.

Lemma keys_of_records (items : list value) :
  forallb count_record items = true ->
  mapM (fun x => k <- count_key x ;; Ok (k, x)) items
  = Ok (map (fun x => (key_of x, x)) items)
  /\ Forall keyed (map (fun x => (key_of x, x)) items).
Proof.
  induction items as [|x rest IH]; intros H; [split; [reflexivity | constructor]|].
  cbn [forallb] in H. apply andb_prop in H as [Hx Hrest].
  destruct (IH Hrest) as [IH1 IH2]. cbn [mapM map]. rewrite IH1.
  unfold count_record, count_of in Hx. unfold count_key, get.
  destruct x as [| | | | |d]; try discriminate Hx. cbn [bind key_of].
  split; [reflexivity|]. constructor; [|assumption].
  unfold keyed, cnt, count_of. cbn [fst snd].
  destruct (lookup "count" d) as [c|]; [|reflexivity].
  destruct (as_int c); [reflexivity | discriminate Hx].
Qed.

Lemma filter_map_snd (n : Z) (l : list (value * value)) :
  filter (has_count n) (map snd l) = map snd (filter (key_has n) l).
Proof.
  induction l as [|p l IH]; [reflexivity|]. cbn [map filter]. unfold key_has at 1.
  destruct (has_count n (snd p)); cbn [map]; now rewrite IH.
Qed.

Lemma sorted_map_snd (l : list (value * value)) :
  Sorted key_not_below l -> Sorted not_below (map snd l).
Proof.
  induction 1 as [|p l Hs IH Hh]; cbn [map]; constructor; [assumption|].
  destruct Hh; cbn [map]; constructor. assumption.
Qed.

Lemma map_snd_keys (items : list value) :
  map snd (map (fun x => (key_of x, x)) items) = items.
Proof. induction items as [|x l IH]; cbn [map snd]; [reflexivity | now rewrite IH]. Qed.

(** [sorted(counts, key=count, reverse=True)] on count records: a
    rearrangement, by decreasing count, that keeps the records of any one
    count in their order. *)
Lemma sorted_reverse_spec (items : list value) :
  forallb count_record items = true ->
  exists sorted,
    sorted_reverse count_key (VList items) = Ok sorted
    /\ Permutation items sorted
    /\ Sorted not_below sorted
    /\ (forall n, filter (has_count n) sorted = filter (has_count n) items).
Proof.
  intros H. destruct (keys_of_records items H) as [Hm Hk].
  destruct (sort_desc_spec _ Hk) as (r & Hr & _ & Hp & Hf & Hs).
  exists (map snd r). unfold sorted_reverse. cbn [iter bind]. rewrite Hm. cbn [bind].
  rewrite Hr. cbn [bind]. split; [reflexivity|]. split; [|split].
  - rewrite <- (map_snd_keys items) at 1. now apply Permutation_map.
  - now apply sorted_map_snd.
  - intros n. rewrite filter_map_snd, Hf, <- filter_map_snd. now rewrite map_snd_keys.
Qed.

Lemma unread_block_keeps_id utcoffset (item : value) (lines : list string) :
  unread_block utcoffset item = Ok lines ->
  exists first id,
    get item "id" (VStr EmptyString) = Ok id /\ lines = [first; "  - ID: `" ++ str id ++ "`"].
Proof.
  unfold unread_block. intros H.
  repeat match type of H with
         | context [bind ?r _] => destruct r eqn:?; cbn [bind] in H; try discriminate H
         end.
  injection H as <-. eauto.
Qed.

Lemma classify_str (s : string) : exists name kind, classify (VStr s) = Ok (name, kind).
Proof.
  unfold classify. cbn [Py.contains bind str_method].
  destruct (PyStr.contains "/category/" s); [eauto|].
  destruct (PyStr.contains "/tag/" s); [eauto|].
  destruct (startswith "feed/" s); eauto.
Qed.

Lemma unread_block_listed utcoffset (item : value) :
  named_record item = true ->
  (exists updated, _format_timestamp utcoffset (updated_of item) = Ok updated) ->
  exists lines, unread_block utcoffset item = Ok lines /\ block_of utcoffset item lines.
Proof.
  intros Hn [ts Hts]. destruct item as [| | | | |d]; try discriminate Hn.
  cbn [named_record] in Hn. cbn [updated_of] in Hts.
  destruct (classify_str (id_of (VDict d))) as (name & kind & Hc).
  unfold unread_block, get. cbn [bind]. rewrite Hts. cbn [bind].
  unfold block_of. cbn [id_of updated_of key_of] in *.
  destruct (lookup "id" d) as [[| | |s| |]|]; try discriminate Hn;
    rewrite Hc; cbn [bind fst snd str];
    eexists; (split; [reflexivity|]); exists name, kind, ts; repeat split; assumption.
Qed.

Lemma mapM_Forall2 {A B} (f : A -> result B) (R : A -> B -> Prop) (l : list A) :
  Forall (fun a => exists b, f a = Ok b /\ R a b) l ->
  exists bs, mapM f l = Ok bs /\ Forall2 R l bs.
Proof.
  induction 1 as [|a l (b & Hb & Hr) _ (bs & Hbs & IH)].
  - exists []. split; [reflexivity | constructor].
  - exists (b :: bs). cbn [mapM]. rewrite Hb, Hbs. split; [reflexivity | now constructor].
Qed.

(** C7.  For a list of unread-count records (objects whose count, when
    there, is an integer), the markdown rendering lists one block per
    record, in the order [sorted]: a rearrangement of the input in which no
    record comes before one of a greater count, and in which the records of
    any one count keep their input order.  The second line of a block shows
    the identifier of the record as it came.  And the listing is produced:
    when the identifier of every record is a string (or is missing) and its
    update time can be formatted, the rendering is the heading followed by
    the two lines of every record, in that order, the first with the name
    and the kind of the stream, its count and its update time, the second
    with its identifier unchanged. *)
Theorem C7_unread_counts_in_stable_decreasing_order utcoffset
        (data : list (string * value)) (items : list value) :
  lookup "unreadcounts" data = Some (VList items) ->
  items <> [] ->
  forallb count_record items = true ->
  exists sorted,
    Permutation items sorted
    /\ StronglySorted not_below sorted
    /\ (forall n, filter (has_count n) sorted = filter (has_count n) items)
    /\ _format_unread_counts_markdown utcoffset (VDict data)
       = (blocks <- mapM (unread_block utcoffset) sorted ;;
          Ok (join nl (("## Unread Counts" ++ nl) :: List.concat blocks)))
    /\ (forall item lines,
          unread_block utcoffset item = Ok lines ->
          exists first id,
            get item "id" (VStr EmptyString) = Ok id
            /\ lines = [first; "  - ID: `" ++ str id ++ "`"])
    /\ (forallb named_record items = true ->
        Forall (fun item => exists updated,
                    _format_timestamp utcoffset (updated_of item) = Ok updated) items ->
        exists blocks,
          Forall2 (block_of utcoffset) sorted blocks
          /\ _format_unread_counts_markdown utcoffset (VDict data)
             = Ok (join nl (("## Unread Counts" ++ nl) :: List.concat blocks))).
Proof.
  intros Hdata Hne Hrec.
  destruct (sorted_reverse_spec items Hrec) as (sorted & Hs & Hp & Hso & Hf).
  assert (Hfmt : _format_unread_counts_markdown utcoffset (VDict data)
                 = (blocks <- mapM (unread_block utcoffset) sorted ;;
                    Ok (join nl (("## Unread Counts" ++ nl) :: List.concat blocks)))).
  { unfold _format_unread_counts_markdown, get. rewrite Hdata. cbn [bind].
    destruct items; [contradiction|]. cbn [truthy negb]. rewrite Hs. reflexivity. }
  exists sorted. repeat split; try assumption.
  - apply Sorted_StronglySorted; [|assumption].
    intros a b c Hab Hbc. unfold not_below in *. lia.
  - apply unread_block_keeps_id.
  - intros Hnamed Hupd.
    assert (Hall : Forall (fun item => exists lines,
                               unread_block utcoffset item = Ok lines
                               /\ block_of utcoffset item lines) sorted).
    { apply (Permutation_Forall Hp). rewrite Forall_forall in *.
      intros item Hin. apply unread_block_listed; [|now apply Hupd].
      rewrite forallb_forall in Hnamed. now apply Hnamed. }
    destruct (mapM_Forall2 _ _ _ Hall) as (blocks & Hm & H2).
    exists blocks. split; [assumption|]. rewrite Hfmt, Hm. reflexivity.
Qed.

Lemma C7_unread_counts_in_stable_decreasing_order_witness :
  exists sorted blocks,
    Permutation unread_sample sorted
    /\ StronglySorted not_below sorted
    /\ (forall n, filter (has_count n) sorted = filter (has_count n) unread_sample)
    /\ Forall2 (block_of utc) sorted blocks
    /\ _format_unread_counts_markdown utc (VDict [("unreadcounts", VList unread_sample)])
       = Ok (join nl (("## Unread Counts" ++ nl) :: List.concat blocks)).
Proof.
  destruct (C7_unread_counts_in_stable_decreasing_order utc
              [("unreadcounts", VList unread_sample)] unread_sample
              eq_refl ltac:(discriminate) eq_refl)
    as (sorted & Hp & Hs & Hf & _ & _ & Hlisted).
  destruct (Hlisted eq_refl ltac:(repeat constructor; eexists; reflexivity))
    as (blocks & Hblocks & Hfmt).
  exists sorted, blocks. repeat split; assumption.
Defined.

(** Counts 3, 10, 1 come out as 10, 3, 1; equal counts keep their order. *)
Example unread_counts_3_10_1 :
  _format_unread_counts_markdown utc (VDict [("unreadcounts", VList unread_sample)])
  = Ok ("## Unread Counts" ++ nl ++ nl
        ++ "- **b** (Category): 10 unread (updated: Unknown)" ++ nl
        ++ "  - ID: `user/u/category/b`" ++ nl
        ++ "- **a** (Feed): 3 unread (updated: Unknown)" ++ nl
        ++ "  - ID: `feed/a`" ++ nl
        ++ "- **c** (Tag): 1 unread (updated: Unknown)" ++ nl
        ++ "  - ID: `user/u/tag/c`").
Proof. reflexivity. Qed.

Example equal_counts_keep_order :
  sorted_reverse count_key
    (VList [VDict [("id", VStr "p"); ("count", VInt 2)];
            VDict [("id", VStr "q"); ("count", VInt 5)];
            VDict [("id", VStr "r"); ("count", VInt 2)];
            VDict [("id", VStr "s"); ("count", VInt 5)]])
  = Ok [VDict [("id", VStr "q"); ("count", VInt 5)];
        VDict [("id", VStr "s"); ("count", VInt 5)];
        VDict [("id", VStr "p"); ("count", VInt 2)];
        VDict [("id", VStr "r"); ("count", VInt 2)]].
Proof. reflexivity. Qed.

(** *** The codec: strings *)

Lemma parse_string_char (c : ascii) (t : string) :
  parse_string (encode_char c ++ t) = cons_char (N_of_ascii c) (parse_string t).
Proof. destruct c as [[] [] [] [] [] [] [] []]; reflexivity. Qed.

Lemma parse_string_encoded (s rest : string) :
  parse_string (encode_chars s ++ String dquote rest) = Some (codes s, rest).
Proof.
  induction s as [|c s IH]; [reflexivity|].
  cbn [encode_chars]. rewrite append_assoc, parse_string_char, IH. reflexivity.
Qed.

Lemma codes_eqb_eq (a b : list N) : codes_eqb a b = true <-> a = b.
Proof.
  revert b. induction a as [|x a IH]; intros [|y b]; cbn [codes_eqb];
    try (split; [discriminate | discriminate]); [tauto|].
  rewrite andb_true_iff, N.eqb_eq, IH. split.
  - intros [-> ->]. reflexivity.
  - intros E. injection E as -> ->. split; reflexivity.
Qed.

Lemma codes_injective (s t : string) : codes s = codes t -> s = t.
Proof.
  unfold codes. revert t. induction s as [|c s IH]; intros [|d t]; cbn [list_ascii_of_string map];
    try discriminate; [reflexivity|].
  intros E. injection E as Ec Es. f_equal.
  - rewrite <- (ascii_N_embedding c), <- (ascii_N_embedding d). now rewrite Ec.
  - now apply IH.
Qed.

(** *** The codec: white space *)

Lemma skip_ws_spaces (n : nat) (s : string) :
  skip_ws (replicate n " " ++ s) = skip_ws s.
Proof. induction n as [|n IH]; [reflexivity | exact IH]. Qed.

Lemma skip_ws_newline_indent (lvl : nat) (s : string) :
  skip_ws (newline_indent lvl ++ s) = skip_ws s.
Proof. unfold newline_indent. rewrite append_assoc. cbn. apply skip_ws_spaces. Qed.

Lemma skip_ws_solid (s : string) : solid s -> skip_ws s = s.
Proof. intros (c & r & -> & H). cbn [skip_ws]. now rewrite H. Qed.

Lemma solid_append (s t : string) : solid s -> solid (s ++ t).
Proof. intros (c & r & -> & H). exists c, (r ++ t). split; [reflexivity | exact H]. Qed.

(** *** The codec: numbers *)

Lemma parse_digits_encoded (u : Decimal.uint) (rest : string) :
  delimited rest = true ->
  parse_digits (string_of_uint u ++ rest) = (u, rest).
Proof.
  intros Hrest. unfold string_of_uint.
  induction u as [|u IH|u IH|u IH|u IH|u IH|u IH|u IH|u IH|u IH|u IH];
    try (cbn [NilEmpty.string_of_uint String.append parse_digits];
         change (digit _) with (Some Decimal.D0) || change (digit _) with (Some Decimal.D1)
         || change (digit _) with (Some Decimal.D2) || change (digit _) with (Some Decimal.D3)
         || change (digit _) with (Some Decimal.D4) || change (digit _) with (Some Decimal.D5)
         || change (digit _) with (Some Decimal.D6) || change (digit _) with (Some Decimal.D7)
         || change (digit _) with (Some Decimal.D8) || change (digit _) with (Some Decimal.D9);
         cbv iota beta; now rewrite IH).
  cbn [NilEmpty.string_of_uint String.append].
  destruct rest as [|c r]; [reflexivity|].
  cbn [parse_digits]. unfold delimited in Hrest.
  destruct (digit c); [discriminate | reflexivity].
Qed.

(** Behind a delimited text there is neither a fraction nor an exponent. *)
Lemma delimited_no_tail (rest : string) :
  delimited rest = true -> fraction rest = None /\ exponent rest = None.
Proof.
  destruct rest as [|c r]; [split; reflexivity|]. unfold delimited, fraction, exponent.
  destruct (digit c); [discriminate|].
  destruct (Ascii.eqb c "."), (Ascii.eqb c "e"), (Ascii.eqb c "E");
    cbn [orb negb]; try discriminate. split; reflexivity.
Qed.

(** The decimal digits of a positive number do not begin with a zero. *)
Lemma to_uint_leading (p : positive) (u : Decimal.uint) : Pos.to_uint p <> Decimal.D0 u.
Proof.
  intros E.
  pose proof (DecimalPos.Unsigned.to_of (Pos.to_uint p)) as H.
  rewrite DecimalPos.Unsigned.of_to in H. cbn [N.to_uint] in H.
  destruct u as [|u|u|u|u|u|u|u|u|u|u].
  1: now apply (DecimalPos.Unsigned.to_uint_nonzero p).
  all: match type of E with
       | _ = Decimal.D0 ?w =>
           assert (Hs : (Decimal.nb_digits (Decimal.unorm w) <= Decimal.nb_digits w)%nat)
             by (apply DecimalFacts.nb_digits_unorm; discriminate);
           rewrite E in H; change (Decimal.unorm (Decimal.D0 w)) with (Decimal.unorm w) in H;
           rewrite <- H in Hs; cbn [Decimal.nb_digits] in Hs; lia
       end.
Qed.

Lemma parse_nat_pos (p : positive) (rest : string) :
  delimited rest = true ->
  parse_nat (string_of_uint (Pos.to_uint p) ++ rest) = Some (Pos.to_uint p, rest).
Proof.
  intros Hrest. unfold parse_nat.
  pose proof (parse_digits_encoded (Pos.to_uint p) rest Hrest) as Hd.
  pose proof (DecimalPos.Unsigned.to_uint_nonnil p) as Hnil.
  pose proof (to_uint_leading p) as Hlead.
  destruct (Pos.to_uint p) as [|u|u|u|u|u|u|u|u|u|u] eqn:E;
    [contradiction | exfalso; now apply (Hlead u) | ..];
    unfold string_of_uint in *; cbn [NilEmpty.string_of_uint String.append] in *;
    match goal with
    | |- context [Ascii.eqb ?c "0"] => change (Ascii.eqb c "0") with false
    end; cbv iota; rewrite Hd; reflexivity.
Qed.

Lemma parse_unsigned_pos (negative : bool) (p : positive) (rest : string) :
  delimited rest = true ->
  parse_unsigned negative (string_of_uint (Pos.to_uint p) ++ rest)
  = Some (DInt (if negative then Zneg p else Zpos p), rest).
Proof.
  intros Hrest. unfold parse_unsigned. rewrite (parse_nat_pos p rest Hrest).
  destruct (delimited_no_tail rest Hrest) as [-> ->].
  unfold N.of_uint. rewrite DecimalPos.Unsigned.of_to. destruct negative; reflexivity.
Qed.

(** Scanning over characters that are known. *)
Ltac known_chars :=
  repeat match goal with
         | |- context [is_ws (Ascii ?a ?b ?c ?d ?e ?f ?g ?h)] =>
             let v := eval vm_compute in (is_ws (Ascii a b c d e f g h)) in
             change (is_ws (Ascii a b c d e f g h)) with v
         | |- context [Ascii.eqb (Ascii ?a ?b ?c ?d ?e ?f ?g ?h) ?y] =>
             let v := eval vm_compute in (Ascii.eqb (Ascii a b c d e f g h) y) in
             change (Ascii.eqb (Ascii a b c d e f g h) y) with v
         | |- context [Ascii.eqb dquote ?y] =>
             let v := eval vm_compute in (Ascii.eqb dquote y) in
             change (Ascii.eqb dquote y) with v
         end.

Ltac scan :=
  repeat (progress (cbn [String.append skip_ws negb]; known_chars; cbv iota)).

(** The first character of a number sends the scanner to [parse_number]. *)
Lemma parse_value_number (fuel : nat) (n : Z) (rest : string) :
  delimited rest = true ->
  parse_value (S fuel) (str_of_int n ++ rest) = Some (DInt n, rest).
Proof.
  intros Hrest. destruct n as [|p|p]; cbn [str_of_int].
  - destruct (delimited_no_tail rest Hrest) as [Hf He].
    cbn [String.append parse_value]. known_chars. cbv iota.
    unfold parse_number. known_chars. cbv iota.
    unfold parse_unsigned, parse_nat. known_chars. cbv iota. rewrite Hf, He. reflexivity.
  - pose proof (parse_unsigned_pos false p rest Hrest) as Hn.
    pose proof (DecimalPos.Unsigned.to_uint_nonnil p) as Hnil.
    destruct (Pos.to_uint p) as [|u|u|u|u|u|u|u|u|u|u] eqn:E; [contradiction|..];
      unfold string_of_uint in *; cbn [NilEmpty.string_of_uint String.append] in *;
      cbn [parse_value]; known_chars; cbv iota; unfold parse_number;
      known_chars; cbv iota; exact Hn.
  - pose proof (parse_unsigned_pos true p rest Hrest) as Hn.
    pose proof (DecimalPos.Unsigned.to_uint_nonnil p) as Hnil.
    cbn [String.append parse_value]. known_chars. cbv iota.
    replace (strip_prefix "Infinity" (string_of_uint (Pos.to_uint p) ++ rest)) with (@None string).
    + unfold parse_number. known_chars. cbv iota. exact Hn.
    + destruct (Pos.to_uint p) as [|u|u|u|u|u|u|u|u|u|u]; [contradiction|..]; reflexivity.
Qed.

(** *** The codec: what an encoding begins with *)

Lemma opening_solid (s : string) : opening s -> solid s.
Proof. intros (c & r & -> & H & _). exists c, r. auto. Qed.

Lemma opening_append (s t : string) : opening s -> opening (s ++ t).
Proof. intros (c & r & -> & H). exists c, (r ++ t). split; [reflexivity | exact H]. Qed.

Lemma dumps_opening (lvl : nat) (v : value) : opening (dumps_at lvl v).
Proof.
  destruct v as [|[]|[|p|p]|s|[|x l]|[|kv d]]; cbn [dumps_at str_of_int];
    try (eexists _, _; split; [reflexivity | repeat split]; fail).
  pose proof (DecimalPos.Unsigned.to_uint_nonnil p) as Hnil. unfold string_of_uint.
  destruct (Pos.to_uint p); [contradiction|..];
    cbn [NilEmpty.string_of_uint]; eexists _, _; split; try reflexivity; repeat split.
Qed.

(** *** The codec: dictionaries *)

Lemma member_set_fresh (acc : list (list N * document)) (k : list N) (v : document) :
  ~ In k (map fst acc) -> member_set acc k v = (acc ++ [(k, v)])%list.
Proof.
  induction acc as [|[k' v'] acc IH]; intros Hin; [reflexivity|].
  cbn [member_set]. destruct (codes_eqb k k') eqn:E.
  - exfalso. apply Hin. left. symmetry. now apply codes_eqb_eq.
  - cbn [List.app]. rewrite IH; [reflexivity|]. intros H. apply Hin. now right.
Qed.

Lemma dict_of_pairs_from (acc d : list (list N * document)) :
  NoDup (map fst (acc ++ d)) ->
  fold_left (fun m kv => member_set m (fst kv) (snd kv)) d acc = (acc ++ d)%list.
Proof.
  revert acc. induction d as [|[k v] d IH]; intros acc Hnd; cbn [fold_left].
  - now rewrite List.app_nil_r.
  - cbn [fst snd]. rewrite member_set_fresh.
    + rewrite IH; rewrite <- List.app_assoc; [reflexivity | exact Hnd].
    + rewrite List.map_app in Hnd. cbn [map fst] in Hnd.
      apply NoDup_remove_2 in Hnd. intros H. apply Hnd. apply in_or_app. now left.
Qed.

Lemma dict_of_pairs_unique (d : list (list N * document)) :
  NoDup (map fst d) -> dict_of_pairs d = d.
Proof. intros H. unfold dict_of_pairs. now rewrite dict_of_pairs_from. Qed.

(** The members of a value with distinct keys, as a document, have distinct
    keys. *)
Lemma members_unique (d : list (string * value)) :
  NoDup (map fst d) ->
  NoDup (map fst (map (fun kv => (codes (fst kv), of_value (snd kv))) d)).
Proof.
  rewrite List.map_map. cbn [fst].
  induction d as [|[k v] d IH]; cbn [map fst]; intros H; [constructor|].
  inversion H as [|? ? Hk Hd]; subst. constructor; [|now apply IH].
  intros Hin. apply Hk. apply in_map_iff in Hin as ([k' v'] & E & Hin). cbn [fst] in E.
  apply codes_injective in E. subst k'. apply in_map_iff. exists (k, v'). split; [reflexivity | exact Hin].
Qed.

(** *** The codec: containers *)

Lemma parse_value_list (fuel : nat) (t s rest : string) (l : list document) :
  skip_ws t = s -> opening s ->
  parse_elements fuel s = Some (l, rest) ->
  parse_value (S fuel) (String "[" t) = Some (DList l, rest).
Proof.
  intros Hskip (c & r & -> & _ & Hc & _) Hp. cbn [parse_value].
  change (Ascii.eqb "[" dquote) with false. change (Ascii.eqb "[" "[") with true.
  cbv iota. rewrite Hskip, Hc, Hp. reflexivity.
Qed.

Lemma parse_value_dict (fuel : nat) (t s rest : string) (m : list (list N * document)) :
  skip_ws t = s -> opening s ->
  parse_members fuel s = Some (m, rest) ->
  parse_value (S fuel) (String "{" t) = Some (DDict (dict_of_pairs m), rest).
Proof.
  intros Hskip (c & r & -> & _ & _ & Hc) Hp. cbn [parse_value].
  change (Ascii.eqb "{" dquote) with false. change (Ascii.eqb "{" "[") with false.
  change (Ascii.eqb "{" "{") with true.
  cbv iota. rewrite Hskip, Hc, Hp. reflexivity.
Qed.

Lemma parse_elements_encoded (lvl : nat) (l : list value) :
  Forall decodes l -> l <> [] ->
  forall (fuel : nat) (rest : string),
    (elems_size l <= fuel)%nat ->
    parse_elements fuel
      (chunks ("," ++ newline_indent (S lvl)) (newline_indent lvl ++ "]")
              (map (dumps_at (S lvl)) l) ++ rest)
    = Some (map of_value l, rest).
Proof.
  induction 1 as [|x l Hx Hl IH]; intros Hne fuel rest Hfuel; [contradiction|].
  cbn [elems_size fold_right] in Hfuel. fold (elems_size l) in Hfuel.
  destruct fuel as [|fuel]; [lia|].
  destruct l as [|y ys].
  - cbn [map chunks parse_elements]. rewrite append_assoc.
    rewrite (Hx (S lvl) fuel); [|lia|reflexivity].
    rewrite append_assoc, skip_ws_newline_indent. reflexivity.
  - change (chunks ?sep ?close (map ?f (x :: y :: ys)))
      with (f x ++ sep ++ chunks sep close (map f (y :: ys))).
    cbn [parse_elements]. rewrite !append_assoc.
    rewrite (Hx (S lvl) fuel); [|lia|reflexivity].
    cbn [String.append skip_ws].
    change (is_ws ",") with false. change (Ascii.eqb "," "]") with false.
    change (Ascii.eqb "," ",") with true. cbv iota.
    rewrite skip_ws_newline_indent.
    rewrite skip_ws_solid.
    + rewrite IH; [reflexivity | discriminate | lia].
    + apply solid_append. cbn [map chunks].
      destruct (map (dumps_at (S lvl)) ys); apply solid_append, opening_solid, dumps_opening.
Qed.

Lemma parse_members_encoded (lvl : nat) (d : list (string * value)) :
  Forall (fun kv => decodes (snd kv)) d -> d <> [] ->
  forall (fuel : nat) (rest : string),
    (members_size d <= fuel)%nat ->
    parse_members fuel
      (chunks ("," ++ newline_indent (S lvl)) (newline_indent lvl ++ "}")
              (map (fun kv => encode_str (fst kv) ++ ": " ++ dumps_at (S lvl) (snd kv)) d)
       ++ rest)
    = Some (map (fun kv => (codes (fst kv), of_value (snd kv))) d, rest).
Proof.
  induction 1 as [|[k v] d Hx Hd IH]; intros Hne fuel rest Hfuel; [contradiction|].
  cbn [members_size fold_right snd] in Hfuel. fold (members_size d) in Hfuel.
  cbn [snd] in Hx.
  destruct fuel as [|fuel]; [lia|].
  destruct d as [|[k' v'] d'].
  - cbn [map chunks fst snd]. unfold encode_str. rewrite !append_assoc.
    cbn [String.append parse_members]. scan. rewrite !append_assoc. scan.
    rewrite parse_string_encoded. scan.
    rewrite skip_ws_solid by (apply solid_append, opening_solid, dumps_opening).
    rewrite (Hx (S lvl) fuel); [|lia|reflexivity].
    rewrite skip_ws_newline_indent. scan. reflexivity.
  - change (chunks ?sep ?close (map ?f ((k, v) :: (k', v') :: d')))
      with (f (k, v) ++ sep ++ chunks sep close (map f ((k', v') :: d'))).
    cbn [fst snd]. unfold encode_str at 1. rewrite !append_assoc.
    cbn [String.append parse_members]. scan. rewrite !append_assoc. scan.
    rewrite parse_string_encoded. scan.
    rewrite skip_ws_solid by (apply solid_append, opening_solid, dumps_opening).
    rewrite (Hx (S lvl) fuel); [|lia|reflexivity].
    scan. rewrite skip_ws_newline_indent.
    rewrite skip_ws_solid.
    + rewrite IH; [reflexivity | discriminate | lia].
    + apply solid_append. cbn [map chunks fst]. unfold encode_str.
      destruct (map _ d'); eexists _, _; (split; [reflexivity | reflexivity]).
Qed.

(** *** The codec: round trip *)

Lemma decodes_all (v : value) : unique_keys v -> decodes v.
Proof.
  induction v as [| b | n | s | l IH | d IH] using value_induction;
    intros Huk lvl fuel rest Hfuel Hrest;
    (destruct fuel as [|fuel]; [cbn [size] in Hfuel; lia|]).
  - reflexivity.
  - destruct b; reflexivity.
  - now apply parse_value_number.
  - cbn [dumps_at of_value]. unfold encode_str.
    cbn [String.append parse_value]. scan. rewrite append_assoc. scan.
    now rewrite parse_string_encoded.
  - inversion Huk as [| | | |? Hall|]; subst.
    destruct l as [|x l]; [reflexivity|].
    assert (Hdec : Forall decodes (x :: l)).
    { clear - IH Hall. induction IH as [|y ys Hy Hys IHl]; constructor.
      - apply Hy. now inversion Hall.
      - apply IHl. now inversion Hall. }
    remember (x :: l) as items eqn:Eitems.
    assert (Hne : items <> []) by (subst; discriminate).
    cbn [size] in Hfuel. fold (elems_size items) in Hfuel.
    replace (dumps_at lvl (VList items))
      with (String "[" (newline_indent (S lvl)
                        ++ chunks ("," ++ newline_indent (S lvl)) (newline_indent lvl ++ "]")
                             (map (dumps_at (S lvl)) items)))
      by (subst; reflexivity).
    cbn [String.append of_value]. rewrite append_assoc.
    eapply parse_value_list.
    + rewrite skip_ws_newline_indent. apply skip_ws_solid.
      apply solid_append. subst items. cbn [map chunks].
      destruct (map (dumps_at (S lvl)) l); apply solid_append, opening_solid, dumps_opening.
    + apply opening_append. subst items. cbn [map chunks].
      destruct (map (dumps_at (S lvl)) l); apply opening_append, dumps_opening.
    + apply parse_elements_encoded; [assumption | assumption | lia].
  - inversion Huk as [| | | | |? Hnd Hall]; subst.
    destruct d as [|kv d]; [reflexivity|].
    assert (Hdec : Forall (fun kv => decodes (snd kv)) (kv :: d)).
    { clear - IH Hall. induction IH as [|y ys Hy Hys IHl]; constructor.
      - apply Hy. now inversion Hall.
      - apply IHl. now inversion Hall. }
    remember (kv :: d) as members eqn:Emembers.
    assert (Hne : members <> []) by (subst; discriminate).
    cbn [size] in Hfuel. fold (members_size members) in Hfuel.
    replace (dumps_at lvl (VDict members))
      with (String "{" (newline_indent (S lvl)
                        ++ chunks ("," ++ newline_indent (S lvl)) (newline_indent lvl ++ "}")
                             (map (fun kv => encode_str (fst kv) ++ ": "
                                                ++ dumps_at (S lvl) (snd kv)) members)))
      by (subst; reflexivity).
    cbn [String.append of_value]. rewrite append_assoc.
    rewrite <- (dict_of_pairs_unique _ (members_unique members Hnd)).
    eapply parse_value_dict.
    + rewrite skip_ws_newline_indent. apply skip_ws_solid.
      apply solid_append. subst members. cbn [map chunks]. unfold encode_str.
      destruct (map _ d); eexists _, _; (split; [reflexivity | reflexivity]).
    + apply opening_append. subst members. cbn [map chunks]. unfold encode_str.
      destruct (map _ d); eexists _, _; (split; [reflexivity | repeat split]).
    + apply parse_members_encoded; [assumption | assumption | lia].
Qed.

Lemma length_chunks_elems (sep close : string) (f : value -> string) (l : list value) :
  (1 <= String.length sep)%nat -> (1 <= String.length close)%nat ->
  Forall (fun x => (size x <= String.length (f x))%nat) l -> l <> [] ->
  (elems_size l <= String.length (chunks sep close (map f l)))%nat.
Proof.
  intros Hsep Hclose. induction 1 as [|x l Hx Hl IH]; intros Hne; [contradiction|].
  cbn [elems_size fold_right]. fold (elems_size l).
  destruct l as [|y ys].
  - cbn [map chunks elems_size fold_right]. rewrite length_append. lia.
  - change (chunks sep close (map f (x :: y :: ys)))
      with (f x ++ sep ++ chunks sep close (map f (y :: ys))).
    rewrite !length_append. assert (y :: ys <> []) by discriminate.
    specialize (IH ltac:(assumption)). lia.
Qed.

Lemma length_chunks_members (sep close : string) (f : string * value -> string)
      (d : list (string * value)) :
  (1 <= String.length sep)%nat -> (1 <= String.length close)%nat ->
  Forall (fun kv => (size (snd kv) <= String.length (f kv))%nat) d -> d <> [] ->
  (members_size d <= String.length (chunks sep close (map f d)))%nat.
Proof.
  intros Hsep Hclose. induction 1 as [|x l Hx Hl IH]; intros Hne; [contradiction|].
  cbn [members_size fold_right]. fold (members_size l).
  destruct l as [|y ys].
  - cbn [map chunks members_size fold_right]. rewrite length_append. lia.
  - change (chunks sep close (map f (x :: y :: ys)))
      with (f x ++ sep ++ chunks sep close (map f (y :: ys))).
    rewrite !length_append. assert (y :: ys <> []) by discriminate.
    specialize (IH ltac:(assumption)). lia.
Qed.

Lemma length_newline_indent (lvl : nat) : (1 <= String.length (newline_indent lvl))%nat.
Proof. unfold newline_indent. cbn. lia. Qed.

(** The fuel [loads] grants is enough. *)
Lemma size_le_length (v : value) :
  forall lvl, (size v <= String.length (dumps_at lvl v))%nat.
Proof.
  induction v as [| b | n | s | l IH | d IH] using value_induction; intros lvl.
  - cbn. lia.
  - destruct b; cbn; lia.
  - pose proof (dumps_opening lvl (VInt n)) as (c & r & E & _). rewrite E. cbn. lia.
  - cbn. lia.
  - destruct l as [|x l]; [cbn; lia|].
    remember (x :: l) as items eqn:Eitems.
    assert (Hne : items <> []) by (subst; discriminate).
    cbn [size]. fold (elems_size items).
    replace (dumps_at lvl (VList items))
      with (String "[" (newline_indent (S lvl)
                        ++ chunks ("," ++ newline_indent (S lvl)) (newline_indent lvl ++ "]")
                             (map (dumps_at (S lvl)) items)))
      by (subst; reflexivity).
    cbn [String.length]. rewrite length_append.
    pose proof (length_chunks_elems ("," ++ newline_indent (S lvl))
                  (newline_indent lvl ++ "]") (dumps_at (S lvl)) items) as H.
    rewrite !length_append in H. pose proof (length_newline_indent lvl).
    specialize (H ltac:(cbn [String.length]; lia) ltac:(lia)).
    assert (Hall : Forall (fun x => (size x <= String.length (dumps_at (S lvl) x))%nat) items).
    { clear - IH. induction IH; constructor; auto. }
    specialize (H Hall Hne). lia.
  - destruct d as [|kv d]; [cbn; lia|].
    remember (kv :: d) as members eqn:Emembers.
    assert (Hne : members <> []) by (subst; discriminate).
    cbn [size]. fold (members_size members).
    replace (dumps_at lvl (VDict members))
      with (String "{" (newline_indent (S lvl)
                        ++ chunks ("," ++ newline_indent (S lvl)) (newline_indent lvl ++ "}")
                             (map (fun kv => encode_str (fst kv) ++ ": "
                                                ++ dumps_at (S lvl) (snd kv)) members)))
      by (subst; reflexivity).
    cbn [String.length]. rewrite length_append.
    pose proof (length_chunks_members ("," ++ newline_indent (S lvl))
                  (newline_indent lvl ++ "}")
                  (fun kv => encode_str (fst kv) ++ ": " ++ dumps_at (S lvl) (snd kv))
                  members) as H.
    rewrite !length_append in H. pose proof (length_newline_indent lvl).
    specialize (H ltac:(cbn [String.length]; lia) ltac:(lia)).
    assert (Hall : Forall (fun kv => (size (snd kv)
                    <= String.length (encode_str (fst kv) ++ ": "
                                        ++ dumps_at (S lvl) (snd kv)))%nat) members).
    { clear - IH. induction IH as [|y ys Hy Hys IHl]; constructor; auto.
      rewrite !length_append. specialize (Hy (S lvl)). lia. }
    specialize (H Hall Hne). lia.
Qed.

(** Decoding what [dumps] wrote gives the value back. *)
Theorem loads_dumps (v : value) : unique_keys v -> loads (dumps v) = Some (of_value v).
Proof.
  intros Huk. unfold loads, dumps.
  rewrite (skip_ws_solid (dumps_at 0 v)) by apply opening_solid, dumps_opening.
  rewrite <- (append_nil_r (dumps_at 0 v)) at 2.
  rewrite (decodes_all v Huk 0%nat _ EmptyString); [reflexivity | | reflexivity].
  pose proof (size_le_length v 0). lia.
Qed.

(** *** C2: counts in JSON listings *)

Lemma unique_keys_lookup (d : list (string * value)) (k : string) (v : value) :
  unique_keys (VDict d) -> lookup k d = Some v -> unique_keys v.
Proof.
  intros Huk. inversion Huk as [| | | | |? _ Hall]; subst. clear Huk.
  induction Hall as [|[k' v'] d Hv Hd IH]; cbn [lookup]; [discriminate|].
  destruct (String.eqb k k'); [|exact IH].
  intros E. injection E as <-. exact Hv.
Qed.

(** What the stream formatter writes for JSON: the items, their number, and
    the continuation when there is one. *)
Lemma stream_contents_document utcoffset (data : list (string * value)) (items : list value) :
  unique_keys (VDict data) ->
  lookup "items" data = Some (VList items) \/ (lookup "items" data = None /\ items = []) ->
  let continuation := match lookup "continuation" data with Some c => c | None => VNone end in
  let result :=
    VDict ([("items", VList items); ("count", VInt (Z.of_nat (List.length items)))]
           ++ if truthy continuation then [("continuation", continuation)] else []) in
  _format_stream_contents utcoffset (VDict data) JSON = Ok (dumps result)
  /\ loads (dumps result) = Some (of_value result).
Proof.
  intros Huk Hitems continuation result.
  assert (Hget : match lookup "items" data with Some v => v | None => VList [] end
                 = VList items)
    by (destruct Hitems as [-> | [-> ->]]; reflexivity).
  assert (Hi : unique_keys (VList items)).
  { destruct Hitems as [H | [_ ->]]; [|repeat constructor].
    apply (unique_keys_lookup data "items" _ Huk H). }
  assert (Hc : unique_keys continuation).
  { unfold continuation. destruct (lookup "continuation" data) eqn:E; [|constructor].
    apply (unique_keys_lookup data "continuation" _ Huk E). }
  split.
  - unfold _format_stream_contents, get. cbn [bind]. rewrite Hget. cbn [Py.len bind].
    fold continuation. unfold result. destruct (truthy continuation); reflexivity.
  - apply loads_dumps. unfold result. destruct (truthy continuation); cbn [List.app].
    + constructor.
      * cbn [map fst]. repeat constructor; cbn [In]; intuition discriminate.
      * repeat first [assumption | constructor | progress cbn [snd]].
    + constructor.
      * cbn [map fst]. repeat constructor; cbn [In]; intuition discriminate.
      * repeat first [assumption | constructor | progress cbn [snd]].
Qed.





(* ====================================================================== *)
(** ** Further properties of the transport and the tools *)
(* ====================================================================== *)

Import More.

(** *** The client and the request *)

(** X1.  Without a token in the environment (the variable unset, or set to
    the empty string) every tool returns the configuration error, and the
    log of requests is as it was: nothing is sent. *)
Theorem X1_missing_token_sends_nothing utcoffset tok network (c : tool_call)
        (log : list request) :
  tok = None \/ tok = Some EmptyString ->
  run utcoffset tok network c log
  = (Ok "Error: FEEDLY_ACCESS_TOKEN environment variable not set", log).
Proof.
  intros Htok. rewrite run_is_guarded. unfold try_except.
  assert (Hcl : get_client tok
                = Raise (FeedlyError "FEEDLY_ACCESS_TOKEN environment variable not set" None))
    by (destruct Htok as [-> | ->]; reflexivity).
  destruct c; unfold_body; rewrite Hcl; reflexivity.
Qed.

Lemma X1_missing_token_sends_nothing_witness :
  run utc (Some EmptyString) (ok_json (VList [])) (GetSubscriptions markdown) []
  = (Ok "Error: FEEDLY_ACCESS_TOKEN environment variable not set", []).
Proof.
  apply (X1_missing_token_sends_nothing utc (Some EmptyString) (ok_json (VList []))
           (GetSubscriptions markdown) []).
  right. reflexivity.
Defined.

Lemma get_client_token (t : string) :
  t <> EmptyString -> get_client (Some t) = Ok (new_client t).
Proof. intros H. unfold get_client. destruct (String.eqb_spec t EmptyString); [contradiction | reflexivity]. Qed.

(** What [_request] sends, whatever comes back. *)
Lemma request_logged network cl m ep p j (log : list request) :
  snd (_request network cl m ep p j log)
  = (log ++ [sent cl m ep p j])%list.
Proof.
  unfold _request, sent.
  match goal with |- context [network ?req] => destruct (network req) as [r|e] end;
    [|reflexivity].
  repeat match goal with
         | |- context [if ?b then _ else _] => destruct b; try reflexivity
         | |- context [match raise_for_status ?r with _ => _ end] =>
             destruct (raise_for_status r); try reflexivity
         | |- context [match json_body ?r with _ => _ end] =>
             destruct (json_body r); try reflexivity
         end.
Qed.

(** The body of a tool keeps the log of its one request. *)
Lemma body_logs_one_request utcoffset t network (c : tool_call) (log : list request) :
  t <> EmptyString ->
  exists m ep p j,
    snd (body utcoffset (Some t) network c log)
    = (log ++ [sent (new_client t) m ep p j])%list.
Proof.
  intros Ht. destruct c; unfold_body; rewrite (get_client_token t Ht);
    cbv beta iota delta [bind_io lift ret];
    match goal with
    | |- context [_request ?n ?cl ?m ?ep ?p ?j ?lg] =>
        exists m, ep, p, j;
        pose proof (request_logged n cl m ep p j lg) as Hlog;
        destruct (_request n cl m ep p j lg) as [[v|e] l]
    end; cbn [snd] in Hlog; subst l;
    repeat body_step; reflexivity.
Qed.

(** X2.  With a token in the environment every tool sends exactly one
    request, whatever the outcome: the log grows by one entry, addressed
    below the API base URL and carrying the bearer token and the three fixed
    headers. *)
Theorem X2_one_authorised_request_per_call utcoffset (t : string) network
        (c : tool_call) (log : list request) :
  t <> EmptyString ->
  exists req,
    snd (run utcoffset (Some t) network c log) = (log ++ [req])%list
    /\ startswith API_BASE_URL (url req) = true
    /\ headers req = [("Authorization", "Bearer " ++ t);
                      ("Accept", "application/json");
                      ("Content-Type", "application/json");
                      ("User-Agent", USER_AGENT)].
Proof.
  intros Ht.
  destruct (body_logs_one_request utcoffset t network c log Ht) as (m & ep & p & j & Hlog).
  exists (sent (new_client t) m ep p j). split; [|split].
  - rewrite run_is_guarded. unfold try_except.
    destruct (body utcoffset (Some t) network c log) as [[s|e] l]; exact Hlog.
  - apply startswith_append.
  - reflexivity.
Qed.

Lemma X2_one_authorised_request_per_call_witness :
  exists req,
    snd (run utc (Some "token") no_content (MarkAsRead {| mar_entry_ids := ["a"] |}) [])
    = ([] ++ [req])%list
    /\ startswith API_BASE_URL (url req) = true
    /\ headers req = [("Authorization", "Bearer " ++ "token");
                      ("Accept", "application/json");
                      ("Content-Type", "application/json");
                      ("User-Agent", USER_AGENT)].
Proof.
  apply (X2_one_authorised_request_per_call utc "token" no_content
           (MarkAsRead {| mar_entry_ids := ["a"] |}) []).
  discriminate.
Defined.


(** *** Upstream failures *)

(** X3.  With a token in the environment, whenever the upstream answers
    with status 403 every tool returns exactly
    ["Error: Access forbidden. Check your Feedly plan."], and whenever it
    answers with status 404 exactly
    ["Error: Resource not found. Check the ID."]. *)
Theorem X3_forbidden_and_not_found_strings utcoffset tok network (c : tool_call)
        (log : list request) :
  usable tok ->
  (answered network (fun r => status_code r = 403) ->
   returned (run utcoffset tok network c log)
            "Error: Access forbidden. Check your Feedly plan.")
  /\ (answered network (fun r => status_code r = 404) ->
      returned (run utcoffset tok network c log)
               "Error: Resource not found. Check the ID.").
Proof.
  intros Htok. split; intros Hnet.
  - apply (run_status_error utcoffset tok network c log 403
             "Access forbidden. Check your Feedly plan." Htok Hnet).
    intros. now rewrite (request_status_error network cl m ep p j lg 403 Hnet).
  - apply (run_status_error utcoffset tok network c log 404
             "Resource not found. Check the ID." Htok Hnet).
    intros. now rewrite (request_status_error network cl m ep p j lg 404 Hnet).
Qed.

Lemma X3_forbidden_and_not_found_strings_witness :
  returned (run utc token (answers 403 EmptyString None) (GetTags as_json) [])
           "Error: Access forbidden. Check your Feedly plan."
  /\ returned (run utc token (answers 404 EmptyString None)
                   (GetEntry {| ge_entry_id := "e"; ge_response_format := MARKDOWN |}) [])
              "Error: Resource not found. Check the ID.".
Proof.
  split.
  - apply (proj1 (X3_forbidden_and_not_found_strings utc token
                    (answers 403 EmptyString None) (GetTags as_json) [] usable_token)).
    apply answers_answered. reflexivity.
  - apply (proj2 (X3_forbidden_and_not_found_strings utc token
                    (answers 404 EmptyString None)
                    (GetEntry {| ge_entry_id := "e"; ge_response_format := MARKDOWN |}) []
                    usable_token)).
    apply answers_answered. reflexivity.
Defined.

Lemma request_other_status network cl m ep p j log (code : Z) (body : string) :
  other_failure code = true ->
  answered network (fun r => status_code r = code /\ text r = body) ->
  fst (_request network cl m ep p j log) = Raise (HTTPStatusError code body).
Proof.
  intros Hcode Hnet. unfold _request.
  match goal with |- context [network ?req] => destruct (Hnet req) as (r & -> & <- & <-) end.
  unfold other_failure in Hcode.
  apply andb_prop in Hcode as [Hcode H2xx].
  apply andb_prop in Hcode as [Hcode H429].
  apply andb_prop in Hcode as [Hcode H404].
  apply andb_prop in Hcode as [H401 H403].
  apply negb_true_iff in H401, H403, H404, H429, H2xx.
  rewrite H401, H403, H404, H429. unfold raise_for_status. now rewrite H2xx.
Qed.

(** X4.  With a token in the environment, whenever the upstream answers
    with a status that is neither a success (2xx) nor one of 401, 403, 404
    and 429, every tool returns ["Error: HTTP <status>: <body>"], the body
    of the response in full. *)
Theorem X4_other_statuses_report_code_and_body utcoffset tok network (c : tool_call)
        (log : list request) (code : Z) (body : string) :
  usable tok ->
  other_failure code = true ->
  answered network (fun r => status_code r = code /\ text r = body) ->
  returned (run utcoffset tok network c log)
           ("Error: HTTP " ++ str_of_int code ++ ": " ++ body).
Proof.
  intros Htok Hcode Hnet. destruct (get_client_usable tok Htok) as [cl Hcl].
  apply (run_of_raising_body utcoffset tok network c log (HTTPStatusError code body)).
  apply (body_transport_raise utcoffset tok network c log cl); [assumption|].
  intros. now apply request_other_status.
Qed.

Lemma X4_other_statuses_report_code_and_body_witness :
  returned (run utc token (answers 503 "Service Unavailable" None) (GetProfile markdown) [])
           ("Error: HTTP " ++ str_of_int 503 ++ ": " ++ "Service Unavailable").
Proof.
  apply (X4_other_statuses_report_code_and_body utc token
           (answers 503 "Service Unavailable" None) (GetProfile markdown) [] 503
           "Service Unavailable" usable_token).
  - reflexivity.
  - apply answers_answered. split; reflexivity.
Defined.

(** X5.  With a token in the environment, when the request itself fails
    with an exception (a timeout, a refused connection) every tool returns
    [_handle_error] of that exception, after its one request; for a timeout
    that is ["Error: Request timed out. Try again."]. *)
Theorem X5_transport_exceptions_are_reported utcoffset tok network (c : tool_call)
        (log : list request) (e : exception) :
  usable tok ->
  (forall req, network req = Fails e) ->
  returned (run utcoffset tok network c log) (_handle_error e)
  /\ (e = TimeoutException ->
      returned (run utcoffset tok network c log) "Error: Request timed out. Try again.").
Proof.
  intros Htok Hnet. destruct (get_client_usable tok Htok) as [cl Hcl].
  assert (H : returned (run utcoffset tok network c log) (_handle_error e)).
  { apply (run_of_raising_body utcoffset tok network c log e).
    apply (body_transport_raise utcoffset tok network c log cl); [assumption|].
    intros. unfold _request. now rewrite Hnet. }
  split; [exact H|]. intros ->. exact H.
Qed.

Lemma X5_transport_exceptions_are_reported_witness :
  returned (run utc token (fun _ => Fails (PyExc "ConnectError" "All connection attempts failed"))
                (GetCategories markdown) [])
           (_handle_error (PyExc "ConnectError" "All connection attempts failed")).
Proof.
  apply (X5_transport_exceptions_are_reported utc token
           (fun _ => Fails (PyExc "ConnectError" "All connection attempts failed"))
           (GetCategories markdown) []
           (PyExc "ConnectError" "All connection attempts failed") usable_token).
  reflexivity.
Defined.


(** *** The tools that write *)

Lemma request_succeeds network cl m ep p j log :
  answered network succeeds ->
  exists v, _request network cl m ep p j log = (Ok v, (log ++ [sent cl m ep p j])%list).
Proof.
  intros Hnet. pose proof (request_logged network cl m ep p j log) as Hlog.
  assert (H : exists v, fst (_request network cl m ep p j log) = Ok v).
  { unfold _request.
    match goal with |- context [network ?req] => destruct (Hnet req) as (r & -> & Hs & Hb) end.
    unfold raise_for_status.
    repeat match goal with
           | |- context [status_code r =? ?k] =>
               destruct (Z.eqb_spec (status_code r) k); [lia|]
           end.
    destruct (200 <=? status_code r) eqn:E1; [|apply Z.leb_gt in E1; lia].
    destruct (status_code r <=? 299) eqn:E2; [|apply Z.leb_gt in E2; lia].
    cbn [andb].
    destruct (Z.eqb_spec (status_code r) 204); [eexists; reflexivity|].
    destruct Hb as [Hb | [v Hv]]; [contradiction|]. rewrite Hv. eexists; reflexivity. }
  destruct H as [v Hv]. exists v.
  destruct (_request network cl m ep p j log) as [r l]. cbn [fst snd] in *. now subst.
Qed.

(** X6.  With a token in the environment and an upstream that accepts the
    request, marking entries as read sends one POST to the markers endpoint
    whose body names the action [markAsRead], the type [entries] and the
    identifiers as given, and returns the sentence with their number;
    keeping entries unread does the same with the action [keepUnread].
    Nothing of the response is shown. *)
Theorem X6_entry_marks_send_ids_and_confirm_count (t : string) network
        (ids : list string) (log : list request) :
  t <> EmptyString ->
  answered network succeeds ->
  feedly_mark_as_read (Some t) network {| mar_entry_ids := ids |} log
  = (Ok ("Successfully marked " ++ str_of_int (Z.of_nat (List.length ids))
         ++ " article(s) as read."),
     (log ++ [sent (new_client t) "POST" "/markers" None
                   (Some (marker "markAsRead" "entries" "entryIds" ids None))])%list)
  /\ feedly_keep_unread (Some t) network {| ku_entry_ids := ids |} log
     = (Ok ("Successfully kept " ++ str_of_int (Z.of_nat (List.length ids))
            ++ " article(s) as unread."),
        (log ++ [sent (new_client t) "POST" "/markers" None
                      (Some (marker "keepUnread" "entries" "entryIds" ids None))])%list).
Proof.
  intros Ht Hnet.
  unfold feedly_mark_as_read, feedly_keep_unread, try_except, feedly_mark_as_read_body,
    feedly_keep_unread_body, Client.mark_as_read, Client.keep_unread.
  rewrite (get_client_token t Ht). cbv beta iota delta [bind_io lift ret].
  split;
    match goal with
    | |- context [_request ?n ?cl ?m ?ep ?p ?j ?lg] =>
        destruct (request_succeeds n cl m ep p j lg Hnet) as [v ->]
    end; reflexivity.
Qed.

Lemma no_content_succeeds : answered no_content succeeds.
Proof.
  apply answers_answered. split; [cbn; lia | left; reflexivity].
Defined.

Lemma X6_entry_marks_send_ids_and_confirm_count_witness :
  feedly_mark_as_read (Some "token") no_content {| mar_entry_ids := ["a"; "b"] |} []
  = (Ok ("Successfully marked " ++ str_of_int (Z.of_nat (List.length ["a"; "b"]))
         ++ " article(s) as read."),
     ([] ++ [sent (new_client "token") "POST" "/markers" None
                  (Some (marker "markAsRead" "entries" "entryIds" ["a"; "b"] None))])%list).
Proof.
  apply (proj1 (X6_entry_marks_send_ids_and_confirm_count "token" no_content ["a"; "b"] []
                  ltac:(discriminate) no_content_succeeds)).
Defined.





(** *** Truncation *)

Lemma substring0_append (n : nat) (s t : string) :
  (n <= String.length s)%nat -> substring 0 n (s ++ t) = substring 0 n s.
Proof.
  revert s. induction n as [|n IH]; intros [|c s] H; cbn in *; try reflexivity; try lia.
  - now destruct t.
  - rewrite IH; [reflexivity | lia].
Qed.

(** X8.  Capping is idempotent, and keeps the head of the content: a capped
    response passes through the cap unchanged, and the first 24,950
    characters of a capped response are the first 24,950 characters of the
    content. *)
Theorem X8_truncate_response_idempotent (content : string) :
  _truncate_response (_truncate_response content) = _truncate_response content
  /\ slice_to (CHARACTER_LIMIT - 50) (_truncate_response content)
     = slice_to (CHARACTER_LIMIT - 50) content.
Proof.
  split.
  - apply truncate_response_short, truncate_response_bound.
  - destruct (Z_le_gt_dec (PyStr.len content) CHARACTER_LIMIT) as [H|H].
    + now rewrite truncate_response_short.
    + destruct (truncate_response_long content) as [-> _]; [lia|].
      unfold slice_to. change (CHARACTER_LIMIT - 50 <? 0) with false. cbv iota.
      rewrite substring0_append.
      * apply substring0_all. rewrite length_substring0. lia.
      * rewrite length_substring0. unfold PyStr.len, CHARACTER_LIMIT in *. lia.
Qed.

(** X9.  For a limit of at least 3, [_truncate_text] of a string is a
    string no longer than the limit: the text itself when it fits, else
    exactly [max_length] characters ending in ["..."]; and truncating the
    result again changes nothing.  Nothing ([None]) becomes the empty
    string. *)
Theorem X9_truncate_text_within_limit (text : string) (max_length : Z) :
  3 <= max_length ->
  exists r,
    _truncate_text (VStr text) max_length = Ok (VStr r)
    /\ PyStr.len r <= max_length
    /\ (PyStr.len text <= max_length -> r = text)
    /\ (max_length < PyStr.len text ->
        PyStr.len r = max_length /\ r = slice_to (max_length - 3) text ++ "...")
    /\ _truncate_text (VStr r) max_length = Ok (VStr r)
    /\ _truncate_text VNone max_length = Ok (VStr EmptyString).
Proof.
  intros Hmax. unfold _truncate_text, Py.len, cut. cbn [bind].
  destruct (PyStr.len text <=? max_length) eqn:E.
  - apply Z.leb_le in E. exists text. rewrite (proj2 (Z.leb_le _ _) E).
    repeat split; try reflexivity; try assumption; lia.
  - apply Z.leb_gt in E. exists (slice_to (max_length - 3) text ++ "...").
    assert (Hlen : PyStr.len (slice_to (max_length - 3) text ++ "...") = max_length).
    { rewrite len_append, len_slice_to by lia. change (PyStr.len "...") with 3. lia. }
    rewrite Hlen, Z.leb_refl. repeat split; try reflexivity; try lia.
Qed.

Lemma X9_truncate_text_within_limit_witness :
  exists r,
    _truncate_text (VStr "abcdefghij") 5 = Ok (VStr r)
    /\ PyStr.len r <= 5
    /\ (PyStr.len "abcdefghij" <= 5 -> r = "abcdefghij")
    /\ (5 < PyStr.len "abcdefghij" ->
        PyStr.len r = 5 /\ r = slice_to (5 - 3) "abcdefghij" ++ "...")
    /\ _truncate_text (VStr r) 5 = Ok (VStr r)
    /\ _truncate_text VNone 5 = Ok (VStr EmptyString).
Proof. apply (X9_truncate_text_within_limit "abcdefghij" 5). lia. Defined.

(** *** Empty listings *)

(** X10.  With a token in the environment, when the upstream answers a
    listing tool asked for markdown with an empty payload (an empty list,
    or any other value Python takes for false) or with no content at all
    (204), the tool returns its sentence for the empty case, and not an
    empty string: one each for subscriptions, categories, tags and the
    multi-entry fetch. *)
Theorem X10_empty_listings_have_a_sentence tok network (log : list request) :
  usable tok ->
  (exists v, truthy v = false /\ answered network (carries v))
  \/ answered network (fun r => status_code r = 204) ->
  returned (feedly_get_subscriptions tok network markdown log) "No subscriptions found."
  /\ returned (feedly_get_categories tok network markdown log) "No categories found."
  /\ returned (feedly_get_tags tok network markdown log) "No tags found."
  /\ forall utcoffset ids,
       returned (feedly_get_entries utcoffset tok network
                   {| ges_entry_ids := ids; ges_response_format := MARKDOWN |} log)
                "No articles found.".
Proof.
  intros Htok Hnet. destruct (get_client_usable tok Htok) as [cl Hcl].
  assert (Hreq : forall m ep p j lg,
             exists v, truthy v = false /\ fst (_request network cl m ep p j lg) = Ok v).
  { intros. destruct Hnet as [(v & Hv & Hnet) | Hnet].
    - exists v. destruct (request_carries network cl m ep p j lg v Hnet) as [req ->]. auto.
    - exists VNone. split; [reflexivity|]. unfold _request, raise_for_status.
      match goal with |- context [network ?req] => destruct (Hnet req) as (r & -> & Hs) end.
      rewrite Hs. reflexivity. }
  unfold returned, feedly_get_subscriptions, feedly_get_categories, feedly_get_tags,
    feedly_get_entries, try_except, feedly_get_subscriptions_body,
    feedly_get_categories_body, feedly_get_tags_body, feedly_get_entries_body,
    get_subscriptions, get_categories, get_tags, get_entries.
  rewrite Hcl. cbv beta iota delta [bind_io lift ret].
  repeat split; intros;
    match goal with
    | |- context [_request ?n ?c ?m ?ep ?p ?j ?lg] =>
        destruct (Hreq m ep p j lg) as (v & Hv & Hr);
        destruct (_request n c m ep p j lg) as [r l]; cbn [fst] in Hr; subst r
    end;
    cbn [srf_response_format markdown ges_response_format];
    unfold _format_subscriptions_markdown, _format_categories_markdown,
      _format_tags_markdown, _format_entries_markdown;
    rewrite Hv; reflexivity.
Qed.

Lemma X10_empty_listings_have_a_sentence_witness :
  returned (feedly_get_subscriptions token (ok_json (VList [])) markdown [])
           "No subscriptions found."
  /\ returned (feedly_get_tags token no_content markdown []) "No tags found.".
Proof.
  split.
  - apply (X10_empty_listings_have_a_sentence token (ok_json (VList [])) [] usable_token).
    left. exists (VList []). split; [reflexivity|].
    apply answers_answered. repeat split; try discriminate; vm_compute; discriminate.
  - apply (X10_empty_listings_have_a_sentence token no_content [] usable_token).
    right. apply answers_answered. reflexivity.
Defined.


(** *** Entry blocks *)





(** X12.  An entry whose [alternate] list is there and is empty cannot be
    rendered: once its date is formatted, taking the first alternate raises
    [IndexError], whether content is asked for or not. *)
Theorem X12_empty_alternate_raises utcoffset (kvs : list (string * value))
        (include_content : bool) :
  lookup "alternate" kvs = Some (VList []) ->
  (exists published,
      _format_timestamp utcoffset
        (match lookup "published" kvs with Some v => v | None => VNone end)
      = Ok published) ->
  _format_entry_markdown utcoffset (VDict kvs) include_content
  = Raise (PyExc "IndexError" "list index out of range").
Proof.
  intros Halt [published Hp]. unfold _format_entry_markdown, get. cbn [bind].
  rewrite Hp, Halt. reflexivity.
Qed.

Lemma X12_empty_alternate_raises_witness :
  _format_entry_markdown utc (VDict [("title", VStr "T"); ("alternate", VList [])]) false
  = Raise (PyExc "IndexError" "list index out of range").
Proof.
  apply (X12_empty_alternate_raises utc [("title", VStr "T"); ("alternate", VList [])] false).
  - reflexivity.
  - exists "Unknown". reflexivity.
Defined.

Lemma mapM_first_failure {A B} (f : A -> result B) (pre : list A) (a : A) (post : list A)
      (x : exception) :
  (forall b, In b pre -> exists r, f b = Ok r) ->
  f a = Raise x ->
  mapM f (pre ++ a :: post) = Raise x.
Proof.
  intros Hpre Ha. induction pre as [|b pre IH]; cbn [List.app mapM].
  - now rewrite Ha.
  - destruct (Hpre b (or_introl eq_refl)) as [r ->]. cbn [bind].
    rewrite IH; [reflexivity|]. intros c Hc. apply Hpre. now right.
Qed.

(** X13.  A listing is rendered whole or not at all: when the entries in
    front of one render and that one raises, rendering the list raises the
    same exception, whatever follows. *)
Theorem X13_one_failing_entry_fails_the_listing utcoffset (pre : list value) (e : value)
        (post : list value) (x : exception) (include_content : bool) :
  (forall b, In b pre -> exists s, _format_entry_markdown utcoffset b include_content = Ok s) ->
  _format_entry_markdown utcoffset e include_content = Raise x ->
  _format_entries_markdown utcoffset (VList (pre ++ e :: post)) include_content = Raise x.
Proof.
  intros Hpre He. unfold _format_entries_markdown.
  assert (Ht : truthy (VList (pre ++ e :: post)) = true) by (destruct pre; reflexivity).
  rewrite Ht. cbn [negb iter bind].
  rewrite (mapM_first_failure _ pre e post x Hpre He). reflexivity.
Qed.

Lemma X13_one_failing_entry_fails_the_listing_witness :
  _format_entries_markdown utc
    (VList ([sample_entry] ++ VDict [("alternate", VList [])] :: [sample_entry])) false
  = Raise (PyExc "IndexError" "list index out of range").
Proof.
  apply (X13_one_failing_entry_fails_the_listing utc [sample_entry]
           (VDict [("alternate", VList [])]) [sample_entry]
           (PyExc "IndexError" "list index out of range") false).
  - intros b [<- | []]. eexists. vm_compute. reflexivity.
  - vm_compute. reflexivity.
Defined.


(** *** Stream identifiers and tag labels *)

Lemma split_go_nonempty (sep : string) (s : string) :
  forall skip cur, split_go sep skip cur s <> [].
Proof.
  induction s as [|c s IH]; intros skip cur; cbn [split_go]; [discriminate|].
  destruct skip; [|apply IH].
  destruct (String.prefix sep (String c s)); [discriminate | apply IH].
Qed.

Lemma last_cons_nonempty {A} (a : A) (l : list A) (d : A) :
  l <> [] -> List.last (a :: l) d = List.last l d.
Proof. destruct l; [contradiction | reflexivity]. Qed.

(** The last piece of a split is the collected piece followed by what is
    left of the text, or a tail of the text. *)
Lemma split_go_last (sep : string) (s : string) :
  forall skip cur,
    List.last (split_go sep skip cur s) EmptyString = cur ++ drop skip s
    \/ exists pre, s = pre ++ List.last (split_go sep skip cur s) EmptyString.
Proof.
  induction s as [|c s IH]; intros skip cur.
  - left. cbn [split_go List.last]. destruct skip; cbn [drop]; now rewrite append_nil_r.
  - cbn [split_go]. destruct skip as [|k].
    + destruct (String.prefix sep (String c s)).
      * right. rewrite last_cons_nonempty by apply split_go_nonempty.
        destruct (IH (String.length sep - 1)%nat EmptyString) as [-> | [pre Hpre]].
        -- exists (String c (substring 0 (String.length sep - 1) s)).
           cbn [String.append]. now rewrite substring0_drop.
        -- exists (String c pre). cbn [String.append]. now rewrite <- Hpre.
      * destruct (IH O (cur ++ String c EmptyString)) as [-> | [pre Hpre]].
        -- left. cbn [drop]. now rewrite append_assoc.
        -- right. exists (String c pre). cbn [String.append]. now rewrite <- Hpre.
    + destruct (IH k cur) as [-> | [pre Hpre]].
      * left. reflexivity.
      * right. exists (String c pre). cbn [String.append]. now rewrite <- Hpre.
Qed.

Lemma last_piece_is_tail (sep s : string) : exists pre, s = pre ++ last_piece sep s.
Proof.
  unfold last_piece, split.
  destruct (split_go_last sep s O EmptyString) as [-> | H]; [|exact H].
  exists EmptyString. reflexivity.
Qed.

Lemma prefix_split (p s : string) :
  String.prefix p s = true -> s = p ++ drop (String.length p) s.
Proof.
  revert s. induction p as [|a p IH]; intros s H; [reflexivity|].
  destruct s as [|b s]; [discriminate|]. cbn [String.prefix] in H.
  destruct (ascii_dec a b) as [->|]; [|discriminate].
  cbn [String.append String.length drop]. now rewrite <- IH.
Qed.

(** X14.  A stream identifier that is a string is always classified: as a
    category when it contains ["/category/"], else as a tag when it
    contains ["/tag/"], else as a feed when it begins with ["feed/"], else
    as a plain stream.  The name shown is a tail of the identifier: for a
    feed the identifier without ["feed/"], for a plain stream the
    identifier itself. *)
Theorem X14_stream_identifiers_are_classified (s : string) :
  exists name kind,
    classify (VStr s) = Ok (name, kind)
    /\ (exists pre, s = pre ++ name)
    /\ kind = (if PyStr.contains "/category/" s then "Category"
               else if PyStr.contains "/tag/" s then "Tag"
               else if startswith "feed/" s then "Feed"
               else "Stream")
    /\ (kind = "Feed" -> s = "feed/" ++ name)
    /\ (kind = "Stream" -> name = s).
Proof.
  unfold classify, Py.contains, str_method. cbn [bind].
  destruct (PyStr.contains "/category/" s).
  - eexists _, _. split; [reflexivity|]. split; [apply last_piece_is_tail|].
    split; [reflexivity|]. split; discriminate.
  - destruct (PyStr.contains "/tag/" s).
    + eexists _, _. split; [reflexivity|]. split; [apply last_piece_is_tail|].
      split; [reflexivity|]. split; discriminate.
    + destruct (startswith "feed/" s) eqn:E.
      * eexists _, _. split; [reflexivity|].
        pose proof (prefix_split "feed/" s E) as Hs.
        split; [exists "feed/"; exact Hs|]. split; [reflexivity|].
        split; [intros _; exact Hs | discriminate].
      * eexists _, _. split; [reflexivity|].
        split; [exists EmptyString; reflexivity|]. split; [reflexivity|].
        split; [discriminate | reflexivity].
Qed.

(** X15.  The label of a tag is worked out from its identifier before the
    tag is asked for a label of its own.  So a tag whose identifier is a
    string (or is missing) shows its own label when it has one and else the
    last ["/"]-separated piece of the identifier; and a tag whose identifier
    is not a string cannot be rendered, label or no label. *)
Theorem X15_tag_label_comes_from_the_identifier (kvs : list (string * value)) :
  (forall s,
      lookup "id" kvs = Some (VStr s) \/ (lookup "id" kvs = None /\ s = EmptyString) ->
      tag_block (VDict kvs)
      = Ok ["- **" ++ str (match lookup "label" kvs with
                           | Some label => label
                           | None => VStr (last_piece "/" s)
                           end) ++ "**";
            "  - ID: `" ++ s ++ "`"])
  /\ (forall v,
        lookup "id" kvs = Some v -> (forall s, v <> VStr s) ->
        tag_block (VDict kvs) = Raise (AttributeError v "split")).
Proof.
  unfold tag_block, get, str_method. cbn [bind]. split.
  - intros s [H | [H ->]]; rewrite H; reflexivity.
  - intros v H Hv. rewrite H. destruct v; try reflexivity. now destruct (Hv s).
Qed.

Lemma X15_tag_label_comes_from_the_identifier_witness :
  tag_block (VDict [("id", VStr "user/u/tag/global.saved")])
  = Ok ["- **" ++ str (VStr (last_piece "/" "user/u/tag/global.saved")) ++ "**";
        "  - ID: `" ++ "user/u/tag/global.saved" ++ "`"]
  /\ tag_block (VDict [("id", VInt 7); ("label", VStr "seven")])
     = Raise (AttributeError (VInt 7) "split").
Proof.
  split.
  - apply (proj1 (X15_tag_label_comes_from_the_identifier
                    [("id", VStr "user/u/tag/global.saved")]) "user/u/tag/global.saved").
    left. reflexivity.
  - apply (proj2 (X15_tag_label_comes_from_the_identifier
                    [("id", VInt 7); ("label", VStr "seven")]) (VInt 7)).
    + reflexivity.
    + discriminate.
Defined.


(** *** JSON output *)

(** X16.  Asked for JSON, the profile, subscriptions, categories, tags,
    unread-counts and multi-entry tools pass the upstream payload through.
    With a token in the environment, on a payload built of [null],
    booleans, integers, strings of code points below 256, arrays and
    objects with no key twice, whose encoding is within the
    25,000-character cap: the tool returns [json.dumps(payload, indent=2)],
    and decoding the returned text gives the payload back. *)
Theorem X16_json_mode_passes_payload_through utcoffset tok network (c : tool_call)
        (payload : value) (log : list request) :
  usable tok ->
  passes_payload c = true ->
  answered network (carries payload) ->
  unique_keys payload ->
  PyStr.len (dumps payload) <= CHARACTER_LIMIT ->
  returned (run utcoffset tok network c log) (dumps payload)
  /\ loads (dumps payload) = Some (of_value payload).
Proof.
  intros Htok Hc Hnet Huk Hlen. destruct (get_client_usable tok Htok) as [cl Hcl].
  split; [|now apply loads_dumps].
  unfold returned. rewrite run_is_guarded. unfold try_except.
  destruct c as [p|p|p|p|p|p|p|p|p|p|p|p]; try discriminate Hc; cbn [passes_payload] in Hc;
    unfold_body; rewrite Hcl; cbv beta iota delta [bind_io lift ret];
    match goal with
    | |- context [_request ?n ?cl ?m ?ep ?pp ?j ?lg] =>
        destruct (request_carries n cl m ep pp j lg _ Hnet) as [req ->]
    end;
    match type of Hc with
    | match ?f with _ => _ end = true => destruct f; [discriminate Hc|]
    end; cbn [fst]; now rewrite truncate_response_short.
Qed.

Lemma X16_json_mode_passes_payload_through_witness :
  returned (run utc token (ok_json (VList [sample_entry])) (GetSubscriptions as_json) [])
           (dumps (VList [sample_entry]))
  /\ loads (dumps (VList [sample_entry])) = Some (of_value (VList [sample_entry])).
Proof.
  apply (X16_json_mode_passes_payload_through utc token (ok_json (VList [sample_entry]))
           (GetSubscriptions as_json) (VList [sample_entry]) [] usable_token).
  - reflexivity.
  - apply answers_answered. repeat split; try discriminate; vm_compute; discriminate.
  - repeat first [constructor | progress cbn [snd map fst In] | intuition discriminate].
  - vm_compute. discriminate.
Defined.

Lemma member_found (k : string) (d : list (list N * document)) (v : document) :
  member k (DDict d) = Some v -> In (codes k, v) d.
Proof.
  unfold member. destruct (find _ d) as [[k' v']|] eqn:E; [|discriminate].
  intros H. injection H as <-. apply find_some in E as [Hin Hk]. cbn [fst snd] in *.
  apply codes_eqb_eq in Hk. now rewrite Hk.
Qed.

(** X17.  Asked for JSON, the stream-contents formatter writes a text that
    decodes to an object of two or three fields: [items], the upstream
    items as they came; [count], their number; and [continuation], the
    upstream token, there exactly when the upstream gave one that Python
    takes for true.  A payload without items gives the empty list and the
    count 0.  (The payload is built of [null], booleans, integers, strings
    of code points below 256, arrays and objects with no key twice.) *)
Theorem X17_stream_envelope_round_trip utcoffset (data : list (string * value))
        (items : list value) :
  unique_keys (VDict data) ->
  lookup "items" data = Some (VList items) \/ (lookup "items" data = None /\ items = []) ->
  let continuation := match lookup "continuation" data with Some c => c | None => VNone end in
  exists text doc,
    _format_stream_contents utcoffset (VDict data) JSON = Ok text
    /\ loads text = Some doc
    /\ member "items" doc = Some (DList (map of_value items))
    /\ member "count" doc = Some (DInt (Z.of_nat (List.length items)))
    /\ member "continuation" doc
       = (if truthy continuation then Some (of_value continuation) else None)
    /\ (forall k v, member k doc = Some v ->
                    k = "items" \/ k = "count" \/ (k = "continuation" /\ truthy continuation = true)).
Proof.
  intros Huk Hitems continuation.
  destruct (stream_contents_document utcoffset data items Huk Hitems) as [Hdoc Hloads].
  fold continuation in Hdoc, Hloads.
  eexists _, _. split; [exact Hdoc|]. split; [exact Hloads|].
  destruct (truthy continuation); cbn [List.app of_value map fst snd].
  - split; [reflexivity|]. split; [reflexivity|]. split; [reflexivity|].
    intros k v Hk. apply member_found in Hk. cbn [In] in Hk.
    destruct Hk as [E|[E|[E|[]]]]; injection E as E _; apply codes_injective in E;
      subst k; auto.
  - split; [reflexivity|]. split; [reflexivity|]. split; [reflexivity|].
    intros k v Hk. apply member_found in Hk. cbn [In] in Hk.
    destruct Hk as [E|[E|[]]]; injection E as E _; apply codes_injective in E;
      subst k; auto.
Qed.

Lemma X17_stream_envelope_round_trip_witness :
  exists text doc,
    _format_stream_contents utc
      (VDict [("items", VList [sample_entry]); ("continuation", VStr "next")]) JSON = Ok text
    /\ loads text = Some doc
    /\ member "items" doc = Some (DList (map of_value [sample_entry]))
    /\ member "count" doc = Some (DInt (Z.of_nat (List.length [sample_entry])))
    /\ member "continuation" doc
       = (if truthy (VStr "next") then Some (of_value (VStr "next")) else None)
    /\ (forall k v, member k doc = Some v ->
                    k = "items" \/ k = "count"
                    \/ (k = "continuation" /\ truthy (VStr "next") = true)).
Proof.
  apply (X17_stream_envelope_round_trip utc
           [("items", VList [sample_entry]); ("continuation", VStr "next")] [sample_entry]).
  - repeat first [constructor | progress cbn [snd map fst In] | intuition discriminate].
  - left. reflexivity.
Defined.


(** *** Validation *)

Lemma all_str_inv (field : string) (l : list value) :
  forall i ss, all_str field i l = Valid ss -> l = map VStr ss.
Proof.
  induction l as [|v l IH]; intros i ss H; cbn [all_str] in H.
  - injection H as <-. reflexivity.
  - destruct v; try discriminate H.
    destruct (all_str field (i + 1) l) as [ss'|e] eqn:E; cbn [vbind] in H; [|discriminate H].
    injection H as <-. cbn [map]. now rewrite (IH _ _ E).
Qed.

Lemma required_ids_inv (field : string) (kvs : list (string * value)) (ids : list string) :
  required_ids field kvs = Valid ids ->
  lookup field kvs = Some (strs ids) /\ batch_ok ids = true.
Proof.
  unfold required_ids, fail. intros H.
  destruct (lookup field kvs) as [[| | | |l|]|]; try discriminate H.
  destruct (Z.of_nat (List.length l) <? 1) eqn:E1; [discriminate H|].
  destruct (1000 <? Z.of_nat (List.length l)) eqn:E2; [discriminate H|].
  pose proof (all_str_inv field l 0 ids H) as ->. split; [reflexivity|].
  rewrite length_map in E1, E2. unfold batch_ok, Constants.MAX_BATCH_SIZE.
  apply Z.ltb_ge in E1, E2. apply andb_true_intro. split; apply Z.leb_le; lia.
Qed.

Lemma model_inv {A} (fields : list string) (build : list (string * value) -> validation A)
      (raw : value) (a : A) :
  model fields build raw = Valid a ->
  exists kvs, raw = VDict kvs /\ build kvs = Valid a /\ first_extra fields kvs = None.
Proof.
  unfold model. intros H. destruct raw as [| | | | |kvs]; try discriminate H.
  exists kvs. destruct (build kvs) as [b|e]; cbn [vbind] in H; [|discriminate H].
  destruct (first_extra fields kvs); [discriminate H|]. injection H as <-. auto.
Qed.

(** X18.  A list-of-identifiers model that validation builds holds the
    identifiers of the raw arguments, each one and in their order, and
    between 1 and 1000 of them: this for mark-as-read, keep-unread and the
    multi-entry fetch. *)
Theorem X18_built_models_hold_the_raw_identifiers (raw : value) :
  (forall p, validate_MarkAsReadInput raw = Valid p ->
             field "entry_ids" raw = Some (strs (mar_entry_ids p))
             /\ valid_MarkAsReadInput p = true)
  /\ (forall p, validate_KeepUnreadInput raw = Valid p ->
                field "entry_ids" raw = Some (strs (ku_entry_ids p))
                /\ valid_KeepUnreadInput p = true)
  /\ (forall p, validate_GetEntriesInput raw = Valid p ->
                field "entry_ids" raw = Some (strs (ges_entry_ids p))
                /\ valid_GetEntriesInput p = true).
Proof.
  split; [|split]; intros p H; apply model_inv in H as (kvs & -> & H & _);
    destruct (required_ids "entry_ids" kvs) as [ids|e] eqn:E; cbn [vbind] in H;
    try discriminate H; apply required_ids_inv in E as [E1 E2].
  - injection H as <-. split; [exact E1 | exact E2].
  - injection H as <-. split; [exact E1 | exact E2].
  - destruct (optional_format kvs); cbn [vbind] in H; [|discriminate H].
    injection H as <-. split; [exact E1 | exact E2].
Qed.

Lemma X18_built_models_hold_the_raw_identifiers_witness :
  field "entry_ids" (VDict [("entry_ids", VList [VStr "a"; VStr "b"])])
  = Some (strs (mar_entry_ids {| mar_entry_ids := ["a"; "b"] |}))
  /\ valid_MarkAsReadInput {| mar_entry_ids := ["a"; "b"] |} = true.
Proof.
  apply (proj1 (X18_built_models_hold_the_raw_identifiers
                  (VDict [("entry_ids", VList [VStr "a"; VStr "b"])]))
               {| mar_entry_ids := ["a"; "b"] |}).
  reflexivity.
Defined.

Lemma first_extra_found (fields : list string) (kvs : list (string * value)) (k : string) :
  In k (map fst kvs) -> existsb (String.eqb k) fields = false ->
  exists k', first_extra fields kvs = Some k'.
Proof.
  induction kvs as [|[k0 v0] kvs IH]; intros Hin Hk; [contradiction|].
  cbn [first_extra]. destruct (existsb (String.eqb k0) fields) eqn:E; [|eauto].
  destruct Hin as [<- | Hin]; [cbn [fst] in Hk; congruence|]. now apply IH.
Qed.

Lemma model_extra {A} (fields : list string) (build : list (string * value) -> validation A)
      (kvs : list (string * value)) (k : string) :
  In k (map fst kvs) -> existsb (String.eqb k) fields = false ->
  exists e, model fields build (VDict kvs) = Invalid e.
Proof.
  intros Hin Hk. unfold model. destruct (build kvs); cbn [vbind]; [|eauto].
  destruct (first_extra_found fields kvs k Hin Hk) as [k' ->]. unfold fail. eauto.
Qed.

(** X19.  The input models are closed: raw arguments that hold a key which
    is no field of the model are refused, whatever else they hold, and the
    invocation ends there with the log of requests as it was. *)
Theorem X19_unknown_fields_are_refused utcoffset tok network
        (kvs : list (string * value)) (k : string) (log : list request) :
  In k (map fst kvs) ->
  k <> "entry_ids" -> k <> "entry_id" -> k <> "response_format" ->
  (exists e, call_mark_as_read tok network (VDict kvs) log = (Rejected e, log))
  /\ (exists e, call_keep_unread tok network (VDict kvs) log = (Rejected e, log))
  /\ (exists e, call_get_entries utcoffset tok network (VDict kvs) log = (Rejected e, log))
  /\ (exists e, call_get_entry utcoffset tok network (VDict kvs) log = (Rejected e, log))
  /\ (exists e, call_get_profile tok network (VDict kvs) log = (Rejected e, log)).
Proof.
  intros Hin H1 H2 H3.
  assert (E1 : String.eqb k "entry_ids" = false) by now apply String.eqb_neq.
  assert (E2 : String.eqb k "entry_id" = false) by now apply String.eqb_neq.
  assert (E3 : String.eqb k "response_format" = false) by now apply String.eqb_neq.
  unfold call_mark_as_read, call_keep_unread, call_get_entries, call_get_entry,
    call_get_profile, invoke, validate_MarkAsReadInput, validate_KeepUnreadInput,
    validate_GetEntriesInput, validate_GetEntryInput, validate_SimpleResponseFormatInput.
  repeat split;
    match goal with
    | |- context [model ?fields ?build (VDict kvs)] =>
        destruct (model_extra fields build kvs k Hin) as [e ->];
        [cbn [existsb]; rewrite ?E1, ?E2, ?E3; reflexivity | eauto]
    end.
Qed.

Lemma X19_unknown_fields_are_refused_witness :
  exists e,
    call_mark_as_read token no_content
      (VDict [("entry_ids", VList [VStr "a"]); ("dry_run", VBool true)]) []
    = (Rejected e, []).
Proof.
  apply (X19_unknown_fields_are_refused utc token no_content
           [("entry_ids", VList [VStr "a"]); ("dry_run", VBool true)] "dry_run" []).
  - cbn. auto.
  - discriminate.
  - discriminate.
  - discriminate.
Defined.

(** X20.  The output format is one of two words: raw arguments whose
    [response_format] is anything but the string ["markdown"] or the string
    ["json"] are refused by every model that has the field, and raw
    arguments without it get markdown. *)
Theorem X20_response_format_is_markdown_or_json (kvs : list (string * value)) :
  (forall v, lookup "response_format" kvs = Some v ->
             v <> VStr "markdown" -> v <> VStr "json" ->
             (exists e, validate_SimpleResponseFormatInput (VDict kvs) = Invalid e)
             /\ (exists e, validate_GetEntryInput (VDict kvs) = Invalid e)
             /\ (exists e, validate_GetEntriesInput (VDict kvs) = Invalid e))
  /\ (kvs = [] -> validate_SimpleResponseFormatInput (VDict kvs) = Valid markdown).
Proof.
  split; [|intros ->; reflexivity].
  intros v Hv Hm Hj.
  assert (Hf : exists e, optional_format kvs = Invalid e).
  { unfold optional_format, fail. rewrite Hv. destruct v; eauto.
    destruct (String.eqb_spec s "markdown"); [subst; contradiction|].
    destruct (String.eqb_spec s "json"); [subst; contradiction | eauto]. }
  destruct Hf as [e He].
  unfold validate_SimpleResponseFormatInput, validate_GetEntryInput,
    validate_GetEntriesInput, model. rewrite He. cbn [vbind]. repeat split.
  - eauto.
  - destruct (required_str "entry_id" kvs); cbn [vbind]; eauto.
  - destruct (required_ids "entry_ids" kvs); cbn [vbind]; eauto.
Qed.

Lemma X20_response_format_is_markdown_or_json_witness :
  (exists e, validate_SimpleResponseFormatInput (VDict [("response_format", VStr "JSON")])
             = Invalid e)
  /\ validate_SimpleResponseFormatInput (VDict []) = Valid markdown.
Proof.
  split.
  - apply (proj1 (X20_response_format_is_markdown_or_json [("response_format", VStr "JSON")])
                 (VStr "JSON")); [reflexivity | discriminate | discriminate].
  - apply (proj2 (X20_response_format_is_markdown_or_json [])). reflexivity.
Defined.


(** *** Requests of the reading tools *)

Lemma quote_char_safe (c : ascii) : all_chars path_safe (quote_char c) = true.
Proof. destruct c as [[] [] [] [] [] [] [] []]; reflexivity. Qed.

Lemma all_chars_append (P : ascii -> bool) (s t : string) :
  all_chars P (s ++ t) = all_chars P s && all_chars P t.
Proof.
  induction s as [|c s IH]; cbn [String.append all_chars]; [reflexivity|].
  now rewrite IH, andb_assoc.
Qed.

Lemma quote_safe (s : string) : all_chars path_safe (quote s) = true.
Proof.
  induction s as [|c s IH]; [reflexivity|].
  cbn [quote]. now rewrite all_chars_append, quote_char_safe, IH.
Qed.

Lemma quote_unreserved (s : string) : all_chars unreserved s = true -> quote s = s.
Proof.
  induction s as [|c s IH]; [reflexivity|]. cbn [all_chars quote]. intros H.
  apply andb_prop in H as [Hc Hs]. unfold quote_char. rewrite Hc, (IH Hs). reflexivity.
Qed.

Lemma safe_has_no_slash (s : string) :
  all_chars path_safe s = true -> PyStr.contains "/" s = false.
Proof.
  induction s as [|c s IH]; [reflexivity|]. cbn [all_chars]. intros H.
  apply andb_prop in H as [Hc Hs]. cbn [PyStr.contains String.prefix].
  rewrite (IH Hs), orb_false_r.
  destruct (ascii_dec "/" c) as [<-|]; [discriminate Hc | reflexivity].
Qed.

(** X21.  The single-entry tool asks for the entry by a path of one
    segment: with a token in the environment its one request is a GET of
    [/entries/] followed by the quoted identifier, which is made of
    unreserved characters and percent signs only and so holds no slash; an
    identifier of unreserved characters is sent as it is. *)
Theorem X21_entry_identifier_is_one_path_segment utcoffset (t : string) network
        (p : GetEntryInput) (log : list request) :
  t <> EmptyString ->
  snd (feedly_get_entry utcoffset (Some t) network p log)
  = (log ++ [sent (new_client t) "GET" ("/entries/" ++ quote (ge_entry_id p)) None None])%list
  /\ all_chars path_safe (quote (ge_entry_id p)) = true
  /\ PyStr.contains "/" (quote (ge_entry_id p)) = false
  /\ (all_chars unreserved (ge_entry_id p) = true -> quote (ge_entry_id p) = ge_entry_id p).
Proof.
  intros Ht. split; [|split; [apply quote_safe | split;
                               [apply safe_has_no_slash, quote_safe | apply quote_unreserved]]].
  unfold feedly_get_entry, try_except, feedly_get_entry_body, get_entry.
  rewrite (get_client_token t Ht). cbv beta iota delta [bind_io lift ret].
  match goal with
  | |- context [_request ?n ?cl ?m ?ep ?pp ?j ?lg] =>
      pose proof (request_logged n cl m ep pp j lg) as Hlog;
      destruct (_request n cl m ep pp j lg) as [[v|e] l]
  end; cbn [snd] in Hlog; subst l; [|reflexivity].
  repeat body_step; reflexivity.
Qed.

Lemma X21_entry_identifier_is_one_path_segment_witness :
  snd (feedly_get_entry utc (Some "token") no_content
         {| ge_entry_id := "a/b+c="; ge_response_format := MARKDOWN |} [])
  = ([] ++ [sent (new_client "token") "GET" ("/entries/" ++ quote "a/b+c=") None None])%list.
Proof.
  apply (proj1 (X21_entry_identifier_is_one_path_segment utc "token" no_content
                  {| ge_entry_id := "a/b+c="; ge_response_format := MARKDOWN |} []
                  ltac:(discriminate))).
Defined.

Lemma stream_query_built (p : GetStreamContentsInput) (network : request -> reply)
      (cl : FeedlyClient) (log : list request) :
  snd (get_stream_contents network cl (gsc_stream_id p) (gsc_count p) (gsc_unread_only p)
         (gsc_continuation p) (ranked_str (gsc_ranked p)) log)
  = (log ++ [sent cl "GET" "/streams/contents" (Some (stream_query p)) None])%list.
Proof.
  unfold get_stream_contents. rewrite request_logged. unfold stream_query.
  destruct (gsc_unread_only p), (gsc_continuation p) as [c|];
    try destruct (String.eqb c EmptyString); reflexivity.
Qed.

(** X22.  With a token in the environment, the one request of the
    stream-contents tool is a GET of [/streams/contents] whose query holds
    the stream identifier, the count and the order, then [unreadOnly] as
    ["true"] only when unread articles alone are asked for, then the
    continuation token, as given, only when one is given and is not
    empty. *)
Theorem X22_stream_query_echoes_the_input utcoffset (t : string) network
        (p : GetStreamContentsInput) (log : list request) :
  t <> EmptyString ->
  snd (feedly_get_stream_contents utcoffset (Some t) network p log)
  = (log ++ [sent (new_client t) "GET" "/streams/contents" (Some (stream_query p)) None])%list
  /\ lookup "streamId" (stream_query p) = Some (VStr (gsc_stream_id p))
  /\ lookup "count" (stream_query p) = Some (VInt (gsc_count p))
  /\ lookup "ranked" (stream_query p) = Some (VStr (ranked_str (gsc_ranked p)))
  /\ lookup "unreadOnly" (stream_query p)
     = (if gsc_unread_only p then Some (VStr "true") else None)
  /\ lookup "continuation" (stream_query p)
     = match gsc_continuation p with
       | Some c => if String.eqb c EmptyString then None else Some (VStr c)
       | None => None
       end.
Proof.
  intros Ht.
  split;
    [|unfold stream_query;
      destruct (gsc_unread_only p), (gsc_continuation p) as [c|];
      try destruct (String.eqb c EmptyString); repeat split; reflexivity].
  unfold feedly_get_stream_contents, try_except, feedly_get_stream_contents_body.
  rewrite (get_client_token t Ht). cbv beta iota delta [bind_io lift ret].
  pose proof (stream_query_built p network (new_client t) log) as Hlog.
  destruct (get_stream_contents network (new_client t) (gsc_stream_id p) (gsc_count p)
              (gsc_unread_only p) (gsc_continuation p) (ranked_str (gsc_ranked p)) log)
    as [[v|e] l]; cbn [snd] in Hlog; subst l; [|reflexivity].
  destruct (_format_stream_contents utcoffset v (gsc_response_format p)); reflexivity.
Qed.

Lemma X22_stream_query_echoes_the_input_witness :
  snd (feedly_get_stream_contents utc (Some "token") no_content
         {| gsc_stream_id := "feed/a"; gsc_count := 5; gsc_unread_only := false;
            gsc_continuation := Some "next"; gsc_ranked := oldest;
            gsc_response_format := MARKDOWN |} [])
  = ([] ++ [sent (new_client "token") "GET" "/streams/contents"
                 (Some [("streamId", VStr "feed/a"); ("count", VInt 5);
                        ("ranked", VStr "oldest"); ("continuation", VStr "next")]) None])%list.
Proof.
  apply (proj1 (X22_stream_query_echoes_the_input utc "token" no_content
           {| gsc_stream_id := "feed/a"; gsc_count := 5; gsc_unread_only := false;
              gsc_continuation := Some "next"; gsc_ranked := oldest;
              gsc_response_format := MARKDOWN |} [] ltac:(discriminate))).
Defined.


(** *** Timestamps that are no numbers *)

(** X23.  On a timestamp that is a string, a list or a dictionary the
    division in [_format_timestamp] raises a [TypeError] that names the
    type, and the [except (ValueError, OSError)] clause lets it through.
    So an entry whose [published] field holds such a value cannot be
    rendered, with or without its content, and the single-entry tool asked
    for markdown returns the error string of that [TypeError]. *)
Theorem X23_non_numeric_timestamp_raises utcoffset (v : value) :
  type_name v = "str" \/ type_name v = "list" \/ type_name v = "dict" ->
  let message := "unsupported operand type(s) for /: '" ++ type_name v ++ "' and 'int'" in
  _format_timestamp utcoffset v = Raise (PyExc "TypeError" message)
  /\ (forall (kvs : list (string * value)) (include_content : bool),
         lookup "published" kvs = Some v ->
         _format_entry_markdown utcoffset (VDict kvs) include_content
         = Raise (PyExc "TypeError" message))
  /\ (forall tok network (id : string) (kvs : list (string * value)) (log : list request),
         usable tok ->
         answered network (carries (VList [VDict kvs])) ->
         lookup "published" kvs = Some v ->
         returned (feedly_get_entry utcoffset tok network
                     {| ge_entry_id := id; ge_response_format := MARKDOWN |} log)
                  ("Error: TypeError: " ++ message)).
Proof.
  intros Hv message.
  assert (Hts : _format_timestamp utcoffset v = Raise (PyExc "TypeError" message)).
  { destruct v as [|b|n|s|l|d]; cbn [type_name] in Hv;
      try (destruct Hv as [Hv|[Hv|Hv]]; discriminate Hv); reflexivity. }
  assert (Hentry : forall (kvs : list (string * value)) (include_content : bool),
             lookup "published" kvs = Some v ->
             _format_entry_markdown utcoffset (VDict kvs) include_content
             = Raise (PyExc "TypeError" message)).
  { intros kvs ic Hp. unfold _format_entry_markdown, get. cbn [bind].
    rewrite Hp, Hts. reflexivity. }
  split; [exact Hts|]. split; [exact Hentry|].
  intros tok network id kvs log Htok Hnet Hp.
  destruct (get_client_usable tok Htok) as [cl Hcl].
  unfold returned, feedly_get_entry, try_except, feedly_get_entry_body, get_entry.
  rewrite Hcl. cbv beta iota delta [bind_io lift ret].
  match goal with
  | |- context [_request ?n ?c ?m ?ep ?pp ?j ?lg] =>
      destruct (request_carries n c m ep pp j lg _ Hnet) as [req ->]
  end.
  cbn [truthy negb getitem0]. rewrite (Hentry kvs true Hp). reflexivity.
Qed.

Lemma X23_non_numeric_timestamp_raises_witness :
  _format_timestamp utc (VStr "2024-01-01")
  = Raise (PyExc "TypeError" "unsupported operand type(s) for /: 'str' and 'int'")
  /\ returned (feedly_get_entry utc token
                 (ok_json (VList [VDict [("id", VStr "e1");
                                         ("published", VStr "2024-01-01")]]))
                 {| ge_entry_id := "e1"; ge_response_format := MARKDOWN |} [])
              "Error: TypeError: unsupported operand type(s) for /: 'str' and 'int'".
Proof.
  split.
  - apply (proj1 (X23_non_numeric_timestamp_raises utc (VStr "2024-01-01")
                    (or_introl eq_refl))).
  - apply (proj2 (proj2 (X23_non_numeric_timestamp_raises utc (VStr "2024-01-01")
                           (or_introl eq_refl)))
             token (ok_json (VList [VDict [("id", VStr "e1");
                                           ("published", VStr "2024-01-01")]]))
             "e1" [("id", VStr "e1"); ("published", VStr "2024-01-01")] []).
    + exact usable_token.
    + apply answers_answered. repeat split; try discriminate; vm_compute; discriminate.
    + reflexivity.
Defined.
